(** * tra-vfd: VAT arithmetic, aggregation, document building, signing and
    response classification

    A shallow embedding of the Go package [vfd] (and of [internal/models]).
    Go's [float64] is IEEE-754 binary64 with round-to-nearest-even; the
    kernel's primitive floats are the same format with the same rounding, so
    every [+], [-], [*] and [/] of the source is the primitive operation of
    the same name and the model computes the very bits the program computes
    (on targets that do not fuse a multiplication with an addition).
    [int64] values are only ever compared with constants or copied, so they
    are modelled as [Z]. Strings are byte strings. *)

From Stdlib Require Import ZArith Uint63 Floats Lia Ascii String Reals Lra.
From stdpp Require Import gmap strings list pretty.

(** ** float64 helpers: conversion, [math.Round], [fmt.Sprintf("%.2f", x)] *)

Module F64.

(** [float64(z)] for an integer constant or counter [z] with [|z| < 2^53]. *)
Definition of_Z (z : Z) : float :=
  match z with
  | Zneg p => PrimFloat.opp (PrimFloat.of_uint63 (Uint63.of_Z (Zpos p)))
  | _ => PrimFloat.of_uint63 (Uint63.of_Z z)
  end.

Definition hundred : float := of_Z 100.

(** The amount of [k] cents, [float64(k) / 100]: the binary64 value nearest to
    the decimal [k/100], which is what a decimal literal or a parsed decimal
    string denotes in Go. *)
Definition cents (k : Z) : float := PrimFloat.div (of_Z k) hundred.

(** [math.Round]: the nearest integer, halves away from zero;
    [Round(±0) = ±0], [Round(±Inf) = ±Inf], [Round(NaN) = NaN].
    As in Go's implementation the work is done on the mantissa: with
    [x = ± M * 2^(E-53)], [2^52 <= M < 2^53], the result is [±0] when [E < 0]
    (|x| < 1/2), [x] itself when [E > 52] (|x| >= 2^52 is an integer), and
    otherwise [± (M + half) >> s] with [s = 53 - E] fractional bits and
    [half = 2^(s-1)]. *)
Definition Round (x : float) : float :=
  if (PrimFloat.is_nan x || PrimFloat.is_infinity x || PrimFloat.is_zero x)%bool
  then x
  else
    let (m, e) := PrimFloat.frshiftexp x in
    let mag :=
      if Uint63.ltb e 2101%uint63 then PrimFloat.zero
      else if Uint63.ltb 2153%uint63 e then PrimFloat.abs x
      else
        let s := Uint63.sub 2154%uint63 e in
        let half := Uint63.lsl 1%uint63 (Uint63.sub s 1%uint63) in
        PrimFloat.of_uint63
          (Uint63.lsr (Uint63.add (PrimFloat.normfr_mantissa m) half) s) in
    if PrimFloat.get_sign x then PrimFloat.opp mag else mag.

(** The same function computed on the exact value [m * 2^e] of [x] with
    unbounded integers; used to cross-check [Round]. *)
Definition Round_exact (x : float) : float :=
  match Prim2SF x with
  | S754_finite s m e =>
      if (0 <=? e)%Z then x
      else
        let d := (2 ^ (- e))%Z in
        let n := ((2 * Zpos m + d) / (2 * d))%Z in
        if s then PrimFloat.opp (of_Z n) else of_Z n
  | _ => x
  end.

(** [math.Round(x*100) / 100], the rounding idiom used all over the source. *)
Definition round2 (x : float) : float :=
  PrimFloat.div (Round (PrimFloat.mul x hundred)) hundred.

(** [a / d] rounded to the nearest integer, ties to the even one ([d > 0]). *)
Definition half_even_div (a d : Z) : Z :=
  let q := (a / d)%Z in
  let r := (a mod d)%Z in
  if (2 * r <? d)%Z then q
  else if (d <? 2 * r)%Z then (q + 1)%Z
  else if Z.even q then q else (q + 1)%Z.

Definition two_digits (n : Z) : string :=
  (if (n <? 10)%Z then "0" else "") +:+ pretty (Z.to_N n).

Definition fmt_cents (neg : bool) (n : Z) : string :=
  (if neg then "-" else "") +:+ pretty (Z.to_N (n / 100)) +:+ "."
  +:+ two_digits (n mod 100).

(** [fmt.Sprintf("%.2f", x)]: the exact value of [x] correctly rounded to two
    decimals (ties to even), a minus sign whenever the sign bit is set. *)
Definition Sprintf_2f (x : float) : string :=
  match Prim2SF x with
  | S754_nan => "NaN"
  | S754_infinity false => "+Inf"
  | S754_infinity true => "-Inf"
  | S754_zero s => fmt_cents s 0
  | S754_finite s m e =>
      fmt_cents s
        (if (0 <=? e)%Z then (Zpos m * 2 ^ e * 100)%Z
         else half_even_div (Zpos m * 100) (2 ^ (- e)))
  end.

End F64.

(** [all_range p lo f]: [f] holds on every integer of [lo, lo + p). *)
Fixpoint all_range (p : positive) (lo : Z) (f : Z -> bool) : bool :=
  match p with
  | xH => f lo
  | xO q => all_range q lo f && all_range q (lo + Zpos q) f
  | xI q => f lo && all_range q (lo + 1) f && all_range q (lo + 1 + Zpos q) f
  end.

(** ** vat.go *)

Module ValueAddedTax.
Record t := mk { ID : string; Code : Z; Name : string; Percentage : float }.
End ValueAddedTax.

Definition StandardVATID := "A".
Definition StandardVATRATE : float := F64.of_Z 18.
Definition StandardVATCODE : Z := 1.
Definition SpecialVATID := "B".
Definition SpecialVATRATE : float := PrimFloat.zero.
Definition SpecialVATCODE : Z := 2.
Definition ZeroVATID := "C".
Definition ZeroVATRATE : float := PrimFloat.zero.
Definition ZeroVATCODE : Z := 3.
Definition SpecialReliefVATID := "D".
Definition SpecialReliefVATRATE : float := PrimFloat.zero.
Definition SpecialReliefVATCODE : Z := 4.
Definition ExemptedVATID := "E".
Definition ExemptedVATRATE : float := PrimFloat.zero.
Definition ExemptedVATCODE : Z := 5.
Definition TaxableItemCode : Z := 1.
Definition NonTaxableItemCode : Z := 3.

Definition standardVAT : ValueAddedTax.t :=
  ValueAddedTax.mk StandardVATID StandardVATCODE "Standard ValueAddedTax"
    StandardVATRATE.
Definition specialVAT : ValueAddedTax.t :=
  ValueAddedTax.mk SpecialVATID SpecialVATCODE "Special ValueAddedTax"
    SpecialVATRATE.
Definition zeroVAT : ValueAddedTax.t :=
  ValueAddedTax.mk ZeroVATID ZeroVATCODE "Zero ValueAddedTax" ZeroVATRATE.
Definition specialReliefVAT : ValueAddedTax.t :=
  ValueAddedTax.mk SpecialReliefVATID SpecialReliefVATCODE
    "Special Relief ValueAddedTax" SpecialReliefVATRATE.
Definition exemptedVAT : ValueAddedTax.t :=
  ValueAddedTax.mk ExemptedVATID ExemptedVATCODE "Exempted ValueAddedTax"
    ExemptedVATRATE.

(** [func (v *ValueAddedTax) NetAmount(totalAmount float64) float64] *)
Definition ValueAddedTax_NetAmount (v : ValueAddedTax.t) (totalAmount : float)
  : float :=
  let rate := (1 + ValueAddedTax.Percentage v / F64.hundred)%float in
  let netAmount := (totalAmount / rate)%float in
  (F64.Round (netAmount * F64.hundred) / F64.hundred)%float.

(** [func (v *ValueAddedTax) Amount(totalAmount float64) float64] *)
Definition ValueAddedTax_Amount (v : ValueAddedTax.t) (totalAmount : float)
  : float :=
  let netAmount := ValueAddedTax_NetAmount v totalAmount in
  let amount := (totalAmount - netAmount)%float in
  (F64.Round (amount * F64.hundred) / F64.hundred)%float.

Definition ParseTaxCode (code : Z) : ValueAddedTax.t :=
  match code with
  | 1%Z => standardVAT
  | 2%Z => specialVAT
  | 3%Z => zeroVAT
  | 4%Z => specialReliefVAT
  | 5%Z => exemptedVAT
  | _ => standardVAT
  end.

Definition ValueAddedTaxRate (taxCode : Z) : float :=
  ValueAddedTax.Percentage (ParseTaxCode taxCode).

Definition ValueAddedTaxID (taxCode : Z) : string :=
  ValueAddedTax.ID (ParseTaxCode taxCode).

Definition NetAmount (taxCode : Z) (price : float) : float :=
  let vat := ParseTaxCode taxCode in
  ValueAddedTax_NetAmount vat price.

Definition ValueAddedTaxAmount (taxCode : Z) (price : float) : float :=
  let vat := ParseTaxCode taxCode in
  let netAmount := ValueAddedTax_NetAmount vat price in
  let amount := (price - netAmount)%float in
  (F64.Round (amount * F64.hundred) / F64.hundred)%float.

(** [fmt.Sprintf("%s-%.2f", id, rate)] *)
Definition rate_key (id : string) (rate : float) : string :=
  id +:+ "-" +:+ F64.Sprintf_2f rate.

Definition ReportTaxRateID (taxCode : Z) : string :=
  let vat := ParseTaxCode taxCode in
  rate_key (ValueAddedTax.ID vat) (ValueAddedTax.Percentage vat).

(** ** Errors (errors.go and the standard error values the package tests for)

    Go's [error] values that the package creates or inspects. [url_Error] is
    the [*url.Error] that [http.Client.Do] returns; it implements [net.Error]
    and unwraps to its cause. [NetworkError] is the package's own
    [*NetworkError]; its [Err] field is [ctx.Err()] at one construction site
    and may therefore be [nil] ([None]). [fmt_Errorf_w msg e] is
    [fmt.Errorf] with a [%w] verb wrapping [e]; [errors_New msg] is any error
    without a cause ([errors.New], [fmt.Errorf] without [%w], decoder and
    library errors). *)
#[warnings="-register-all"]
Inductive error : Type :=
| context_Canceled
| context_DeadlineExceeded
| url_Error (cause : error)
| errors_New (msg : string)
| fmt_Errorf_w (msg : string) (wrapped : error)
| NetworkError (cause : option error) (Message : string).

Inductive result (A : Type) : Type :=
| Ok (a : A)
| Err (e : error).
Arguments Ok {A} a.
Arguments Err {A} e.

(** [errors.Unwrap]: for a [*NetworkError] it is the method
    [func (e *NetworkError) Unwrap() error], which returns the field [Err]. *)
Definition Unwrap (e : error) : option error :=
  match e with
  | NetworkError cause _ => cause
  | fmt_Errorf_w _ w => Some w
  | url_Error c => Some c
  | _ => None
  end.

(** [IsNetworkError]: [errors.As(err, &netErr)] with [netErr *NetworkError]
    walks the [Unwrap] chain until a [*NetworkError] is met. *)
Fixpoint IsNetworkError (e : error) : bool :=
  match e with
  | NetworkError _ _ => true
  | fmt_Errorf_w _ w => IsNetworkError w
  | url_Error c => IsNetworkError c
  | _ => false
  end.

(** [err.(net.Error)]: of the errors above [*url.Error] and
    [context.DeadlineExceeded] have the [Timeout] and [Temporary] methods. *)
Definition is_net_Error (e : error) : bool :=
  match e with
  | url_Error _ | context_DeadlineExceeded => true
  | _ => false
  end.

(** The state of a [context.Context] when it is asked for [ctx.Err()]. *)
Inductive ctx_state : Type := ctx_active | ctx_canceled | ctx_deadline_exceeded.

Definition ctx_Err (ctx : ctx_state) : option error :=
  match ctx with
  | ctx_active => None
  | ctx_canceled => Some context_Canceled
  | ctx_deadline_exceeded => Some context_DeadlineExceeded
  end.

Definition error_eqb_Canceled (e : error) : bool :=
  match e with context_Canceled => true | _ => false end.
Definition error_eqb_DeadlineExceeded (e : error) : bool :=
  match e with context_DeadlineExceeded => true | _ => false end.

(** [checkNetworkError(ctx, prefix, err)] with [err] possibly [nil]. *)
Definition checkNetworkError (ctx : ctx_state) (prefix : string)
  (err : option error) : option error :=
  match err with
  | None => None
  | Some err =>
      if (bool_decide (ctx_Err ctx <> None) || error_eqb_Canceled err
          || error_eqb_DeadlineExceeded err)%bool
      then Some (NetworkError (ctx_Err ctx)
                   (prefix +:+ ": context error (canceled or deadline exceeded)"))
      else if is_net_Error err
      then Some (NetworkError (Some err) (prefix +:+ ": network error"))
      else Some (fmt_Errorf_w (prefix +:+ ": ") err)
  end.

Definition SuccessCode : Z := 0.

Definition IsSuccess (code : Z) : bool := (code =? SuccessCode)%Z.

(** ** Constants, payment types and [ParsePayment] *)

(** [type PaymentType string] *)
Definition PaymentType := string.
Definition CashPaymentType : PaymentType := "CASH".
Definition CreditCardPaymentType : PaymentType := "CCARD".
Definition ChequePaymentType : PaymentType := "CHEQUE".
Definition InvoicePaymentType : PaymentType := "INVOICE".
Definition ElectronicPaymentType : PaymentType := "EMONEY".

Definition SubmitReceiptRoutingKey := "vfdrct".
Definition SubmitReportRoutingKey := "vfdzreport".
Definition ContentTypeXML := "application/xml".

Module Payment.
Record t := mk { Type_ : PaymentType; Amount : float }.
End Payment.

(** [vfd.VATTOTAL], the caller's per-category VAT entry of a Z report. *)
Module VATTOTAL.
Record t := mk { ID : string; Rate : float; TaxAmount : float; NetAmount : float }.
End VATTOTAL.

Module Response.
Record t := mk
  { Number : Z; Date : string; Time : string; Code : Z; Message : string }.
End Response.

(** A value of Go's [any]: its dynamic type and its value. A value of the
    defined type [PaymentType] has that dynamic type, not [string]: a type
    switch sends it to the clause of [string] only after the conversion
    [string(p)]. *)
Inductive int_kind : Type :=
| k_int | k_int8 | k_int16 | k_int32 | k_int64
| k_uint | k_uint8 | k_uint16 | k_uint32 | k_uint64.

Inductive any : Type :=
| any_integer (k : int_kind) (n : Z)
| any_string (s : string)
| any_PaymentType (p : PaymentType)
| any_float64 (x : float)
| any_bool (b : bool)
| any_nil.

(** A Go call either returns or panics. *)
Inductive outcome (A : Type) : Type :=
| Returns (a : A)
| Panics (msg : string).
Arguments Returns {A} a.
Arguments Panics {A} msg.

Definition upper_ascii (c : ascii) : ascii :=
  let n := nat_of_ascii c in
  if ((97 <=? n) && (n <=? 122))%nat then ascii_of_nat (n - 32) else c.

(** [strings.ToUpper] on the UTF-8 bytes of [s]. ASCII letters are mapped to
    upper case; the only two non-ASCII runes whose upper case is an ASCII
    letter, U+0131 (bytes C4 B1, upper case [I]) and U+017F (bytes C5 BF,
    upper case [S]), are mapped as Go maps them. Other non-ASCII bytes are
    kept: Go may change them, but only into non-ASCII bytes, so the result
    equals an ASCII string exactly when Go's does. *)
Fixpoint ToUpper (s : string) : string :=
  match s with
  | EmptyString => EmptyString
  | String c1 rest =>
      match rest with
      | String c2 rest' =>
          if ((nat_of_ascii c1 =? 196) && (nat_of_ascii c2 =? 177))%nat
          then String "I" (ToUpper rest')
          else if ((nat_of_ascii c1 =? 197) && (nat_of_ascii c2 =? 191))%nat
          then String "S" (ToUpper rest')
          else String (upper_ascii c1) (ToUpper rest)
      | EmptyString => String (upper_ascii c1) EmptyString
      end
  end.

Definition int_kind_name (k : int_kind) : string :=
  match k with
  | k_int => "int" | k_int8 => "int8" | k_int16 => "int16"
  | k_int32 => "int32" | k_int64 => "int64"
  | k_uint => "uint" | k_uint8 => "uint8" | k_uint16 => "uint16"
  | k_uint32 => "uint32" | k_uint64 => "uint64"
  end.

(** [i.(int)] for [i] of dynamic integer type [k]: the single-type assertion
    panics unless the dynamic type is exactly [int]. *)
Definition assert_int (k : int_kind) (n : Z) : outcome Z :=
  match k with
  | k_int => Returns n
  | _ => Panics ("interface conversion: interface {} is " +:+ int_kind_name k
                 +:+ ", not int")
  end.

(** [func ParsePayment(value any) PaymentType]. In the clause
    [case int, int64:] the variable [i] keeps the static type [any], and the
    body starts with [valueInt := i.(int)]. *)
Definition ParsePayment (value : any) : outcome PaymentType :=
  match value with
  | any_integer k n =>
      match k with
      | k_int | k_int64 =>
          match assert_int k n with
          | Panics msg => Panics msg
          | Returns valueInt =>
              match valueInt with
              | 1%Z => Returns CashPaymentType
              | 2%Z => Returns ChequePaymentType
              | 3%Z => Returns CreditCardPaymentType
              | 4%Z => Returns ElectronicPaymentType
              | 5%Z => Returns InvoicePaymentType
              | _ => Returns CashPaymentType
              end
          end
      | _ => Returns CashPaymentType
      end
  | any_string i =>
      let valueString := ToUpper i in
      if String.eqb valueString "CASH" then Returns CashPaymentType
      else if String.eqb valueString "CHEQUE" then Returns ChequePaymentType
      else if String.eqb valueString "CCARD" then Returns CreditCardPaymentType
      else if String.eqb valueString "EMONEY" then Returns ElectronicPaymentType
      else if String.eqb valueString "INVOICE" then Returns InvoicePaymentType
      else Returns CashPaymentType
  | _ => Returns CashPaymentType
  end.

(** ** internal/models: the wire structures

    The [XMLName] and [Text] fields are never set by the package and are
    left out. *)

Module models.

Module ITEM.
Record t := mk
  { ID : string; DESC : string; QTY : float; TAXCODE : Z; AMT : float }.
End ITEM.

Module TOTALS.
Record t := mk
  { TOTALTAXEXCL : float; TOTALTAXINCL : float; DISCOUNT : float }.
End TOTALS.

Module VATTOTAL.
Record t := mk { VATRATE : string; NETTAMOUNT : string; TAXAMOUNT : string }.
End VATTOTAL.

Module PAYMENT.
Record t := mk { PMTTYPE : string; PMTAMOUNT : string }.
End PAYMENT.

Module RCT.
Record t := mk
  { DATE : string; TIME : string; TIN : string; REGID : string;
    EFDSERIAL : string; CUSTIDTYPE : Z; CUSTID : string; CUSTNAME : string;
    MOBILENUM : string; RCTNUM : string; DC : Z; GC : Z; ZNUM : string;
    RCTVNUM : string;
    ITEMS : list ITEM.t;
    TOTALS : TOTALS.t;
    PAYMENTS : list PAYMENT.t;
    VATTOTALS : list VATTOTAL.t }.
End RCT.

Module REPORTTOTALS.
Record t := mk
  { DAILYTOTALAMOUNT : float; GROSS : float; CORRECTIONS : float;
    DISCOUNTS : float; SURCHARGES : float; TICKETSVOID : Z;
    TICKETSVOIDTOTAL : float; TICKETSFISCAL : Z; TICKETSNONFISCAL : Z }.
End REPORTTOTALS.

Module ZREPORT.
Record t := mk
  { DATE : string; TIME : string; HEADER_LINE : list string; VRN : string;
    TIN : string; TAXOFFICE : string; REGID : string; ZNUMBER : string;
    EFDSERIAL : string; REGISTRATIONDATE : string; USER : string;
    SIMIMSI : string;
    TOTALS : REPORTTOTALS.t;
    VATTOTALS : list VATTOTAL.t;
    PAYMENTS : list PAYMENT.t;
    CHANGES_VATCHANGENUM : string; CHANGES_HEADCHANGENUM : string;
    ERRORS : string; FWVERSION : string; FWCHECKSUM : string }.
End ZREPORT.

(** [func (r *RCT) RoundOff()]: the receiver is updated in place; here the
    updated structure is returned. *)
Definition RCT_RoundOff (r : RCT.t) : RCT.t :=
  let T := RCT.TOTALS r in
  let T' :=
    TOTALS.mk
      (F64.Round (TOTALS.TOTALTAXEXCL T * F64.hundred) / F64.hundred)%float
      (F64.Round (TOTALS.TOTALTAXINCL T * F64.hundred) / F64.hundred)%float
      (F64.Round (TOTALS.DISCOUNT T * F64.hundred) / F64.hundred)%float in
  RCT.mk (RCT.DATE r) (RCT.TIME r) (RCT.TIN r) (RCT.REGID r) (RCT.EFDSERIAL r)
    (RCT.CUSTIDTYPE r) (RCT.CUSTID r) (RCT.CUSTNAME r) (RCT.MOBILENUM r)
    (RCT.RCTNUM r) (RCT.DC r) (RCT.GC r) (RCT.ZNUM r) (RCT.RCTVNUM r)
    (RCT.ITEMS r) T' (RCT.PAYMENTS r) (RCT.VATTOTALS r).

(** [func (z *ZREPORT) RoundOff()] *)
Definition ZREPORT_RoundOff (z : ZREPORT.t) : ZREPORT.t :=
  let T := ZREPORT.TOTALS z in
  let T' :=
    REPORTTOTALS.mk
      (F64.Round (REPORTTOTALS.DAILYTOTALAMOUNT T * F64.hundred) / F64.hundred)%float
      (F64.Round (REPORTTOTALS.GROSS T * F64.hundred) / F64.hundred)%float
      (F64.Round (REPORTTOTALS.CORRECTIONS T * F64.hundred) / F64.hundred)%float
      (F64.Round (REPORTTOTALS.DISCOUNTS T * F64.hundred) / F64.hundred)%float
      (F64.Round (REPORTTOTALS.SURCHARGES T * F64.hundred) / F64.hundred)%float
      (REPORTTOTALS.TICKETSVOID T)
      (F64.Round (REPORTTOTALS.TICKETSVOIDTOTAL T * F64.hundred) / F64.hundred)%float
      (REPORTTOTALS.TICKETSFISCAL T)
      (REPORTTOTALS.TICKETSNONFISCAL T) in
  ZREPORT.mk (ZREPORT.DATE z) (ZREPORT.TIME z) (ZREPORT.HEADER_LINE z)
    (ZREPORT.VRN z) (ZREPORT.TIN z) (ZREPORT.TAXOFFICE z) (ZREPORT.REGID z)
    (ZREPORT.ZNUMBER z) (ZREPORT.EFDSERIAL z) (ZREPORT.REGISTRATIONDATE z)
    (ZREPORT.USER z) (ZREPORT.SIMIMSI z) T' (ZREPORT.VATTOTALS z)
    (ZREPORT.PAYMENTS z) (ZREPORT.CHANGES_VATCHANGENUM z)
    (ZREPORT.CHANGES_HEADCHANGENUM z) (ZREPORT.ERRORS z)
    (ZREPORT.FWVERSION z) (ZREPORT.FWCHECKSUM z).

End models.

(** ** report.go: the Z-report aggregator and builder *)

Module ReportTotals.
Record t := mk
  { DailyTotalAmount : float; Gross : float; Corrections : float;
    Discounts : float; Surcharges : float; TicketsVoid : Z;
    TicketsVoidTotal : float; TicketsFiscal : Z; TicketsNonFiscal : Z }.
End ReportTotals.

Module Address.
Record t := mk
  { Name : string; Street : string; Mobile : string; City : string;
    Country : string }.
End Address.

Module ReportParams.
Record t := mk
  { Date : string; Time : string; VRN : string; TIN : string; UIN : string;
    TaxOffice : string; RegistrationID : string; ZNumber : string;
    EFDSerial : string; RegistrationDate : string }.
End ReportParams.

(** [func (lines *Address) AsList() []string] ([ToUpper] as modelled above:
    exact on ASCII text). *)
Definition Address_AsList (lines : Address.t) : list string :=
  [ ToUpper (Address.Name lines);
    ToUpper (Address.Street lines);
    "MOBILE: " +:+ Address.Mobile lines;
    ToUpper (Address.City lines +:+ "," +:+ Address.Country lines) ].

(** The Go map [map[string]struct{NetAmount, TaxAmount float64}]; reading a
    missing key yields the zero struct. *)
Definition vat_lookup (m : gmap string (float * float)) (k : string)
  : float * float :=
  default (PrimFloat.zero, PrimFloat.zero) (m !! k).

Definition vatTotalMap_init : gmap string (float * float) :=
  <["A-18.00" := (PrimFloat.zero, PrimFloat.zero)]>
  (<["B-0.00" := (PrimFloat.zero, PrimFloat.zero)]>
  (<["C-0.00" := (PrimFloat.zero, PrimFloat.zero)]>
  (<["D-0.00" := (PrimFloat.zero, PrimFloat.zero)]>
  (<["E-0.00" := (PrimFloat.zero, PrimFloat.zero)]> ∅)))).

(** One iteration of the loop of [sumVatTotals]. *)
Definition sumVatTotals_step (vatTotalMap : gmap string (float * float))
  (vat : VATTOTAL.t) : gmap string (float * float) :=
  let rate := rate_key (VATTOTAL.ID vat) (VATTOTAL.Rate vat) in
  <[rate := ((vat_lookup vatTotalMap rate).1 + VATTOTAL.NetAmount vat,
             (vat_lookup vatTotalMap rate).2 + VATTOTAL.TaxAmount vat)%float]>
    vatTotalMap.

Definition vat_entry (m : gmap string (float * float)) (k : string)
  : models.VATTOTAL.t :=
  models.VATTOTAL.mk k (F64.Sprintf_2f (vat_lookup m k).1)
    (F64.Sprintf_2f (vat_lookup m k).2).

Definition sumVatTotals (vats : list VATTOTAL.t) : list models.VATTOTAL.t :=
  let vatTotalMap := fold_left sumVatTotals_step vats vatTotalMap_init in
  [ vat_entry vatTotalMap "A-18.00";
    vat_entry vatTotalMap "B-0.00";
    vat_entry vatTotalMap "C-0.00";
    vat_entry vatTotalMap "D-0.00";
    vat_entry vatTotalMap "E-0.00" ].

(** The Go map [map[string]float64] of [sumPayments]. *)
Definition pay_lookup (m : gmap string float) (k : string) : float :=
  default PrimFloat.zero (m !! k).

Definition paymentMap_init : gmap string float :=
  <["CASH" := PrimFloat.zero]>
  (<["CHEQUE" := PrimFloat.zero]>
  (<["CCARD" := PrimFloat.zero]>
  (<["EMONEY" := PrimFloat.zero]>
  (<["INVOICE" := PrimFloat.zero]> ∅)))).

(** [paymentMap[pType] += p.Amount] *)
Definition sumPayments_step (paymentMap : gmap string float) (p : Payment.t)
  : gmap string float :=
  let pType := Payment.Type_ p in
  <[pType := (pay_lookup paymentMap pType + Payment.Amount p)%float]> paymentMap.

Definition pay_entry (m : gmap string float) (k : string) : models.PAYMENT.t :=
  models.PAYMENT.mk k (F64.Sprintf_2f (pay_lookup m k)).

Definition sumPayments (payments : list Payment.t) : list models.PAYMENT.t :=
  let paymentMap := fold_left sumPayments_step payments paymentMap_init in
  [ pay_entry paymentMap "CASH";
    pay_entry paymentMap "CHEQUE";
    pay_entry paymentMap "CCARD";
    pay_entry paymentMap "EMONEY";
    pay_entry paymentMap "INVOICE" ].

(** [generateZReport]. The source ends with the line [// report.RoundOff()]:
    the call is commented out, so the structure is returned as assembled. *)
Definition generateZReport (params : ReportParams.t) (address : Address.t)
  (vats : list VATTOTAL.t) (payments : list Payment.t)
  (totals : ReportTotals.t) : models.ZREPORT.t :=
  let PAYMENTS := sumPayments payments in
  let VATTOTALS := sumVatTotals vats in
  let TT :=
    models.REPORTTOTALS.mk
      (ReportTotals.DailyTotalAmount totals) (ReportTotals.Gross totals)
      (ReportTotals.Corrections totals) (ReportTotals.Discounts totals)
      (ReportTotals.Surcharges totals) (ReportTotals.TicketsVoid totals)
      (ReportTotals.TicketsVoidTotal totals)
      (ReportTotals.TicketsFiscal totals)
      (ReportTotals.TicketsNonFiscal totals) in
  models.ZREPORT.mk
    (ReportParams.Date params) (ReportParams.Time params)
    (Address_AsList address)
    (ReportParams.VRN params) (ReportParams.TIN params)
    (ReportParams.TaxOffice params) (ReportParams.RegistrationID params)
    (ReportParams.ZNumber params) (ReportParams.EFDSerial params)
    (ReportParams.RegistrationDate params) (ReportParams.UIN params)
    "WEBAPI" TT VATTOTALS PAYMENTS "0" "0" EmptyString "3.0" "WEBAPI".

(** ** receipt.go: line items and the receipt builder *)

Module ReceiptParams.
Record t := mk
  { Date : string; Time : string; TIN : string; RegistrationID : string;
    EFDSerial : string; ReceiptNum : string; DailyCounter : Z;
    GlobalCounter : Z; ZNum : string; ReceiptVNum : string }.
End ReceiptParams.

Module Customer.
Record t := mk { Type_ : Z; ID : string; Name : string; Mobile : string }.
End Customer.

Module Item.
Record t := mk
  { ID : string; Description : string; TaxCode : Z; Quantity : float;
    UnitPrice : float; Discount : float }.
End Item.

(** The unexported accumulator [vatTotal]. *)
Module vatTotal.
Record t := mk { VATRATE : string; NETTAMOUNT : float; TAXAMOUNT : float }.
End vatTotal.

Module ItemProcessResponse.
Record t := mk
  { ITEMS : list models.ITEM.t;
    VATTOTALS : list models.VATTOTAL.t;
    TOTALS : models.TOTALS.t }.
End ItemProcessResponse.

(** The variables of the loop of [ProcessItems]. *)
Module ProcessState.
Record t := mk
  { DISCOUNT : float; TOTALTAXEXCLUSIVE : float; TOTALTAXINCLUSIVE : float;
    vatTotals : gmap string vatTotal.t;
    ITEMS : list models.ITEM.t }.
End ProcessState.

Definition ProcessItems_init : ProcessState.t :=
  ProcessState.mk PrimFloat.zero PrimFloat.zero PrimFloat.zero ∅ [].

(** The body of [for _, item := range items]. The map holds pointers that are
    not shared, so updating the pointed accumulator is an update of the map. *)
Definition ProcessItems_step (st : ProcessState.t) (item : Item.t)
  : ProcessState.t :=
  let itemAmount := (Item.Quantity item * Item.UnitPrice item)%float in
  let itemXML :=
    models.ITEM.mk (Item.ID item) (Item.Description item) (Item.Quantity item)
      (Item.TaxCode item) itemAmount in
  let itemAmountWithoutDiscount := (itemAmount - Item.Discount item)%float in
  let DISCOUNT := (ProcessState.DISCOUNT st + Item.Discount item)%float in
  let ITEMS := ProcessState.ITEMS st ++ [itemXML] in
  let NETAMOUNT := NetAmount (Item.TaxCode item) itemAmountWithoutDiscount in
  let TOTALTAXEXCLUSIVE :=
    (ProcessState.TOTALTAXEXCLUSIVE st + NETAMOUNT)%float in
  let TOTALTAXINCLUSIVE :=
    (ProcessState.TOTALTAXINCLUSIVE st + itemAmountWithoutDiscount)%float in
  let TAXAMOUNT :=
    ValueAddedTaxAmount (Item.TaxCode item) itemAmountWithoutDiscount in
  let vatID := ValueAddedTax.ID (ParseTaxCode (Item.TaxCode item)) in
  let vatTotals :=
    match ProcessState.vatTotals st !! vatID with
    | None =>
        <[vatID := vatTotal.mk vatID NETAMOUNT TAXAMOUNT]>
          (ProcessState.vatTotals st)
    | Some v =>
        <[vatID := vatTotal.mk (vatTotal.VATRATE v)
                     (vatTotal.NETTAMOUNT v + NETAMOUNT)%float
                     (vatTotal.TAXAMOUNT v + TAXAMOUNT)%float]>
          (ProcessState.vatTotals st)
    end in
  ProcessState.mk DISCOUNT TOTALTAXEXCLUSIVE TOTALTAXINCLUSIVE vatTotals ITEMS.

Definition render_vatTotal (v : vatTotal.t) : models.VATTOTAL.t :=
  models.VATTOTAL.mk (vatTotal.VATRATE v)
    (F64.Sprintf_2f (vatTotal.NETTAMOUNT v))
    (F64.Sprintf_2f (vatTotal.TAXAMOUNT v)).

(** [xml.Header] *)
Definition xml_Header : string :=
  "<?xml version=" +:+ String (ascii_of_nat 34) "1.0"
  +:+ String (ascii_of_nat 34) " encoding="
  +:+ String (ascii_of_nat 34) "UTF-8"
  +:+ String (ascii_of_nat 34) "?>"
  +:+ String (ascii_of_nat 10) EmptyString.

(** [strings.NewReplacer(old1, new1, ...).Replace(s)] for non-empty [old]
    strings: the input is scanned from the left; at each position the first
    pair (in argument order) whose [old] is a prefix of the rest is applied
    and the scan resumes after the match; otherwise the byte is copied. *)
Fixpoint first_match (pairs : list (string * string)) (s : string)
  : option (string * string) :=
  match pairs with
  | [] => None
  | (old, new) :: rest =>
      if String.prefix old s then Some (old, new) else first_match rest s
  end.

Fixpoint Replacer_go (pairs : list (string * string)) (skip : nat) (s : string)
  : string :=
  match s with
  | EmptyString => EmptyString
  | String c rest =>
      match skip with
      | S n => Replacer_go pairs n rest
      | O =>
          match first_match pairs s with
          | Some (old, new) =>
              new +:+ Replacer_go pairs (String.length old - 1) rest
          | None => String c (Replacer_go pairs 0 rest)
          end
      end
  end.

Definition Replacer_Replace (pairs : list (string * string)) (s : string)
  : string := Replacer_go pairs 0 s.

(** The replacer built in [ReceiptBytes] and in [formatReportXmlPayload]. *)
Definition wrapper_tags : list (string * string) :=
  [ ("<PAYMENT>", EmptyString); ("</PAYMENT>", EmptyString);
    ("<VATTOTAL>", EmptyString); ("</VATTOTAL>", EmptyString) ].

(** [fmt.Sprintf("<EFDMS>%s<EFDMSSIGNATURE>%s</EFDMSSIGNATURE></EFDMS>", p, sg)]
    prefixed with [xml.Header]. *)
Definition envelope (payload signature : string) : string :=
  xml_Header +:+
  ("<EFDMS>" +:+ payload +:+ "<EFDMSSIGNATURE>" +:+ signature
   +:+ "</EFDMSSIGNATURE></EFDMS>").

(** ** Wire acknowledgements and the HTTP exchange *)

Module RCTACK.
Record t := mk
  { RCTNUM : Z; DATE : string; TIME : string; ACKCODE : Z; ACKMSG : string }.
End RCTACK.

Module ZACK.
Record t := mk
  { ZNUMBER : Z; DATE : string; TIME : string; ACKCODE : Z; ACKMSG : string }.
End ZACK.

Module RequestHeaders.
Record t := mk { CertSerial : string; BearerToken : string }.
End RequestHeaders.

Module Request.
Record t := mk
  { Method : string; URL : string; Header : list (string * string);
    Body : list Byte.byte }.
End Request.

(** What [client.Do(req)] followed by [io.ReadAll(resp.Body)] can yield: an
    error from [Do], or a response with its status code and the outcome of
    reading its body. *)
Inductive http_reply : Type :=
| DoFailed (err : error)
| DoResponse (StatusCode : Z) (body : result (list Byte.byte)).

Module ReceiptRequest.
Record t := mk
  { Params : ReceiptParams.t; Customer : Customer.t; Items : list Item.t;
    Payments : list Payment.t }.
End ReceiptRequest.

Module ReportRequest.
Record t := mk
  { Params : ReportParams.t; Address : Address.t; Totals : ReportTotals.t;
    VATS : list VATTOTAL.t; Payment : list Payment.t }.
End ReportRequest.

(** ** Instances of the external collaborators

    [Base64] is the standard alphabet with padding of RFC 4648, which is
    [base64.StdEncoding]. [Sample] holds small stand-ins for the other
    collaborators (a textbook RSA over a one-byte checksum, a serializer
    that writes a few fields, canned HTTP replies); they are used to run the
    pipeline on concrete inputs. *)

Module Base64.

Definition alphabet : string :=
  "ABCDEFGHIJKLMNOPQRSTUVWXYZabcdefghijklmnopqrstuvwxyz0123456789+/".

Definition pad : ascii := "="%char.

Definition enc_char (n : N) : ascii :=
  default pad (String.get (N.to_nat n) alphabet).

Definition dec_char (c : ascii) : option N :=
  let n := N_of_ascii c in
  if ((65 <=? n) && (n <=? 90))%N then Some (n - 65)%N
  else if ((97 <=? n) && (n <=? 122))%N then Some (n - 71)%N
  else if ((48 <=? n) && (n <=? 57))%N then Some (n + 4)%N
  else if (n =? 43)%N then Some 62%N
  else if (n =? 47)%N then Some 63%N
  else None.

Definition byte_of_N (n : N) : Byte.byte := default Byte.x00 (Byte.of_N n).

(** The four 6-bit groups of three bytes. *)
Definition sextets (a b c : N) : N * N * N * N :=
  ((a / 4), ((a mod 4) * 16 + b / 16), ((b mod 16) * 4 + c / 64), (c mod 64))%N.

Fixpoint EncodeToString (src : list Byte.byte) : string :=
  match src with
  | [] => EmptyString
  | [a] =>
      let '(s0, s1, _, _) := sextets (Byte.to_N a) 0 0 in
      String (enc_char s0) (String (enc_char s1) (String pad (String pad EmptyString)))
  | [a; b] =>
      let '(s0, s1, s2, _) := sextets (Byte.to_N a) (Byte.to_N b) 0 in
      String (enc_char s0)
        (String (enc_char s1) (String (enc_char s2) (String pad EmptyString)))
  | a :: b :: c :: rest =>
      let '(s0, s1, s2, s3) :=
        sextets (Byte.to_N a) (Byte.to_N b) (Byte.to_N c) in
      String (enc_char s0)
        (String (enc_char s1)
           (String (enc_char s2) (String (enc_char s3) (EncodeToString rest))))
  end.

Definition corrupt : error := errors_New "illegal base64 data".

(** Carriage returns and line feeds are skipped by the decoder. *)
Fixpoint skip_newlines (s : string) : string :=
  match s with
  | EmptyString => EmptyString
  | String c rest =>
      if ((N_of_ascii c =? 10) || (N_of_ascii c =? 13))%N
      then skip_newlines rest
      else String c (skip_newlines rest)
  end.

Fixpoint decode_quanta (s : string) : result (list Byte.byte) :=
  match s with
  | EmptyString => Ok []
  | String c0 (String c1 (String c2 (String c3 rest))) =>
      match dec_char c0, dec_char c1 with
      | Some s0, Some s1 =>
          let b0 := byte_of_N (s0 * 4 + s1 / 16) in
          if Ascii.eqb c2 pad then
            if (Ascii.eqb c3 pad && String.eqb rest EmptyString)%bool
            then Ok [b0] else Err corrupt
          else
            match dec_char c2 with
            | Some s2 =>
                let b1 := byte_of_N ((s1 mod 16) * 16 + s2 / 4) in
                if Ascii.eqb c3 pad then
                  if String.eqb rest EmptyString then Ok [b0; b1]
                  else Err corrupt
                else
                  match dec_char c3 with
                  | Some s3 =>
                      let b2 := byte_of_N ((s2 mod 4) * 64 + s3) in
                      match decode_quanta rest with
                      | Ok l => Ok (b0 :: b1 :: b2 :: l)
                      | Err e => Err e
                      end
                  | None => Err corrupt
                  end
            | None => Err corrupt
            end
      | _, _ => Err corrupt
      end
  | _ => Err corrupt
  end.

Definition DecodeString (s : string) : result (list Byte.byte) :=
  decode_quanta (skip_newlines s).

End Base64.

Module Sample.

(** One admissible order of ranging over the map: that of [map_to_list]. *)
Definition map_range (m : gmap string vatTotal.t) : list vatTotal.t :=
  (map_to_list m).*2.

Record PrivateKey := mkKey
  { modulus : N; public_exponent : N; private_exponent : N }.
Definition PublicKey : Type := (N * N)%type.
Definition PublicKey_of (k : PrivateKey) : PublicKey :=
  (modulus k, public_exponent k).

(** A one-byte checksum below 251 in the place of SHA-1. *)
Definition sha1_Sum (payload : list Byte.byte) : list Byte.byte :=
  [Base64.byte_of_N
     (fold_left (fun acc b => ((31 * acc + Byte.to_N b) mod 251)%N) payload 7%N)].

Definition rsa_SignPKCS1v15 (k : PrivateKey) (hashed : list Byte.byte)
  : result (list Byte.byte) :=
  match hashed with
  | [h] =>
      Ok [Base64.byte_of_N ((Byte.to_N h ^ private_exponent k) mod modulus k)%N]
  | _ => Err (errors_New "crypto/rsa: input must be hashed message")
  end.

Definition rsa_VerifyPKCS1v15 (pub : PublicKey) (hashed sig : list Byte.byte)
  : option error :=
  match hashed, sig with
  | [h], [s] =>
      if (((Byte.to_N s ^ pub.2) mod pub.1) =? Byte.to_N h)%N then None
      else Some (errors_New "crypto/rsa: verification error")
  | _, _ => Some (errors_New "crypto/rsa: verification error")
  end.

(** [253 = 11 * 23] and [3 * 147 = 1 mod 220]. *)
Definition good_key : PrivateKey := mkKey 253 3 147.
(** The same key with a damaged private exponent. *)
Definition corrupted_key : PrivateKey := mkKey 253 3 5.

Definition tag (name body : string) : string :=
  "<" +:+ name +:+ ">" +:+ body +:+ "</" +:+ name +:+ ">".

Definition concat_map {A : Type} (f : A -> string) (l : list A) : string :=
  fold_right (fun x acc => f x +:+ acc) EmptyString l.

Definition marshal_PAYMENT (p : models.PAYMENT.t) : string :=
  tag "PAYMENT"
    (tag "PMTTYPE" (models.PAYMENT.PMTTYPE p)
     +:+ tag "PMTAMOUNT" (models.PAYMENT.PMTAMOUNT p)).

Definition marshal_VATTOTAL (v : models.VATTOTAL.t) : string :=
  tag "VATTOTAL"
    (tag "VATRATE" (models.VATTOTAL.VATRATE v)
     +:+ tag "NETTAMOUNT" (models.VATTOTAL.NETTAMOUNT v)
     +:+ tag "TAXAMOUNT" (models.VATTOTAL.TAXAMOUNT v)).

Definition xml_Marshal_RCT (r : models.RCT.t) : result (list Byte.byte) :=
  Ok (list_byte_of_string
        (tag "RCT"
           (tag "DATE" (models.RCT.DATE r)
            +:+ tag "TIME" (models.RCT.TIME r)
            +:+ tag "TOTALS"
                  (tag "TOTALTAXEXCL"
                     (F64.Sprintf_2f
                        (models.TOTALS.TOTALTAXEXCL (models.RCT.TOTALS r)))
                   +:+ tag "TOTALTAXINCL"
                         (F64.Sprintf_2f
                            (models.TOTALS.TOTALTAXINCL (models.RCT.TOTALS r)))
                   +:+ tag "DISCOUNT"
                         (F64.Sprintf_2f
                            (models.TOTALS.DISCOUNT (models.RCT.TOTALS r))))
            +:+ tag "PAYMENTS"
                  (concat_map marshal_PAYMENT (models.RCT.PAYMENTS r))
            +:+ tag "VATTOTALS"
                  (concat_map marshal_VATTOTAL (models.RCT.VATTOTALS r))))).

Definition xml_Marshal_ZREPORT (z : models.ZREPORT.t)
  : result (list Byte.byte) :=
  Ok (list_byte_of_string
        (tag "ZREPORT"
           (tag "DATE" (models.ZREPORT.DATE z)
            +:+ tag "TIME" (models.ZREPORT.TIME z)
            +:+ tag "VATTOTALS"
                  (concat_map marshal_VATTOTAL (models.ZREPORT.VATTOTALS z))
            +:+ tag "PAYMENTS"
                  (concat_map marshal_PAYMENT (models.ZREPORT.PAYMENTS z))))).

(** The sample serializer writes neither [DAILYTOTALAMOUNT] nor [GROSS], so
    the two substitutions find nothing to replace. *)
Definition regexp_ReplaceAllString (pattern src repl : string) : string := src.

Definition http_NewRequest_err (url : string) : option error := None.

(** A transport that fails because the context was canceled. *)
Definition client_canceled (req : Request.t) : http_reply :=
  DoFailed (url_Error context_Canceled).

(** An authority that answers 500 with an error body. *)
Definition client_500 (req : Request.t) : http_reply :=
  DoResponse 500
    (Ok (list_byte_of_string
           "<Error><Message>Invalid Signature</Message></Error>")).

(** A transport that delivers the status line and the headers of the reply
    and then breaks: [client.Do] returns a response, and [io.ReadAll] on its
    body stops with [context.Canceled]. *)
Definition client_broken_body (req : Request.t) : http_reply :=
  DoResponse 200 (Err context_Canceled).

(** The text between the first [open] and the next [close]. *)
Definition between (open close s : string) : option string :=
  match String.index 0 open s with
  | None => None
  | Some i =>
      let start := (i + String.length open)%nat in
      match String.index start close s with
      | None => None
      | Some j => Some (String.substring start (j - start) s)
      end
  end.

Definition xml_Decode_Error (body : list Byte.byte) : result string :=
  match between "<Message>" "</Message>" (string_of_list_byte body) with
  | Some m => Ok m
  | None => Err (errors_New "EOF")
  end.

Definition xml_Decode_RCTACKEFDMS (body : list Byte.byte) : result RCTACK.t :=
  match between "<ACKMSG>" "</ACKMSG>" (string_of_list_byte body) with
  | Some m => Ok (RCTACK.mk 0 EmptyString EmptyString 0 m)
  | None => Err (errors_New "EOF")
  end.

Definition xml_Decode_ReportAckEFDMS (body : list Byte.byte) : result ZACK.t :=
  match between "<ACKMSG>" "</ACKMSG>" (string_of_list_byte body) with
  | Some m => Ok (ZACK.mk 0 EmptyString EmptyString 0 m)
  | None => Err (errors_New "EOF")
  end.

(** The receipt of the package's test. *)
Definition items : list Item.t :=
  [ Item.mk "1" "Item 1" TaxableItemCode (F64.of_Z 5) (F64.of_Z 2000)
      (F64.of_Z 5000) ].
Definition payments : list Payment.t :=
  [ Payment.mk CashPaymentType (F64.of_Z 5000) ].
Definition params : ReceiptParams.t :=
  ReceiptParams.mk "2022-11-17" "14:00:00" "TQR6W5FWC" "262T3FSSS"
    "SGSYSTHSSJ" EmptyString 1 100 EmptyString EmptyString.
Definition customer : Customer.t :=
  Customer.mk 5 "516221638383907151" "John doe" "255765992153".
Definition receipt : ReceiptRequest.t :=
  ReceiptRequest.mk params customer items payments.

Definition report_params : ReportParams.t :=
  ReportParams.mk "2022-11-17" "23:59:00" "40005334W" "TQR6W5FWC" "09VFDWEBAPI"
    "Tax Office" "262T3FSSS" "20221117" "SGSYSTHSSJ" "2022-01-01".
Definition address : Address.t :=
  Address.mk "Shop" "Street" "255765992153" "Dar es Salaam" "Tanzania".
Definition vats : list VATTOTAL.t :=
  [ VATTOTAL.mk "A" (F64.of_Z 18) (F64.cents 76271) (F64.cents 423729) ].
Definition totals : ReportTotals.t :=
  ReportTotals.mk (F64.of_Z 5000) (F64.of_Z 5000) PrimFloat.zero
    (F64.of_Z 5000) PrimFloat.zero 0 PrimFloat.zero 1 0.
Definition report : ReportRequest.t :=
  ReportRequest.mk report_params address totals vats payments.

Definition headers : RequestHeaders.t :=
  RequestHeaders.mk "10TZ100128" "token".

End Sample.

(** ** The pipeline over its external collaborators

    Everything the package takes from outside is a variable of this section:
    the order in which Go ranges over a map, [crypto/rsa], [crypto/sha1],
    [encoding/base64], [encoding/xml], [regexp] and the HTTP client. *)

Section Pipeline.

(** [for _, v := range vatTotals]: Go visits the entries of a map in an
    unspecified order; [map_range] is that order. *)
Variable map_range : gmap string vatTotal.t -> list vatTotal.t.
Hypothesis map_range_perm :
  forall m, map_range m ≡ₚ (map_to_list m).*2.

(** [func ProcessItems(items []Item) *ItemProcessResponse] *)
Definition ProcessItems (items : list Item.t) : ItemProcessResponse.t :=
  let st := fold_left ProcessItems_step items ProcessItems_init in
  let VATTOTALS := map render_vatTotal (map_range (ProcessState.vatTotals st)) in
  let TOTALS :=
    models.TOTALS.mk (ProcessState.TOTALTAXEXCLUSIVE st)
      (ProcessState.TOTALTAXINCLUSIVE st) (ProcessState.DISCOUNT st) in
  ItemProcessResponse.mk (ProcessState.ITEMS st) VATTOTALS TOTALS.

(** The structure assembled by [generateReceipt] before [RECEIPT.RoundOff()]. *)
Definition assembleReceipt (params : ReceiptParams.t) (customer : Customer.t)
  (items : list Item.t) (payments : list Payment.t) : models.RCT.t :=
  let rctPayments :=
    map (fun payment =>
           models.PAYMENT.mk (Payment.Type_ payment)
             (F64.Sprintf_2f (Payment.Amount payment))) payments in
  let RESULTS := ProcessItems items in
  models.RCT.mk
    (ReceiptParams.Date params) (ReceiptParams.Time params)
    (ReceiptParams.TIN params) (ReceiptParams.RegistrationID params)
    (ReceiptParams.EFDSerial params) (Customer.Type_ customer)
    (Customer.ID customer) (Customer.Name customer) (Customer.Mobile customer)
    (ReceiptParams.ReceiptNum params) (ReceiptParams.DailyCounter params)
    (ReceiptParams.GlobalCounter params) (ReceiptParams.ZNum params)
    (ReceiptParams.ReceiptVNum params)
    (ItemProcessResponse.ITEMS RESULTS)
    (ItemProcessResponse.TOTALS RESULTS)
    rctPayments
    (ItemProcessResponse.VATTOTALS RESULTS).

(** [func generateReceipt(params, customer, items, payments) *models.RCT] *)
Definition generateReceipt (params : ReceiptParams.t) (customer : Customer.t)
  (items : list Item.t) (payments : list Payment.t) : models.RCT.t :=
  models.RCT_RoundOff (assembleReceipt params customer items payments).

(** *** crypto.go *)

Variable PrivateKey PublicKey : Type.
(** [&privateKey.PublicKey] *)
Variable PublicKey_of : PrivateKey -> PublicKey.
(** [sha1.Sum(payload)], also what [crypto.SHA1.New()], [Write] and
    [Sum(nil)] compute. *)
Variable sha1_Sum : list Byte.byte -> list Byte.byte.
(** [rsa.SignPKCS1v15(rand.Reader, key, crypto.SHA1, hashed)]; the random
    source only blinds the private-key operation, the signature is a function
    of the key and the digest. *)
Variable rsa_SignPKCS1v15 : PrivateKey -> list Byte.byte -> result (list Byte.byte).
(** [rsa.VerifyPKCS1v15(pub, crypto.SHA1, hashed, sig)]; [None] is [nil]. *)
Variable rsa_VerifyPKCS1v15 :
  PublicKey -> list Byte.byte -> list Byte.byte -> option error.
(** [base64.StdEncoding] *)
Variable base64_EncodeToString : list Byte.byte -> string.
Variable base64_DecodeString : string -> result (list Byte.byte).

Definition encodeBase64Bytes (val : list Byte.byte) : string :=
  base64_EncodeToString val.

Definition encodeBase64String (val : string) : string :=
  base64_EncodeToString (list_byte_of_string val).

Definition signPayload (key : PrivateKey) (payload : list Byte.byte)
  : result (list Byte.byte) :=
  match rsa_SignPKCS1v15 key (sha1_Sum payload) with
  | Err err => Err err
  | Ok out => Ok out
  end.

Definition verifySignature (pub : PublicKey) (hash sig : list Byte.byte)
  : option error :=
  rsa_VerifyPKCS1v15 pub hash sig.

Definition Sign (privateKey : PrivateKey) (payload : list Byte.byte)
  : result (list Byte.byte) :=
  match signPayload privateKey payload with
  | Err err => Err (fmt_Errorf_w "unable to sign the payload: " err)
  | Ok signature =>
      let hash := sha1_Sum payload in
      match verifySignature (PublicKey_of privateKey) hash signature with
      | Some err => Err (fmt_Errorf_w "could not verify signature " err)
      | None => Ok signature
      end
  end.

Definition VerifySignature (publicKey : PublicKey) (payload : list Byte.byte)
  (signature : string) : option error :=
  match base64_DecodeString signature with
  | Err err => Some (fmt_Errorf_w "could not verify signature " err)
  | Ok sg =>
      let hash := sha1_Sum payload in
      match rsa_VerifyPKCS1v15 publicKey hash sg with
      | Some err => Some (fmt_Errorf_w "could not verify signature " err)
      | None => None
      end
  end.

Definition SignPayload (privateKey : PrivateKey) (payload : list Byte.byte)
  : result (list Byte.byte) :=
  match signPayload privateKey payload with
  | Err err => Err (fmt_Errorf_w "unable to sign the payload: " err)
  | Ok out =>
      match VerifySignature (PublicKey_of privateKey) payload
              (base64_EncodeToString out) with
      | Some err => Err (fmt_Errorf_w "invalid signature " err)
      | None => Ok out
      end
  end.

(** *** Canonical bytes and envelope *)

Variable xml_Marshal_RCT : models.RCT.t -> result (list Byte.byte).
Variable xml_Marshal_ZREPORT : models.ZREPORT.t -> result (list Byte.byte).
(** [regexp.MustCompile(pattern).ReplaceAllString(src, repl)] *)
Variable regexp_ReplaceAllString : string -> string -> string -> string.

(** The bytes handed to [Sign] by [ReceiptBytes]. *)
Definition receiptPayload (receiptBytes : list Byte.byte) : list Byte.byte :=
  list_byte_of_string
    (Replacer_Replace wrapper_tags (string_of_list_byte receiptBytes)).

Definition ReceiptBytes (privateKey : PrivateKey) (params : ReceiptParams.t)
  (customer : Customer.t) (items : list Item.t) (payments : list Payment.t)
  : result (list Byte.byte) :=
  let receipt := generateReceipt params customer items payments in
  match xml_Marshal_RCT receipt with
  | Err err => Err (fmt_Errorf_w "could not marshal receipt: " err)
  | Ok receiptBytes =>
      let receiptBytes := receiptPayload receiptBytes in
      match Sign privateKey receiptBytes with
      | Err err => Err (fmt_Errorf_w "could not sign receipt: " err)
      | Ok signedReceipt =>
          let base64SignedReceipt := encodeBase64Bytes signedReceipt in
          let receiptString := string_of_list_byte receiptBytes in
          Ok (list_byte_of_string (envelope receiptString base64SignedReceipt))
      end
  end.

Definition formatReportXmlPayload (payload : list Byte.byte)
  (totals : ReportTotals.t) (vats : list VATTOTAL.t)
  (payments : list Payment.t) : string :=
  let payloadString :=
    Replacer_Replace wrapper_tags (string_of_list_byte payload) in
  let dailyAmountTag :=
    "<DAILYTOTALAMOUNT>"
    +:+ F64.Sprintf_2f (ReportTotals.DailyTotalAmount totals)
    +:+ "</DAILYTOTALAMOUNT>" in
  let grossAmountTag :=
    "<GROSS>" +:+ F64.Sprintf_2f (ReportTotals.Gross totals) +:+ "</GROSS>" in
  let payloadString :=
    regexp_ReplaceAllString "<DAILYTOTALAMOUNT>.*</DAILYTOTALAMOUNT>"
      payloadString dailyAmountTag in
  let payloadString :=
    regexp_ReplaceAllString "<GROSS>.*</GROSS>" payloadString grossAmountTag in
  payloadString.

Definition ReportBytes (privateKey : PrivateKey) (params : ReportParams.t)
  (address : Address.t) (vats : list VATTOTAL.t) (payments : list Payment.t)
  (totals : ReportTotals.t) : result (list Byte.byte) :=
  let zReport := generateZReport params address vats payments totals in
  match xml_Marshal_ZREPORT zReport with
  | Err err => Err (fmt_Errorf_w "failed to marshal the report: " err)
  | Ok payload =>
      let payloadString := formatReportXmlPayload payload totals vats payments in
      match SignPayload privateKey (list_byte_of_string payloadString) with
      | Err err => Err (fmt_Errorf_w "failed to sign the payload: " err)
      | Ok signedPayload =>
          let base64PayloadSignature := encodeBase64Bytes signedPayload in
          Ok (list_byte_of_string (envelope payloadString base64PayloadSignature))
      end
  end.

(** *** Submission *)

(** [http.NewRequestWithContext] fails on a URL it cannot parse. *)
Variable http_NewRequest_err : string -> option error.
Variable client_Do : Request.t -> http_reply.
(** [xml.NewDecoder(...).Decode] into [models.Error] (its [Message]),
    [models.RCTACKEFDMS] (its [RCTACK]) and [models.ReportAckEFDMS] (its
    [ZACK]). *)
Variable xml_Decode_Error : list Byte.byte -> result string.
Variable xml_Decode_RCTACKEFDMS : list Byte.byte -> result RCTACK.t.
Variable xml_Decode_ReportAckEFDMS : list Byte.byte -> result ZACK.t.

Definition submit_headers (routingKey : string) (headers : RequestHeaders.t)
  : list (string * string) :=
  [ ("Content-Type", ContentTypeXML);
    ("Routing-Key", routingKey);
    ("Cert-Serial", encodeBase64String (RequestHeaders.CertSerial headers));
    ("Authorization", "bearer " +:+ RequestHeaders.BearerToken headers) ].

(** [submitReceipt]. [newContext] is the state of the derived context when
    [client.Do] returns (its [cancel] is deferred to the end of the call).
    The Go result is the pair of a [*Response] and an [error]. *)
Definition submitReceipt (newContext : ctx_state) (requestURL : string)
  (headers : RequestHeaders.t) (privateKey : PrivateKey)
  (rct : ReceiptRequest.t) : option Response.t * option error :=
  match ReceiptBytes privateKey (ReceiptRequest.Params rct)
          (ReceiptRequest.Customer rct) (ReceiptRequest.Items rct)
          (ReceiptRequest.Payments rct) with
  | Err err => (None, Some (fmt_Errorf_w "receipt upload failed : " err))
  | Ok payload =>
      match http_NewRequest_err requestURL with
      | Some err => (None, Some err)
      | None =>
          let req :=
            Request.mk "POST" requestURL
              (submit_headers SubmitReceiptRoutingKey headers) payload in
          match client_Do req with
          | DoFailed err =>
              (None, checkNetworkError newContext "receipt upload" (Some err))
          | DoResponse _ (Err err) =>
              (None, Some (fmt_Errorf_w "receipt upload failed : " err))
          | DoResponse StatusCode (Ok out) =>
              if (StatusCode =? 500)%Z then
                match xml_Decode_Error out with
                | Err err =>
                    (None, Some (fmt_Errorf_w "receipt upload failed : " err))
                | Ok Message =>
                    (None, Some (errors_New ("registration error: " +:+ Message)))
                end
              else
                match xml_Decode_RCTACKEFDMS out with
                | Err err =>
                    (None, Some (fmt_Errorf_w "receipt upload failed : " err))
                | Ok ack =>
                    (Some (Response.mk (RCTACK.RCTNUM ack) (RCTACK.DATE ack)
                             (RCTACK.TIME ack) (RCTACK.ACKCODE ack)
                             (RCTACK.ACKMSG ack)), None)
                end
          end
      end
  end.

(** [submitReport] *)
Definition submitReport (newContext : ctx_state) (requestURL : string)
  (headers : RequestHeaders.t) (privateKey : PrivateKey)
  (report : ReportRequest.t) : option Response.t * option error :=
  match ReportBytes privateKey (ReportRequest.Params report)
          (ReportRequest.Address report) (ReportRequest.VATS report)
          (ReportRequest.Payment report) (ReportRequest.Totals report) with
  | Err err =>
      (None, Some (fmt_Errorf_w "failed to generate the report payload: " err))
  | Ok payload =>
      match http_NewRequest_err requestURL with
      | Some err => (None, Some err)
      | None =>
          let req :=
            Request.mk "POST" requestURL
              (submit_headers SubmitReportRoutingKey headers) payload in
          match client_Do req with
          | DoFailed err =>
              (None, checkNetworkError newContext "submit report" (Some err))
          | DoResponse _ (Err err) =>
              (None, Some (fmt_Errorf_w "report submit failed : " err))
          | DoResponse StatusCode (Ok out) =>
              if (StatusCode =? 500)%Z then
                match xml_Decode_Error out with
                | Err err =>
                    (None, Some (fmt_Errorf_w "report submit failed : " err))
                | Ok Message =>
                    (None, Some (errors_New ("registration error: " +:+ Message)))
                end
              else
                match xml_Decode_ReportAckEFDMS out with
                | Err err =>
                    (None, Some (fmt_Errorf_w "report submit failed : " err))
                | Ok ack =>
                    (Some (Response.mk (ZACK.ZNUMBER ack) (ZACK.DATE ack)
                             (ZACK.TIME ack) (ZACK.ACKCODE ack)
                             (ZACK.ACKMSG ack)), None)
                end
          end
      end
  end.


(** * Properties of the pipeline *)

(** ** C9: [ProcessItems] *)

(** The record rendered for a line item: its amount is the gross amount
    [Quantity * UnitPrice]. *)
Definition render_item (item : Item.t) : models.ITEM.t :=
  models.ITEM.mk (Item.ID item) (Item.Description item) (Item.Quantity item)
    (Item.TaxCode item) (Item.Quantity item * Item.UnitPrice item)%float.

(** The taxable amount of a line item, gross minus discount. *)
Definition taxable_amount (item : Item.t) : float :=
  (Item.Quantity item * Item.UnitPrice item - Item.Discount item)%float.

Lemma ProcessItems_fold_ITEMS (items : list Item.t) :
  forall st,
    ProcessState.ITEMS (fold_left ProcessItems_step items st)
    = ProcessState.ITEMS st ++ map render_item items.
Proof.
  induction items as [| item items IH]; intros st; simpl.
  - by rewrite app_nil_r.
  - rewrite IH. simpl. by rewrite <- app_assoc.
Qed.

Lemma ProcessItems_fold_DISCOUNT (items : list Item.t) :
  forall st,
    ProcessState.DISCOUNT (fold_left ProcessItems_step items st)
    = fold_left (fun acc item => (acc + Item.Discount item)%float) items
        (ProcessState.DISCOUNT st).
Proof.
  induction items as [| item items IH]; intros st; simpl; [done |].
  by rewrite IH.
Qed.

Lemma ProcessItems_fold_TOTALTAXINCLUSIVE (items : list Item.t) :
  forall st,
    ProcessState.TOTALTAXINCLUSIVE (fold_left ProcessItems_step items st)
    = fold_left (fun acc item => (acc + taxable_amount item)%float) items
        (ProcessState.TOTALTAXINCLUSIVE st).
Proof.
  induction items as [| item items IH]; intros st; simpl; [done |].
  by rewrite IH.
Qed.

Lemma ProcessItems_fold_TOTALTAXEXCLUSIVE (items : list Item.t) :
  forall st,
    ProcessState.TOTALTAXEXCLUSIVE (fold_left ProcessItems_step items st)
    = fold_left
        (fun acc item =>
           (acc + NetAmount (Item.TaxCode item) (taxable_amount item))%float)
        items (ProcessState.TOTALTAXEXCLUSIVE st).
Proof.
  induction items as [| item items IH]; intros st; simpl; [done |].
  by rewrite IH.
Qed.

(** Every accumulator is filed under its own category id. *)
Definition keyed_by_id (m : gmap string vatTotal.t) : Prop :=
  forall k v, m !! k = Some v -> vatTotal.VATRATE v = k.

Lemma ProcessItems_step_keyed (st : ProcessState.t) (item : Item.t) :
  keyed_by_id (ProcessState.vatTotals st) ->
  keyed_by_id (ProcessState.vatTotals (ProcessItems_step st item)).
Proof.
  intros Hk k v. unfold ProcessItems_step. simpl.
  destruct (ProcessState.vatTotals st !! _) as [w |] eqn:Hw;
    rewrite lookup_insert; case_decide; intros Hv; simplify_eq; simpl;
    eauto.
Qed.

Lemma ProcessItems_step_dom (st : ProcessState.t) (item : Item.t) :
  dom (ProcessState.vatTotals (ProcessItems_step st item))
  = {[ ValueAddedTaxID (Item.TaxCode item) ]} ∪ dom (ProcessState.vatTotals st).
Proof.
  unfold ProcessItems_step. simpl.
  destruct (ProcessState.vatTotals st !! _) as [w |] eqn:Hw;
    by rewrite dom_insert_L.
Qed.

Lemma ProcessItems_fold_keyed (items : list Item.t) :
  forall st,
    keyed_by_id (ProcessState.vatTotals st) ->
    keyed_by_id (ProcessState.vatTotals (fold_left ProcessItems_step items st)).
Proof.
  induction items as [| item items IH]; intros st H; simpl; [done |].
  apply IH. by apply ProcessItems_step_keyed.
Qed.

Lemma ProcessItems_fold_dom (items : list Item.t) :
  forall st (id : string),
    id ∈ dom (ProcessState.vatTotals (fold_left ProcessItems_step items st))
    <-> id ∈ dom (ProcessState.vatTotals st)
        \/ exists item, item ∈ items /\ ValueAddedTaxID (Item.TaxCode item) = id.
Proof.
  induction items as [| item items IH]; intros st id; simpl.
  - split; [by left | intros [H | (item & Hin & _)]; [done |]].
    by apply elem_of_nil in Hin.
  - rewrite IH, ProcessItems_step_dom. set_unfold. split.
    + intros [[-> | H] | (it & Hin & Hid)]; eauto.
    + intros [H | (it & [-> | Hin] & Hid)]; eauto.
Qed.

Lemma keyed_by_id_values (m : gmap string vatTotal.t) :
  keyed_by_id m ->
  vatTotal.VATRATE <$> (map_to_list m).*2 = (map_to_list m).*1.
Proof.
  intros Hk. rewrite <- list_fmap_compose.
  apply Forall_fmap_ext, Forall_forall. intros [k v] Hin. simpl.
  apply Hk. by apply elem_of_map_to_list.
Qed.

Lemma elem_of_fst_map_to_list (m : gmap string vatTotal.t) (id : string) :
  id ∈ (map_to_list m).*1 <-> id ∈ dom m.
Proof.
  rewrite elem_of_dom, list_elem_of_fmap. split.
  - intros [[k v] [-> H]]. apply elem_of_map_to_list in H. by exists v.
  - intros [v Hv]. exists (id, v). split; [done |].
    by apply elem_of_map_to_list.
Qed.

(** The running sums of [ProcessItems]. *)
Definition sum_net (items : list Item.t) : float :=
  fold_left
    (fun acc item =>
       (acc + NetAmount (Item.TaxCode item) (taxable_amount item))%float)
    items PrimFloat.zero.
Definition sum_taxable (items : list Item.t) : float :=
  fold_left (fun acc item => (acc + taxable_amount item)%float) items
    PrimFloat.zero.
Definition sum_discount (items : list Item.t) : float :=
  fold_left (fun acc item => (acc + Item.Discount item)%float) items
    PrimFloat.zero.

Lemma ProcessItems_TOTALS (items : list Item.t) :
  ItemProcessResponse.TOTALS (ProcessItems items)
  = models.TOTALS.mk (sum_net items) (sum_taxable items) (sum_discount items).
Proof.
  unfold ProcessItems, sum_net, sum_taxable, sum_discount. simpl.
  rewrite ProcessItems_fold_TOTALTAXEXCLUSIVE,
    ProcessItems_fold_TOTALTAXINCLUSIVE, ProcessItems_fold_DISCOUNT.
  reflexivity.
Qed.

(** C9: [ProcessItems] renders one record per item, in input order, with the
    gross amount [Quantity * UnitPrice]; the VAT totals hold exactly one
    entry per category that some item resolves to (whatever the order in
    which Go ranges over the map); and the monetary totals are the plain
    running float64 sums of the net amounts, the taxable amounts and the
    discounts, with no rounding applied to the sums. *)
Theorem ProcessItems_spec (items : list Item.t) :
  let r := ProcessItems items in
  ItemProcessResponse.ITEMS r = map render_item items
  /\ length (ItemProcessResponse.ITEMS r) = length items
  /\ (forall id : string,
        id ∈ map models.VATTOTAL.VATRATE (ItemProcessResponse.VATTOTALS r)
        <-> exists item, item ∈ items
                         /\ ValueAddedTaxID (Item.TaxCode item) = id)
  /\ NoDup (map models.VATTOTAL.VATRATE (ItemProcessResponse.VATTOTALS r))
  /\ ItemProcessResponse.TOTALS r
     = models.TOTALS.mk (sum_net items) (sum_taxable items)
         (sum_discount items).
Proof.
  intros r. subst r. unfold ProcessItems. simpl.
  set (st := fold_left ProcessItems_step items ProcessItems_init).
  assert (Hkeyed : keyed_by_id (ProcessState.vatTotals st)).
  { apply ProcessItems_fold_keyed. intros k v H.
    unfold ProcessItems_init in H. simpl in H. by rewrite lookup_empty in H. }
  assert (Hrates :
    map models.VATTOTAL.VATRATE
      (map render_vatTotal (map_range (ProcessState.vatTotals st)))
    ≡ₚ (map_to_list (ProcessState.vatTotals st)).*1).
  { rewrite map_map. simpl.
    rewrite <- (keyed_by_id_values _ Hkeyed).
    change (vatTotal.VATRATE <$> map_range (ProcessState.vatTotals st)
            ≡ₚ vatTotal.VATRATE <$> (map_to_list (ProcessState.vatTotals st)).*2).
    by rewrite (map_range_perm (ProcessState.vatTotals st)). }
  assert (HITEMS : ProcessState.ITEMS st = map render_item items).
  { unfold st. by rewrite ProcessItems_fold_ITEMS. }
  split; [exact HITEMS |].
  split; [rewrite HITEMS; apply length_map |].
  split; [| split].
  - intros id. rewrite Hrates.
    rewrite elem_of_fst_map_to_list.
    unfold st. rewrite ProcessItems_fold_dom. simpl. rewrite dom_empty_L.
    split; [intros [H | H]; [by apply elem_of_empty in H | done] | by right].
  - rewrite Hrates. apply NoDup_fst_map_to_list.
  - apply ProcessItems_TOTALS.
Qed.

(** ** C2: rounding in the document builders *)

(** C2 (amended): [generateReceipt] hands to the serializer a structure whose
    three monetary totals are the running sums over the items (net amounts,
    taxable amounts, discounts), each rounded once to two decimals, the
    items and VAT totals being those of [ProcessItems]; [generateZReport]
    applies no rounding (its call of [RoundOff] is commented out): the six
    float totals of the report are the caller's values as supplied.
    [RoundOff] for reports, where it is applied, rounds all six of them. *)
Theorem builders_rounding (params : ReceiptParams.t) (customer : Customer.t)
  (items : list Item.t) (payments : list Payment.t)
  (rparams : ReportParams.t) (address : Address.t) (vats : list VATTOTAL.t)
  (rpayments : list Payment.t) (totals : ReportTotals.t) :
  let rct := generateReceipt params customer items payments in
  let z := generateZReport rparams address vats rpayments totals in
  models.RCT.TOTALS rct
  = models.TOTALS.mk (F64.round2 (sum_net items))
      (F64.round2 (sum_taxable items)) (F64.round2 (sum_discount items))
  /\ models.RCT.ITEMS rct = ItemProcessResponse.ITEMS (ProcessItems items)
  /\ models.RCT.VATTOTALS rct
     = ItemProcessResponse.VATTOTALS (ProcessItems items)
  /\ (forall key,
        ReceiptBytes key params customer items payments
        = match xml_Marshal_RCT rct with
          | Err err => Err (fmt_Errorf_w "could not marshal receipt: " err)
          | Ok raw =>
              match Sign key (receiptPayload raw) with
              | Err err => Err (fmt_Errorf_w "could not sign receipt: " err)
              | Ok sg =>
                  Ok (list_byte_of_string
                        (envelope (string_of_list_byte (receiptPayload raw))
                           (base64_EncodeToString sg)))
              end
          end)
  /\ models.ZREPORT.TOTALS z
     = models.REPORTTOTALS.mk
         (ReportTotals.DailyTotalAmount totals) (ReportTotals.Gross totals)
         (ReportTotals.Corrections totals) (ReportTotals.Discounts totals)
         (ReportTotals.Surcharges totals) (ReportTotals.TicketsVoid totals)
         (ReportTotals.TicketsVoidTotal totals)
         (ReportTotals.TicketsFiscal totals)
         (ReportTotals.TicketsNonFiscal totals)
  /\ models.ZREPORT.TOTALS (models.ZREPORT_RoundOff z)
     = models.REPORTTOTALS.mk
         (F64.round2 (ReportTotals.DailyTotalAmount totals))
         (F64.round2 (ReportTotals.Gross totals))
         (F64.round2 (ReportTotals.Corrections totals))
         (F64.round2 (ReportTotals.Discounts totals))
         (F64.round2 (ReportTotals.Surcharges totals))
         (ReportTotals.TicketsVoid totals)
         (F64.round2 (ReportTotals.TicketsVoidTotal totals))
         (ReportTotals.TicketsFiscal totals)
         (ReportTotals.TicketsNonFiscal totals).
Proof.
  intros rct z. split; [| repeat split; reflexivity].
  subst rct. unfold generateReceipt, models.RCT_RoundOff, assembleReceipt.
  cbn [models.RCT.TOTALS]. rewrite ProcessItems_TOTALS. reflexivity.
Qed.

(** ** C7 and C10: the signer *)

Lemma Sign_Ok_inv (key : PrivateKey) (payload sg : list Byte.byte) :
  Sign key payload = Ok sg <->
  rsa_SignPKCS1v15 key (sha1_Sum payload) = Ok sg
  /\ rsa_VerifyPKCS1v15 (PublicKey_of key) (sha1_Sum payload) sg = None.
Proof.
  unfold Sign, signPayload, verifySignature.
  destruct (rsa_SignPKCS1v15 key (sha1_Sum payload)) as [out | e].
  - destruct (rsa_VerifyPKCS1v15 (PublicKey_of key) (sha1_Sum payload) out)
      as [e |] eqn:Hv.
    + split; [discriminate | intros [[= ->] H]; congruence].
    + split; [intros [= ->]; done | intros [[= ->] _]; done].
  - split; [discriminate | intros [H _]; discriminate].
Qed.

Lemma SignPayload_Ok_inv (key : PrivateKey) (payload sg : list Byte.byte) :
  SignPayload key payload = Ok sg <->
  rsa_SignPKCS1v15 key (sha1_Sum payload) = Ok sg
  /\ VerifySignature (PublicKey_of key) payload (base64_EncodeToString sg)
     = None.
Proof.
  unfold SignPayload, signPayload.
  destruct (rsa_SignPKCS1v15 key (sha1_Sum payload)) as [out | e].
  - destruct (VerifySignature (PublicKey_of key) payload
                (base64_EncodeToString out)) as [e |] eqn:Hv.
    + split; [discriminate | intros [[= ->] H]; congruence].
    + split; [intros [= ->]; done | intros [[= ->] _]; done].
  - split; [discriminate | intros [H _]; discriminate].
Qed.

Lemma VerifySignature_nil_inv (pub : PublicKey) (payload : list Byte.byte)
  (signature : string) :
  VerifySignature pub payload signature = None <->
  exists sg, base64_DecodeString signature = Ok sg
             /\ rsa_VerifyPKCS1v15 pub (sha1_Sum payload) sg = None.
Proof.
  unfold VerifySignature.
  destruct (base64_DecodeString signature) as [sg | e].
  - destruct (rsa_VerifyPKCS1v15 pub (sha1_Sum payload) sg) as [e |] eqn:Hv.
    + split; [discriminate | intros (sg' & [= <-] & H); congruence].
    + split; [by exists sg | done].
  - split; [discriminate | intros (sg' & H & _); discriminate].
Qed.

(** C7: a signature returned by [Sign] is the RSA signature of the SHA-1
    digest of the payload and passes [verifySignature] under the key's public
    half over that digest; a signature returned by [SignPayload] passes
    [VerifySignature] (on its base64 text) under the public half over the
    same payload. When the produced signature fails the self-verification,
    either entry point returns an error and no signature. *)
Theorem signers_return_only_verified (key : PrivateKey)
  (payload : list Byte.byte) :
  (forall sg, Sign key payload = Ok sg ->
     signPayload key payload = Ok sg
     /\ verifySignature (PublicKey_of key) (sha1_Sum payload) sg = None)
  /\ (forall sg e,
        signPayload key payload = Ok sg ->
        verifySignature (PublicKey_of key) (sha1_Sum payload) sg = Some e ->
        Sign key payload = Err (fmt_Errorf_w "could not verify signature " e))
  /\ (forall sg, SignPayload key payload = Ok sg ->
        signPayload key payload = Ok sg
        /\ VerifySignature (PublicKey_of key) payload
             (base64_EncodeToString sg) = None)
  /\ (forall sg e,
        signPayload key payload = Ok sg ->
        VerifySignature (PublicKey_of key) payload (base64_EncodeToString sg)
        = Some e ->
        SignPayload key payload = Err (fmt_Errorf_w "invalid signature " e)).
Proof.
  repeat split.
  - apply Sign_Ok_inv in H as [H _]. unfold signPayload. by rewrite H.
  - by apply Sign_Ok_inv in H as [_ H].
  - intros sg e Hs Hv. unfold Sign. by rewrite Hs, Hv.
  - apply SignPayload_Ok_inv in H as [H _]. unfold signPayload. by rewrite H.
  - by apply SignPayload_Ok_inv in H as [_ H].
  - intros sg e Hs Hv. unfold SignPayload. by rewrite Hs, Hv.
Qed.

(** C10: provided [base64] decoding inverts encoding, [Sign] and
    [SignPayload] return the same signatures on the same inputs: each
    returns [sg] exactly when [sg] is the RSA PKCS#1 v1.5 signature of the
    SHA-1 digest of the payload and verifies under the key's public half;
    every signature either returns passes [VerifySignature]. *)
Theorem Sign_SignPayload_equivalent (key : PrivateKey)
  (payload : list Byte.byte) :
  (forall bs, base64_DecodeString (base64_EncodeToString bs) = Ok bs) ->
  (forall sg, Sign key payload = Ok sg <-> SignPayload key payload = Ok sg)
  /\ (forall sg, Sign key payload = Ok sg <->
        rsa_SignPKCS1v15 key (sha1_Sum payload) = Ok sg
        /\ rsa_VerifyPKCS1v15 (PublicKey_of key) (sha1_Sum payload) sg = None)
  /\ (forall sg, SignPayload key payload = Ok sg <->
        rsa_SignPKCS1v15 key (sha1_Sum payload) = Ok sg
        /\ rsa_VerifyPKCS1v15 (PublicKey_of key) (sha1_Sum payload) sg = None)
  /\ (forall sg,
        Sign key payload = Ok sg \/ SignPayload key payload = Ok sg ->
        VerifySignature (PublicKey_of key) payload (base64_EncodeToString sg)
        = None)
  /\ ((exists e, Sign key payload = Err e)
      <-> (exists e, SignPayload key payload = Err e)).
Proof.
  intros Hb64.
  assert (Hver : forall sg,
    VerifySignature (PublicKey_of key) payload (base64_EncodeToString sg) = None
    <-> rsa_VerifyPKCS1v15 (PublicKey_of key) (sha1_Sum payload) sg = None).
  { intros sg. rewrite VerifySignature_nil_inv. rewrite Hb64. split.
    - by intros (sg' & [= <-] & H).
    - intros H. by exists sg. }
  assert (Heq : forall sg,
    Sign key payload = Ok sg <-> SignPayload key payload = Ok sg).
  { intros sg. by rewrite Sign_Ok_inv, SignPayload_Ok_inv, Hver. }
  split; [exact Heq |]. split; [apply Sign_Ok_inv |].
  split; [intros sg; rewrite <- Heq; apply Sign_Ok_inv |]. split.
  - intros sg H. apply Hver.
    assert (Sign key payload = Ok sg) as H' by (destruct H; [done | by apply Heq]).
    by apply Sign_Ok_inv in H' as [_ H'].
  - split; intros [e He].
    + destruct (SignPayload key payload) as [sg | e'] eqn:Hsp; [| by exists e'].
      rewrite <- Hsp in Heq. apply Heq in Hsp. congruence.
    + destruct (Sign key payload) as [sg | e'] eqn:Hs; [| by exists e'].
      rewrite <- Hs in Heq. apply Heq in Hs. congruence.
Qed.

(** ** C3: the signed region of the envelope *)

(** C3: when [ReceiptBytes] or [ReportBytes] succeeds, the output is the XML
    declaration followed by [<EFDMS>], a payload, [<EFDMSSIGNATURE>], the
    base64 text of a signature and the closing tags, where the signature is
    the one the signer computed over exactly the bytes of that payload (and
    verified over them): declaration and wrapper are outside the signed
    bytes, and the payload is embedded as it was signed. *)
Theorem signature_covers_embedded_payload (key : PrivateKey)
  (params : ReceiptParams.t) (customer : Customer.t) (items : list Item.t)
  (payments : list Payment.t)
  (rparams : ReportParams.t) (address : Address.t) (vats : list VATTOTAL.t)
  (rpayments : list Payment.t) (totals : ReportTotals.t) :
  (forall out,
     ReceiptBytes key params customer items payments = Ok out ->
     exists (payload : string) (sg : list Byte.byte),
       out = list_byte_of_string
               (xml_Header +:+ "<EFDMS>" +:+ payload +:+ "<EFDMSSIGNATURE>"
                +:+ base64_EncodeToString sg +:+ "</EFDMSSIGNATURE></EFDMS>")
       /\ Sign key (list_byte_of_string payload) = Ok sg
       /\ rsa_SignPKCS1v15 key (sha1_Sum (list_byte_of_string payload)) = Ok sg
       /\ rsa_VerifyPKCS1v15 (PublicKey_of key)
            (sha1_Sum (list_byte_of_string payload)) sg = None
       /\ exists raw,
            xml_Marshal_RCT (generateReceipt params customer items payments)
            = Ok raw
            /\ payload
               = Replacer_Replace wrapper_tags (string_of_list_byte raw))
  /\ (forall out,
        ReportBytes key rparams address vats rpayments totals = Ok out ->
        exists (payload : string) (sg : list Byte.byte),
          out = list_byte_of_string
                  (xml_Header +:+ "<EFDMS>" +:+ payload +:+ "<EFDMSSIGNATURE>"
                   +:+ base64_EncodeToString sg +:+ "</EFDMSSIGNATURE></EFDMS>")
          /\ SignPayload key (list_byte_of_string payload) = Ok sg
          /\ rsa_SignPKCS1v15 key (sha1_Sum (list_byte_of_string payload))
             = Ok sg
          /\ VerifySignature (PublicKey_of key) (list_byte_of_string payload)
               (base64_EncodeToString sg) = None
          /\ exists raw,
               xml_Marshal_ZREPORT
                 (generateZReport rparams address vats rpayments totals)
               = Ok raw
               /\ payload = formatReportXmlPayload raw totals vats rpayments).
Proof.
  split; intros out H.
  - unfold ReceiptBytes in H.
    destruct (xml_Marshal_RCT _) as [raw | e] eqn:Hm; [| discriminate].
    destruct (Sign key (receiptPayload raw)) as [sg | e] eqn:Hs;
      [| discriminate].
    injection H as <-.
    exists (Replacer_Replace wrapper_tags (string_of_list_byte raw)), sg.
    unfold receiptPayload in *.
    rewrite string_of_list_byte_of_string.
    split; [reflexivity |]. split; [exact Hs |].
    apply Sign_Ok_inv in Hs as [Hs Hv].
    split; [exact Hs |]. split; [exact Hv |]. by exists raw.
  - unfold ReportBytes in H.
    destruct (xml_Marshal_ZREPORT _) as [raw | e] eqn:Hm; [| discriminate].
    destruct (SignPayload key _) as [sg | e] eqn:Hs; [| discriminate].
    injection H as <-.
    exists (formatReportXmlPayload raw totals vats rpayments), sg.
    split; [reflexivity |]. split; [exact Hs |].
    apply SignPayload_Ok_inv in Hs as [Hs Hv].
    split; [exact Hs |]. split; [exact Hv |]. by exists raw.
Qed.

(** ** C8: classification of submission failures *)

Lemma checkNetworkError_context_done (ctx : ctx_state) (prefix : string)
  (err : error) :
  ctx <> ctx_active ->
  checkNetworkError ctx prefix (Some err)
  = Some (NetworkError (ctx_Err ctx)
            (prefix +:+ ": context error (canceled or deadline exceeded)")).
Proof. intros H. destruct ctx; [done | reflexivity | reflexivity]. Qed.

(** An application rejection is the error [submitReceipt] and [submitReport]
    build from the authority's error body. *)
Definition is_application_rejection (e : error) (Message : string) : Prop :=
  e = errors_New ("registration error: " +:+ Message).

(** C8: when [client.Do] fails while the context is canceled or past its
    deadline, [submitReceipt] and [submitReport] return no response and a
    [*NetworkError] that [IsNetworkError] recognizes and that unwraps to the
    context's error ([context.Canceled] or [context.DeadlineExceeded]); it is
    no application rejection. When the authority answers with status 500 and
    a decodable error body, they return no response and the error
    ["registration error: " + Message], which is no network error. When
    [client.Do] succeeds and reading the response body fails, in whatever
    state the context is, they return no response and the read error wrapped
    by [fmt.Errorf] with their failure text: it is no application rejection,
    it unwraps to the read error, and [IsNetworkError] recognizes it exactly
    when it recognizes the read error itself. *)
Theorem submission_error_classification (newContext : ctx_state)
  (url : string) (headers : RequestHeaders.t) (key : PrivateKey)
  (rct : ReceiptRequest.t) (report : ReportRequest.t) :
  let receiptReq payload :=
    Request.mk "POST" url (submit_headers SubmitReceiptRoutingKey headers)
      payload in
  let reportReq payload :=
    Request.mk "POST" url (submit_headers SubmitReportRoutingKey headers)
      payload in
  let receiptBytes :=
    ReceiptBytes key (ReceiptRequest.Params rct) (ReceiptRequest.Customer rct)
      (ReceiptRequest.Items rct) (ReceiptRequest.Payments rct) in
  let reportBytes :=
    ReportBytes key (ReportRequest.Params report)
      (ReportRequest.Address report) (ReportRequest.VATS report)
      (ReportRequest.Payment report) (ReportRequest.Totals report) in
  let network_error prefix (result : option Response.t * option error) :=
    exists e cause,
      result = (None, Some e)
      /\ e = NetworkError (Some cause)
               (prefix +:+ ": context error (canceled or deadline exceeded)")
      /\ ctx_Err newContext = Some cause
      /\ (cause = context_Canceled \/ cause = context_DeadlineExceeded)
      /\ IsNetworkError e = true
      /\ Unwrap e = Some cause
      /\ forall Message, ~ is_application_rejection e Message in
  let rejection Message (result : option Response.t * option error) :=
    exists e,
      result = (None, Some e)
      /\ is_application_rejection e Message
      /\ IsNetworkError e = false in
  let read_failure prefix err (result : option Response.t * option error) :=
    exists e,
      result = (None, Some e)
      /\ e = fmt_Errorf_w prefix err
      /\ Unwrap e = Some err
      /\ IsNetworkError e = IsNetworkError err
      /\ forall Message, ~ is_application_rejection e Message in
  http_NewRequest_err url = None ->
  (forall payload err,
     receiptBytes = Ok payload ->
     client_Do (receiptReq payload) = DoFailed err ->
     newContext <> ctx_active ->
     network_error "receipt upload"
       (submitReceipt newContext url headers key rct))
  /\ (forall payload out Message,
        receiptBytes = Ok payload ->
        client_Do (receiptReq payload) = DoResponse 500 (Ok out) ->
        xml_Decode_Error out = Ok Message ->
        rejection Message (submitReceipt newContext url headers key rct))
  /\ (forall payload err,
        reportBytes = Ok payload ->
        client_Do (reportReq payload) = DoFailed err ->
        newContext <> ctx_active ->
        network_error "submit report"
          (submitReport newContext url headers key report))
  /\ (forall payload out Message,
        reportBytes = Ok payload ->
        client_Do (reportReq payload) = DoResponse 500 (Ok out) ->
        xml_Decode_Error out = Ok Message ->
        rejection Message (submitReport newContext url headers key report))
  /\ (forall payload StatusCode err,
        receiptBytes = Ok payload ->
        client_Do (receiptReq payload) = DoResponse StatusCode (Err err) ->
        read_failure "receipt upload failed : " err
          (submitReceipt newContext url headers key rct))
  /\ (forall payload StatusCode err,
        reportBytes = Ok payload ->
        client_Do (reportReq payload) = DoResponse StatusCode (Err err) ->
        read_failure "report submit failed : " err
          (submitReport newContext url headers key report)).
Proof.
  intros receiptReq reportReq receiptBytes reportBytes network_error rejection
    read_failure Hreq.
  assert (Hread : forall prefix err,
    read_failure prefix err (None, Some (fmt_Errorf_w prefix err))).
  { intros prefix err. eexists. repeat split. intros Message H.
    discriminate H. }
  assert (Hnet : forall prefix err,
    newContext <> ctx_active ->
    network_error prefix
      (None, checkNetworkError newContext prefix (Some err))).
  { intros prefix err Hctx. rewrite checkNetworkError_context_done by done.
    destruct newContext; [done | |].
    - eexists _, context_Canceled. repeat split; eauto.
      intros Message H. discriminate H.
    - eexists _, context_DeadlineExceeded. repeat split; eauto.
      intros Message H. discriminate H. }
  assert (Hrej : forall Message,
    rejection Message
      (None, Some (errors_New ("registration error: " +:+ Message)))).
  { intros Message. eexists. repeat split. }
  subst receiptBytes reportBytes receiptReq reportReq. cbv beta in *.
  repeat split.
  - intros payload err Hb Hdo Hctx. unfold submitReceipt.
    rewrite Hb, Hreq, Hdo. by apply Hnet.
  - intros payload out Message Hb Hdo Hdec. unfold submitReceipt.
    rewrite Hb, Hreq, Hdo. simpl. rewrite Hdec. apply Hrej.
  - intros payload err Hb Hdo Hctx. unfold submitReport.
    rewrite Hb, Hreq, Hdo. by apply Hnet.
  - intros payload out Message Hb Hdo Hdec. unfold submitReport.
    rewrite Hb, Hreq, Hdo. simpl. rewrite Hdec. apply Hrej.
  - intros payload StatusCode err Hb Hdo. unfold submitReceipt.
    rewrite Hb, Hreq, Hdo. apply Hread.
  - intros payload StatusCode err Hb Hdo. unfold submitReport.
    rewrite Hb, Hreq, Hdo. apply Hread.
Qed.

End Pipeline.

(** * Properties of the VAT arithmetic, the parser and the aggregator *)

(** ** Helpers *)

Lemma all_range_spec (p : positive) (f : Z -> bool) :
  forall lo : Z,
    all_range p lo f = true ->
    forall k : Z, (lo <= k < lo + Zpos p)%Z -> f k = true.
Proof.
  induction p as [q IH | q IH | ]; intros lo H k Hk; simpl in H.
  - apply andb_true_iff in H as [H H2].
    apply andb_true_iff in H as [H0 H1].
    destruct (Z.eq_dec k lo) as [-> | Hne]; [exact H0 |].
    destruct (Z_lt_le_dec k (lo + 1 + Zpos q)) as [Hlt | Hge].
    + apply (IH (lo + 1)%Z H1). lia.
    + apply (IH (lo + 1 + Zpos q)%Z H2). lia.
  - apply andb_true_iff in H as [H1 H2].
    destruct (Z_lt_le_dec k (lo + Zpos q)) as [Hlt | Hge].
    + apply (IH lo H1). lia.
    + apply (IH (lo + Zpos q)%Z H2). lia.
  - assert (k = lo) as -> by lia. exact H.
Qed.

(** The fast [Round] and the exact one agree on a grid of halves, quarters
    and hundredths around zero, and on the special values. *)
Definition Round_agrees (x : float) : bool :=
  PrimFloat.Leibniz.eqb (F64.Round x) (F64.Round_exact x).

Lemma Round_cross_check :
  all_range 4001 (-2000)
    (fun k => Round_agrees (F64.of_Z k / F64.of_Z 4)
              && Round_agrees (F64.cents k)
              && Round_agrees (F64.of_Z k * F64.of_Z 4503599627370)%float)
  = true
  /\ forallb Round_agrees
       [PrimFloat.nan; PrimFloat.infinity; PrimFloat.neg_infinity;
        PrimFloat.zero; PrimFloat.neg_zero;
        0x1.fffffffffffffp-2%float; 0x1p-1074%float;
        0x1.fffffffffffffp+51%float; 0x1.0000000000001p+52%float;
        0x1p+1023%float] = true.
Proof. split; vm_compute; reflexivity. Qed.

Lemma Round_examples :
  F64.Round (F64.of_Z 5 / F64.of_Z 2) = F64.of_Z 3
  /\ F64.Round (F64.of_Z (-5) / F64.of_Z 2) = F64.of_Z (-3)
  /\ F64.Round (F64.of_Z 1 / F64.of_Z 4) = PrimFloat.zero
  /\ F64.Round (F64.of_Z (-1) / F64.of_Z 4) = PrimFloat.neg_zero
  /\ F64.Round PrimFloat.nan = PrimFloat.nan.
Proof. repeat split; vm_compute; reflexivity. Qed.

Lemma Sprintf_2f_examples :
  F64.Sprintf_2f PrimFloat.zero = "0.00"
  /\ F64.Sprintf_2f (F64.of_Z 18) = "18.00"
  /\ F64.Sprintf_2f (F64.of_Z 1 / F64.of_Z 8) = "0.12"
  /\ F64.Sprintf_2f (F64.of_Z 3 / F64.of_Z 8) = "0.38"
  /\ F64.Sprintf_2f (F64.cents 423729) = "4237.29"
  /\ F64.Sprintf_2f (F64.of_Z (-1) / F64.of_Z 1000) = "-0.00".
Proof. repeat split; vm_compute; reflexivity. Qed.

(** [ReportTaxRateID] on the codes the tests use. *)
Lemma ReportTaxRateID_examples :
  ReportTaxRateID TaxableItemCode = "A-18.00"
  /\ ReportTaxRateID NonTaxableItemCode = "C-0.00"
  /\ ReportTaxRateID StandardVATCODE = "A-18.00".
Proof. repeat split; vm_compute; reflexivity. Qed.

(** ** C1: net + tax *)

(** Every tax code resolves to a category of rate 18 or 0. *)
Lemma ParseTaxCode_rate (taxCode : Z) :
  ValueAddedTaxRate taxCode = F64.of_Z 18
  \/ ValueAddedTaxRate taxCode = PrimFloat.zero.
Proof.
  unfold ValueAddedTaxRate, ParseTaxCode.
  destruct taxCode as [| p | p]; [left; reflexivity | | left; reflexivity].
  do 3 (destruct p as [p | p |]; try (left; reflexivity);
        try (right; reflexivity)).
Qed.

(** The net and tax amounts as functions of the rate alone. *)
Definition net_at (rate a : float) : float :=
  ValueAddedTax_NetAmount (ValueAddedTax.mk EmptyString 0 EmptyString rate) a.
Definition tax_at (rate a : float) : float :=
  F64.round2 (a - net_at rate a).

Lemma NetAmount_net_at (taxCode : Z) (a : float) :
  NetAmount taxCode a = net_at (ValueAddedTaxRate taxCode) a.
Proof. reflexivity. Qed.

Lemma ValueAddedTaxAmount_tax_at (taxCode : Z) (a : float) :
  ValueAddedTaxAmount taxCode a = tax_at (ValueAddedTaxRate taxCode) a.
Proof. reflexivity. Qed.

(** What is checked of the amount of [k] cents at a given rate: the sum,
    rounded to two decimals, is the amount, and the raw sum is the amount or
    one of its two neighbours. *)
Definition reconstructs (rate : float) (k : Z) : bool :=
  let a := F64.cents k in
  let s := (net_at rate a + tax_at rate a)%float in
  PrimFloat.eqb (F64.round2 s) a
  && (PrimFloat.eqb s a || PrimFloat.eqb s (PrimFloat.next_up a)
      || PrimFloat.eqb s (PrimFloat.next_down a)).

Lemma reconstructs_standard :
  all_range 1000000 1 (reconstructs (F64.of_Z 18)) = true.
Proof. vm_cast_no_check (eq_refl true). Qed.

Lemma reconstructs_zero_rate :
  all_range 1000000 1 (reconstructs PrimFloat.zero) = true.
Proof. vm_cast_no_check (eq_refl true). Qed.

(** The package's test [TestNetAmountAndTaxAmount]: for the amount 10000 and
    the codes 1 and 3 the float64 sum of net and tax [==] the amount. *)
Lemma NetAmount_test_cases :
  NetAmount TaxableItemCode (F64.of_Z 10000) = F64.cents 847458
  /\ ValueAddedTaxAmount TaxableItemCode (F64.of_Z 10000) = F64.cents 152542
  /\ PrimFloat.eqb
       (NetAmount TaxableItemCode (F64.of_Z 10000)
        + ValueAddedTaxAmount TaxableItemCode (F64.of_Z 10000))%float
       (F64.of_Z 10000) = true
  /\ PrimFloat.eqb
       (NetAmount NonTaxableItemCode (F64.of_Z 10000)
        + ValueAddedTaxAmount NonTaxableItemCode (F64.of_Z 10000))%float
       (F64.of_Z 10000) = true.
Proof. repeat split; vm_compute; reflexivity. Qed.

(** *** The rounding of binary64 operations

    The sum net + tax is followed through the nine roundings between the
    amount and the rounded sum. [SpecFloat] specifies each primitive
    operation as the exact result rounded by [binary_round_aux]; this part
    proves what that rounding is, in real numbers: the result is the point
    of the 53-bit grid nearest to the exact result. *)

Section FloatRounding.
Local Open Scope R_scope.

(** The real number [2^e]. *)
Definition bpow (e : Z) : R := powerRZ 2 e.

Lemma bpow_pos (e : Z) : 0 < bpow e.
Proof. apply powerRZ_lt. lra. Qed.

Lemma bpow_add (a b : Z) : bpow (a + b) = bpow a * bpow b.
Proof. apply powerRZ_add. lra. Qed.

Lemma bpow_opp (a : Z) : bpow (- a) = / bpow a.
Proof. apply powerRZ_neg'. Qed.

Lemma bpow_0 : bpow 0 = 1.
Proof. reflexivity. Qed.

Lemma bpow_IZR (e : Z) : (0 <= e)%Z -> bpow e = IZR (2 ^ e).
Proof.
  intros H. unfold bpow. destruct e as [| p | p]; [reflexivity | | lia].
  rewrite <- Zpower_pos_powerRZ. reflexivity.
Qed.

Lemma bpow_succ (a : Z) : bpow (a + 1) = 2 * bpow a.
Proof. rewrite bpow_add. change (bpow 1) with (2 * 1). lra. Qed.

Lemma bpow_le (a b : Z) : (a <= b)%Z -> bpow a <= bpow b.
Proof.
  intros H. replace b with (a + (b - a))%Z by lia.
  rewrite bpow_add, (bpow_IZR (b - a)) by lia.
  assert (1 <= IZR (2 ^ (b - a))).
  { apply IZR_le. pose proof (Z.pow_pos_nonneg 2 (b - a)). lia. }
  pose proof (bpow_pos a). generalize dependent (IZR (2 ^ (b - a))).
  intros c Hc. nra.
Qed.

Lemma bpow_lt (a b : Z) : (a < b)%Z -> bpow a < bpow b.
Proof.
  intros H. apply Rlt_le_trans with (bpow (a + 1)); [| apply bpow_le; lia].
  rewrite bpow_succ. pose proof (bpow_pos a). lra.
Qed.

Lemma bpow_lt_inv (a b : Z) : bpow a < bpow b -> (a < b)%Z.
Proof.
  intros H. destruct (Z_lt_le_dec a b) as [Hlt | Hge]; [exact Hlt |].
  apply bpow_le in Hge. lra.
Qed.

Lemma bpow_inv_l (a : Z) : bpow (- a) * bpow a = 1.
Proof. rewrite <- bpow_add. replace (- a + a)%Z with 0%Z by lia. reflexivity. Qed.

(** Number of binary digits. *)
Lemma digits2_pos_bounds (m : positive) :
  (2 ^ (Zpos (digits2_pos m) - 1) <= Zpos m < 2 ^ Zpos (digits2_pos m))%Z.
Proof.
  induction m as [m IH | m IH |]; simpl digits2_pos.
  - rewrite Pos2Z.inj_succ.
    replace (Z.succ (Zpos (digits2_pos m)) - 1)%Z
      with (Z.succ (Zpos (digits2_pos m) - 1))%Z by lia.
    rewrite !Z.pow_succ_r by lia. lia.
  - rewrite Pos2Z.inj_succ.
    replace (Z.succ (Zpos (digits2_pos m)) - 1)%Z
      with (Z.succ (Zpos (digits2_pos m) - 1))%Z by lia.
    rewrite !Z.pow_succ_r by lia. lia.
  - simpl. lia.
Qed.

Lemma digits2_pos_unique (m : positive) (d : Z) :
  (2 ^ (d - 1) <= Zpos m < 2 ^ d)%Z -> Zpos (digits2_pos m) = d.
Proof.
  intros [H1 H2]. pose proof (digits2_pos_bounds m) as [H3 H4].
  assert (0 < d)%Z.
  { destruct (Z_lt_le_dec 0 d); [done |].
    destruct (Z.eq_dec d 0%Z) as [-> | Hne]; [simpl in H2; lia |].
    rewrite Z.pow_neg_r in H2 by lia. lia. }
  assert (Zpos (digits2_pos m) - 1 < d)%Z.
  { apply (Z.pow_lt_mono_r_iff 2%Z); lia. }
  assert (d - 1 < Zpos (digits2_pos m))%Z.
  { apply (Z.pow_lt_mono_r_iff 2%Z); lia. }
  lia.
Qed.

(** The value and the size of a mantissa shifted to the left. *)
Lemma iter_xO_value (m p : positive) :
  Zpos (Pos.iter xO m p) = (Zpos m * 2 ^ Zpos p)%Z.
Proof.
  induction p as [| p IH] using Pos.peano_ind.
  - simpl. lia.
  - rewrite Pos.iter_succ, Pos2Z.inj_xO, IH, Pos2Z.inj_succ,
      Z.pow_succ_r by lia. lia.
Qed.

(** ** Shifting to the right with a round bit and a sticky bit *)

(** The real [x] lies in [[m, m+1)] at the place told by the two bits. *)
Definition inbetween (mrs : shr_record) (x : R) : Prop :=
  match shr_r mrs, shr_s mrs with
  | false, false => x = IZR (shr_m mrs)
  | false, true => IZR (shr_m mrs) < x < IZR (shr_m mrs) + / 2
  | true, false => x = IZR (shr_m mrs) + / 2
  | true, true => IZR (shr_m mrs) + / 2 < x < IZR (shr_m mrs) + 1
  end.

Lemma inbetween_bounds (mrs : shr_record) (x : R) :
  inbetween mrs x -> IZR (shr_m mrs) <= x < IZR (shr_m mrs) + 1.
Proof.
  destruct mrs as [m [|] [|]]; unfold inbetween; simpl; lra.
Qed.

Lemma shr_1_inbetween (mrs : shr_record) (x : R) :
  (0 <= shr_m mrs)%Z -> inbetween mrs x ->
  inbetween (shr_1 mrs) (x / 2) /\ (0 <= shr_m (shr_1 mrs))%Z.
Proof.
  destruct mrs as [m r s]. simpl shr_m. intros Hm H.
  destruct m as [| p | p]; [| | lia].
  - split; [| simpl; lia].
    destruct r, s; unfold inbetween in *; simpl in *; lra.
  - destruct p as [p | p |].
    + split; [| simpl; lia].
      pose proof (IZR_POS_xI p) as Hp.
      destruct r, s; unfold inbetween in *; simpl shr_m in *;
        simpl shr_r in *; simpl shr_s in *; cbv iota in *; lra.
    + split; [| simpl; lia].
      pose proof (IZR_POS_xO p) as Hp.
      destruct r, s; unfold inbetween in *; simpl shr_m in *;
        simpl shr_r in *; simpl shr_s in *; cbv iota in *; lra.
    + split; [| simpl; lia].
      destruct r, s; unfold inbetween in *; simpl in *; lra.
Qed.

Lemma iter_shr_1_inbetween (p : positive) :
  forall (mrs : shr_record) (x : R),
    (0 <= shr_m mrs)%Z -> inbetween mrs x ->
    inbetween (SpecFloat.iter_pos shr_1 p mrs) (x * bpow (- Zpos p))
    /\ (0 <= shr_m (SpecFloat.iter_pos shr_1 p mrs))%Z.
Proof.
  induction p as [p IH | p IH |]; intros mrs x Hm H; simpl SpecFloat.iter_pos.
  - destruct (shr_1_inbetween mrs x Hm H) as [H1 Hm1].
    destruct (IH _ _ Hm1 H1) as [H2 Hm2].
    destruct (IH _ _ Hm2 H2) as [H3 Hm3].
    split; [| exact Hm3].
    replace (x * bpow (- Zpos p~1))
      with (x / 2 * bpow (- Zpos p) * bpow (- Zpos p)); [exact H3 |].
    replace (- Zpos p~1)%Z with (- Zpos p + - Zpos p + - 1)%Z by lia.
    rewrite !bpow_add. change (bpow (-1)) with (/ (2 * 1)). lra.
  - destruct (IH _ _ Hm H) as [H2 Hm2].
    destruct (IH _ _ Hm2 H2) as [H3 Hm3].
    split; [| exact Hm3].
    replace (x * bpow (- Zpos p~0))
      with (x * bpow (- Zpos p) * bpow (- Zpos p)); [exact H3 |].
    replace (- Zpos p~0)%Z with (- Zpos p + - Zpos p)%Z by lia.
    rewrite !bpow_add. lra.
  - destruct (shr_1_inbetween mrs x Hm H) as [H1 Hm1].
    split; [| exact Hm1].
    change (bpow (- Zpos 1)) with (/ (2 * 1)).
    replace (x * / (2 * 1)) with (x / 2) by lra. exact H1.
Qed.

Lemma shr_inbetween (mrs : shr_record) (e n : Z) (x : R) :
  (0 <= n)%Z -> (0 <= shr_m mrs)%Z -> inbetween mrs x ->
  inbetween (fst (shr mrs e n)) (x * bpow (- n))
  /\ (0 <= shr_m (fst (shr mrs e n)))%Z
  /\ snd (shr mrs e n) = (e + n)%Z.
Proof.
  intros Hn Hm H. destruct n as [| p | p]; [| | lia]; simpl.
  - rewrite bpow_0 || change (bpow (-0)) with 1.
    rewrite Rmult_1_r. repeat split; [exact H | exact Hm | lia].
  - destruct (iter_shr_1_inbetween p mrs x Hm H) as [H1 H2].
    repeat split; assumption.
Qed.

Lemma round_nearest_even_spec (mrs : shr_record) (x : R) :
  inbetween mrs x ->
  let z := round_nearest_even (shr_m mrs) (loc_of_shr_record mrs) in
  - / 2 <= IZR z - x <= / 2
  /\ (shr_m mrs <= z <= shr_m mrs + 1)%Z.
Proof.
  destruct mrs as [m [|] [|]]; unfold inbetween; simpl; intros H.
  - rewrite plus_IZR. split; [lra | lia].
  - destruct (Z.even m); [| rewrite plus_IZR]; (split; [lra | lia]).
  - split; [lra | lia].
  - split; [lra | lia].
Qed.

(** [r] is [X] rounded to the nearest point of the grid of its binade:
    [2^g <= X < 2^(g+1)], and [r] is a multiple of [2^(g-52)] at distance at
    most half a step from [X]. *)
Definition rounded (X r : R) : Prop :=
  exists g z : Z,
    bpow g <= X < bpow (g + 1)
    /\ r = IZR z * bpow (g - 52)
    /\ - / 2 <= IZR z - X * bpow (52 - g) <= / 2.

Lemma shr_m_of_loc (m : Z) (l : location) :
  shr_m (shr_record_of_loc m l) = m.
Proof. destruct l as [| []]; reflexivity. Qed.

Lemma IZR_pos_bounds (M : positive) :
  bpow (Zpos (digits2_pos M) - 1) <= IZR (Zpos M)
  /\ IZR (Zpos M) + 1 <= bpow (Zpos (digits2_pos M)).
Proof.
  pose proof (digits2_pos_bounds M) as [H1 H2].
  rewrite !bpow_IZR by lia. split.
  - apply IZR_le. exact H1.
  - rewrite <- (plus_IZR _ 1). apply IZR_le. lia.
Qed.

Lemma fexp_normal (e : Z) :
  (-1021 <= e)%Z -> fexp prec emax e = (e - 53)%Z.
Proof. intros H. unfold fexp, SpecFloat.emin, prec, emax. lia. Qed.

Lemma binary_round_aux_spec (M : positive) (E : Z) (l : location) (x : R) :
  inbetween (shr_record_of_loc (Zpos M) l) x ->
  (53 <= Zpos (digits2_pos M))%Z ->
  (-1021 <= Zpos (digits2_pos M) + E <= 1023)%Z ->
  exists m e,
    binary_round_aux prec emax false (Zpos M) E l = S754_finite false m e
    /\ rounded (x * bpow E) (IZR (Zpos m) * bpow e).
Proof.
  set (d := Zpos (digits2_pos M)). intros Hin Hd Hr.
  set (n := (d - 53)%Z).
  pose proof (inbetween_bounds _ _ Hin) as Hx. rewrite shr_m_of_loc in Hx.
  pose proof (IZR_pos_bounds M) as HM. fold d in HM.
  assert (Hxd : bpow (d - 1) <= x < bpow d) by lra.
  destruct (shr_inbetween (shr_record_of_loc (Zpos M) l) E n x)
    as (Hy & Hm' & He'); [lia | rewrite shr_m_of_loc; lia | exact Hin |].
  unfold binary_round_aux, shr_fexp.
  change (Zdigits2 (Zpos M)) with d.
  rewrite fexp_normal by lia.
  replace (d + E - 53 - E)%Z with n by lia.
  destruct (shr (shr_record_of_loc (Zpos M) l) E n) as [mrs' e'].
  simpl fst in *. simpl snd in *. subst e'.
  set (y := x * bpow (- n)) in *.
  assert (Hyb : bpow 52 <= y < bpow 53).
  { unfold y. replace 52%Z with (d - 1 + - n)%Z by lia.
    replace 53%Z with (d + - n)%Z by lia.
    rewrite !bpow_add. pose proof (bpow_pos (- n)). split; nra. }
  pose proof (inbetween_bounds _ _ Hy) as Hmy.
  destruct (round_nearest_even_spec _ _ Hy) as [Hz Hzm].
  set (z := round_nearest_even (shr_m mrs') (loc_of_shr_record mrs')) in *.
  assert (Hm52 : (2 ^ 52 <= shr_m mrs' < 2 ^ 53)%Z).
  { rewrite !bpow_IZR in Hyb by lia. split.
    - assert (2 ^ 52 < shr_m mrs' + 1)%Z; [| lia].
      apply lt_IZR. rewrite plus_IZR. lra.
    - apply lt_IZR. lra. }
  assert (HX : bpow (d + E - 1) <= x * bpow E < bpow (d + E - 1 + 1)).
  { replace (d + E - 1 + 1)%Z with (d + E)%Z by lia.
    replace (d + E - 1)%Z with (d - 1 + E)%Z by lia.
    rewrite !bpow_add. pose proof (bpow_pos E). split; nra. }
  assert (HzX : - / 2 <= IZR z - x * bpow E * bpow (52 - (d + E - 1)) <= / 2).
  { replace (x * bpow E * bpow (52 - (d + E - 1))) with y; [exact Hz |].
    unfold y. rewrite Rmult_assoc, <- bpow_add. f_equal. f_equal. lia. }
  destruct (Z_lt_le_dec z (2 ^ 53)) as [Hlt | Hge].
  - destruct z as [| zp | zp] eqn:Ez; [lia | | lia].
    assert (Hdz : Zpos (digits2_pos zp) = 53%Z)
      by (apply digits2_pos_unique; lia).
    simpl Zdigits2. rewrite Hdz, fexp_normal by lia.
    replace (53 + (E + n) - 53 - (E + n))%Z with 0%Z by lia.
    cbn [shr shr_record_of_loc shr_m].
    assert (Hle : (E + n <=? emax - prec)%Z = true)
      by (apply Z.leb_le; unfold emax, prec; lia).
    rewrite Hle.
    exists zp, (E + n)%Z. split; [reflexivity |].
    exists (d + E - 1)%Z, (Zpos zp). split; [exact HX |]. split; [| exact HzX].
    f_equal. f_equal. lia.
  - assert (Ez : z = (2 ^ 53)%Z) by lia.
    rewrite Ez in *.
    change (Zdigits2 (2 ^ 53)) with 54%Z.
    change (2 ^ 53)%Z with 9007199254740992%Z.
    rewrite fexp_normal by lia.
    replace (54 + (E + n) - 53 - (E + n))%Z with 1%Z by lia.
    cbn [shr shr_record_of_loc SpecFloat.iter_pos shr_1 shr_m orb].
    assert (Hle : (E + n + 1 <=? emax - prec)%Z = true)
      by (apply Z.leb_le; unfold emax, prec; lia).
    rewrite Hle.
    eexists _, (E + n + 1)%Z. split; [reflexivity |].
    exists (d + E - 1)%Z, 9007199254740992%Z. split; [exact HX |]. split; [| exact HzX].
    replace (d + E - 1 - 52)%Z with (E + n)%Z by lia.
    rewrite bpow_add. change (bpow 1) with (2 * 1).
    lra.
Qed.

Lemma binary_round_spec (M : positive) (E : Z) :
  (-1021 <= Zpos (digits2_pos M) + E <= 1023)%Z ->
  exists m e,
    binary_round prec emax false M E = S754_finite false m e
    /\ rounded (IZR (Zpos M) * bpow E) (IZR (Zpos m) * bpow e).
Proof.
  set (d := Zpos (digits2_pos M)). intros Hr.
  unfold binary_round. fold d. rewrite fexp_normal by lia.
  unfold shl_align. replace (d + E - 53 - E)%Z with (d - 53)%Z by lia.
  pose proof (digits2_pos_bounds M) as HM. fold d in HM.
  destruct (d - 53)%Z as [| p | p] eqn:Hp.
  - apply binary_round_aux_spec; [reflexivity | fold d; lia | fold d; lia].
  - apply binary_round_aux_spec; [reflexivity | fold d; lia | fold d; lia].
  - assert (Hv : Zpos (Pos.iter xO M p) = (Zpos M * 2 ^ Zpos p)%Z)
      by apply iter_xO_value.
    assert (Hd : Zpos (digits2_pos (Pos.iter xO M p)) = 53%Z).
    { apply digits2_pos_unique. rewrite Hv.
      replace 53%Z with (d + Zpos p)%Z by lia.
      replace (d + Zpos p - 1)%Z with (d - 1 + Zpos p)%Z by lia.
      assert (0 < d)%Z by (unfold d; lia).
      rewrite !Z.pow_add_r by lia.
      pose proof (Z.pow_pos_nonneg 2 (Zpos p)). nia. }
    destruct (binary_round_aux_spec (Pos.iter xO M p) (d + E - 53) loc_Exact
                (IZR (Zpos (Pos.iter xO M p))))
      as (m & e & Hb & Hro); [reflexivity | lia | lia |].
    exists m, e. split; [exact Hb |].
    replace (IZR (Zpos M) * bpow E)
      with (IZR (Zpos (Pos.iter xO M p)) * bpow (d + E - 53)); [exact Hro |].
    rewrite Hv, mult_IZR, <- bpow_IZR by lia.
    rewrite Rmult_assoc, <- bpow_add. f_equal. f_equal. lia.
Qed.

(** What [rounded] gives: the relative error, the absolute error below a
    power of two, exactness on the grid, and the sign. *)
Lemma rounded_rel (X r : R) :
  rounded X r -> - (bpow (-53) * X) <= r - X <= bpow (-53) * X.
Proof.
  intros (g & z & [Hg1 Hg2] & -> & Hz).
  assert (H1 : bpow (52 - g) * bpow (g - 52) = 1).
  { rewrite <- bpow_add. replace (52 - g + (g - 52))%Z with 0%Z by lia.
    reflexivity. }
  assert (H2 : bpow (g - 52) = 2 * (bpow (-53) * bpow g)).
  { rewrite <- bpow_add, <- bpow_succ. f_equal. lia. }
  pose proof (bpow_pos (g - 52)) as Hp. pose proof (bpow_pos (52 - g)) as Hq.
  pose proof (bpow_pos (-53)) as Hu.
  assert (HX : X = X * bpow (52 - g) * bpow (g - 52))
    by (rewrite Rmult_assoc, H1; lra).
  set (t := X * bpow (52 - g)) in *.
  assert (Hd : IZR z * bpow (g - 52) - X = (IZR z - t) * bpow (g - 52))
    by nra.
  assert (- (/ 2 * bpow (g - 52)) <= IZR z * bpow (g - 52) - X
          <= / 2 * bpow (g - 52)) by (rewrite Hd; split; nra).
  split; nra.
Qed.

Lemma rounded_abs (G : Z) (X r : R) :
  rounded X r -> X < bpow (G + 1) ->
  - bpow (G - 53) <= r - X <= bpow (G - 53).
Proof.
  intros (g & z & [Hg1 Hg2] & -> & Hz) HG.
  assert (Hg : (g <= G)%Z).
  { assert (g < G + 1)%Z; [| lia]. apply bpow_lt_inv. lra. }
  assert (H1 : bpow (52 - g) * bpow (g - 52) = 1).
  { rewrite <- bpow_add. replace (52 - g + (g - 52))%Z with 0%Z by lia.
    reflexivity. }
  assert (H2 : bpow (g - 52) = 2 * bpow (g - 53)).
  { rewrite <- bpow_succ. f_equal. lia. }
  assert (H3 : bpow (g - 53) <= bpow (G - 53)) by (apply bpow_le; lia).
  pose proof (bpow_pos (g - 52)) as Hp.
  assert (HX : X = X * bpow (52 - g) * bpow (g - 52))
    by (rewrite Rmult_assoc, H1; lra).
  set (t := X * bpow (52 - g)) in *.
  assert (Hd : IZR z * bpow (g - 52) - X = (IZR z - t) * bpow (g - 52))
    by nra.
  assert (- (/ 2 * bpow (g - 52)) <= IZR z * bpow (g - 52) - X
          <= / 2 * bpow (g - 52)) by (rewrite Hd; split; nra).
  lra.
Qed.

Lemma rounded_exact (j t : Z) (X r : R) :
  rounded X r -> X = IZR j * bpow t -> X < bpow (t + 53) -> r = X.
Proof.
  intros (g & z & [Hg1 Hg2] & -> & Hz) HX Hlt.
  assert (Hg : (g < t + 53)%Z) by (apply bpow_lt_inv; lra).
  assert (HJ : X * bpow (52 - g) = IZR (j * 2 ^ (t + 52 - g))).
  { rewrite HX, mult_IZR, <- bpow_IZR by lia.
    rewrite Rmult_assoc, <- bpow_add. f_equal. f_equal. lia. }
  rewrite HJ in Hz.
  assert (Hzj : z = (j * 2 ^ (t + 52 - g))%Z).
  { assert (z - j * 2 ^ (t + 52 - g) = 0)%Z; [| lia].
    apply one_IZR_lt1. rewrite minus_IZR. lra. }
  rewrite Hzj, <- HJ, Rmult_assoc, <- bpow_add.
  replace (52 - g + (g - 52))%Z with 0%Z by lia.
  rewrite bpow_0. lra.
Qed.

Lemma rounded_pos (X r : R) : rounded X r -> 0 < X /\ 0 < r.
Proof.
  intros H. pose proof (rounded_rel X r H) as Hr.
  destruct H as (g & z & [Hg1 Hg2] & _ & _).
  pose proof (bpow_pos g).
  assert (bpow (-53) <= / 2).
  { replace (/ 2) with (bpow (-1)) by (change (bpow (-1)) with (/ (2 * 1)); lra).
    apply bpow_le. lia. }
  pose proof (bpow_pos (-53)). split; [lra | nra].
Qed.

(** The location computed by the division. *)
Lemma new_location_inbetween (q d r : Z) :
  (0 <= r < d)%Z ->
  inbetween (shr_record_of_loc q (new_location d r))
    (IZR q + IZR r / IZR d).
Proof.
  intros Hr.
  assert (Hd : 0 < IZR d) by (apply IZR_lt; lia).
  assert (Hlt : forall a b : Z, (a < b)%Z -> IZR a < IZR b) by apply IZR_lt.
  assert (Hhalf : (2 * r < d)%Z -> 0 < IZR r -> 0 < IZR r / IZR d < / 2).
  { intros Hl Hr1. apply Hlt in Hl. rewrite mult_IZR in Hl. split.
    - apply Rdiv_lt_0_compat; lra.
    - apply Rmult_lt_reg_r with (IZR d); [lra |].
      unfold Rdiv. rewrite Rmult_assoc, Rinv_l by lra. lra. }
  assert (Hmore : (d < 2 * r)%Z -> / 2 < IZR r / IZR d < 1).
  { intros Hg. apply Hlt in Hg. rewrite mult_IZR in Hg.
    assert (IZR r < IZR d) by (apply Hlt; lia). split.
    - apply Rmult_lt_reg_r with (IZR d); [lra |].
      unfold Rdiv. rewrite Rmult_assoc, Rinv_l by lra. lra.
    - apply Rmult_lt_reg_r with (IZR d); [lra |].
      unfold Rdiv. rewrite Rmult_assoc, Rinv_l by lra. lra. }
  unfold new_location.
  destruct (Z.even d) eqn:He;
    unfold new_location_even, new_location_odd;
    (destruct (Z.eqb_spec r 0) as [-> | Hne];
       [unfold inbetween; simpl; lra |]).
  - assert (Hr1 : 0 < IZR r) by (apply (Hlt 0%Z); lia).
    destruct (Z.compare_spec (2 * r) d) as [Heq | Hl | Hg];
      unfold inbetween; simpl.
    + rewrite <- Heq, mult_IZR. field. lra.
    + specialize (Hhalf Hl Hr1). lra.
    + specialize (Hmore Hg). lra.
  - assert (Hr1 : 0 < IZR r) by (apply (Hlt 0%Z); lia).
    assert (Hodd : (2 * r <> d)%Z).
    { intros <-. rewrite Z.even_mul in He. discriminate He. }
    destruct (Z.compare_spec (2 * r + 1) d) as [Heq | Hl | Hg];
      unfold inbetween; simpl.
    + assert (Hl : (2 * r < d)%Z) by lia. specialize (Hhalf Hl Hr1). lra.
    + assert (Hl' : (2 * r < d)%Z) by lia. specialize (Hhalf Hl' Hr1). lra.
    + assert (Hg' : (d < 2 * r)%Z) by lia. specialize (Hmore Hg'). lra.
Qed.

End FloatRounding.

(** *** The primitive operations on positive floats *)

Section FloatOperations.
Local Open Scope R_scope.

(** [x] is a positive finite float of real value [r]. *)
Definition is_pos (x : float) (r : R) : Prop :=
  exists m e, Prim2SF x = S754_finite false m e /\ r = IZR (Zpos m) * bpow e.

Lemma digits2_pos_range (M : positive) (a b : Z) :
  (0 <= a)%Z -> (2 ^ a <= Zpos M < 2 ^ b)%Z ->
  (a < Zpos (digits2_pos M) <= b)%Z.
Proof.
  intros Ha [H1 H2]. pose proof (digits2_pos_bounds M) as [H3 H4].
  assert (0 <= b)%Z.
  { destruct (Z_lt_le_dec b 0) as [Hb | Hb]; [| exact Hb].
    rewrite Z.pow_neg_r in H2 by lia. lia. }
  split.
  - apply (Z.pow_lt_mono_r_iff 2%Z); lia.
  - assert (Zpos (digits2_pos M) - 1 < b)%Z; [| lia].
    apply (Z.pow_lt_mono_r_iff 2%Z); lia.
Qed.

(** A float of value at least [2^-1000] is normal: its mantissa has 53
    bits. *)
Lemma is_pos_normal (x : float) (r : R) :
  is_pos x r -> bpow (-1000) <= r ->
  exists m e,
    Prim2SF x = S754_finite false m e /\ r = IZR (Zpos m) * bpow e
    /\ Zpos (digits2_pos m) = 53%Z
    /\ (2 ^ 52 <= Zpos m < 2 ^ 53)%Z
    /\ bpow (e + 52) <= r < bpow (e + 53).
Proof.
  intros (m & e & HSF & ->) Hr.
  pose proof (Prim2SF_valid x) as Hv. rewrite HSF in Hv.
  unfold SpecFloat.valid_binary, bounded, canonical_mantissa in Hv.
  apply andb_true_iff in Hv as [Hc _]. apply Z.eqb_eq in Hc.
  pose proof (digits2_pos_bounds m) as Hm.
  pose proof (IZR_pos_bounds m) as HR.
  assert (Hd : Zpos (digits2_pos m) = 53%Z).
  { unfold fexp, SpecFloat.emin, prec, emax in Hc.
    destruct (Z_lt_le_dec (Zpos (digits2_pos m) + e - 53) (-1074))
      as [Hsub | Hnorm]; [exfalso | lia].
    assert (He : e = (-1074)%Z) by lia.
    assert (Hlt : IZR (Zpos m) * bpow e < bpow (-1000)); [| lra].
    apply Rlt_le_trans with (bpow (Zpos (digits2_pos m)) * bpow e).
    - pose proof (bpow_pos e). nra.
    - rewrite <- bpow_add. apply bpow_le. lia. }
  exists m, e. rewrite Hd in *. repeat split; try lia; try reflexivity.
  - exact HSF.
  - replace (e + 52)%Z with (53 - 1 + e)%Z by lia. rewrite bpow_add.
    pose proof (bpow_pos e). nra.
  - replace (e + 53)%Z with (53 + e)%Z by lia. rewrite bpow_add.
    pose proof (bpow_pos e). nra.
Qed.

Lemma exponent_range (e lo hi : Z) (r : R) :
  bpow (e + 52) <= r < bpow (e + 53) -> bpow lo <= r <= bpow hi ->
  (lo - 53 < e <= hi - 52)%Z.
Proof.
  intros [H1 H2] [H3 H4]. split.
  - assert (lo < e + 53)%Z; [| lia]. apply bpow_lt_inv. lra.
  - assert (e + 52 < hi + 1)%Z; [| lia]. apply bpow_lt_inv.
    rewrite (bpow_succ hi). pose proof (bpow_pos hi). lra.
Qed.

Lemma mul_rounded (x y : float) (rx ry : R) :
  is_pos x rx -> is_pos y ry ->
  bpow (-400) <= rx <= bpow 400 -> bpow (-400) <= ry <= bpow 400 ->
  exists r, is_pos (x * y) r /\ rounded (rx * ry) r.
Proof.
  intros Hx Hy Hrx Hry.
  assert (H1000 : bpow (-1000) <= bpow (-400)) by (apply bpow_le; lia).
  destruct (is_pos_normal x rx Hx) as (m1 & e1 & HS1 & Hv1 & Hd1 & Hm1 & Hb1);
    [lra |].
  destruct (is_pos_normal y ry Hy) as (m2 & e2 & HS2 & Hv2 & Hd2 & Hm2 & Hb2);
    [lra |].
  pose proof (exponent_range _ _ _ _ Hb1 Hrx) as He1.
  pose proof (exponent_range _ _ _ _ Hb2 Hry) as He2.
  assert (HD : (104 < Zpos (digits2_pos (m1 * m2)) <= 106)%Z).
  { apply digits2_pos_range; [lia |]. rewrite Pos2Z.inj_mul.
    change (2 ^ 104)%Z with (2 ^ 52 * 2 ^ 52)%Z.
    change (2 ^ 106)%Z with (2 ^ 53 * 2 ^ 53)%Z. nia. }
  destruct (binary_round_aux_spec (m1 * m2) (e1 + e2) loc_Exact
              (IZR (Zpos (m1 * m2)))) as (m & e & Hb & Hro);
    [reflexivity | lia | lia |].
  exists (IZR (Zpos m) * bpow e). split.
  - exists m, e. split; [| reflexivity].
    rewrite FloatAxioms.mul_spec, HS1, HS2. exact Hb.
  - replace (rx * ry) with (IZR (Zpos (m1 * m2)) * bpow (e1 + e2));
      [exact Hro |].
    rewrite Hv1, Hv2, Pos2Z.inj_mul, mult_IZR, bpow_add. ring.
Qed.

Lemma div_rounded (x y : float) (rx ry : R) :
  is_pos x rx -> is_pos y ry ->
  bpow (-400) <= rx <= bpow 400 -> bpow (-400) <= ry <= bpow 400 ->
  exists r, is_pos (x / y) r /\ rounded (rx / ry) r.
Proof.
  intros Hx Hy Hrx Hry.
  assert (H1000 : bpow (-1000) <= bpow (-400)) by (apply bpow_le; lia).
  destruct (is_pos_normal x rx Hx) as (m1 & e1 & HS1 & Hv1 & Hd1 & Hm1 & Hb1);
    [lra |].
  destruct (is_pos_normal y ry Hy) as (m2 & e2 & HS2 & Hv2 & Hd2 & Hm2 & Hb2);
    [lra |].
  pose proof (exponent_range _ _ _ _ Hb1 Hrx) as He1.
  pose proof (exponent_range _ _ _ _ Hb2 Hry) as He2.
  assert (Hcore : SFdiv_core_binary prec emax (Zpos m1) e1 (Zpos m2) e2
                  = (Zpos m1 * 2 ^ 53 / Zpos m2, e1 - e2 - 53,
                     new_location (Zpos m2)
                       ((Zpos m1 * 2 ^ 53) mod Zpos m2))%Z).
  { unfold SFdiv_core_binary. simpl Zdigits2. rewrite Hd1, Hd2.
    rewrite fexp_normal by lia.
    replace (Z.min (53 + e1 - (53 + e2) - 53) (e1 - e2))
      with (e1 - e2 - 53)%Z by lia.
    replace (e1 - e2 - (e1 - e2 - 53))%Z with 53%Z by lia.
    cbv iota. rewrite Z.shiftl_mul_pow2 by lia.
    unfold Z.div, Z.modulo.
    destruct (Z.div_eucl (Zpos m1 * 2 ^ 53) (Zpos m2)) as [q rem].
    reflexivity. }
  set (a := (Zpos m1 * 2 ^ 53)%Z) in *.
  pose proof (Z.div_mod a (Zpos m2)) as Hdm.
  pose proof (Z.mod_pos_bound a (Zpos m2)) as Hmod.
  set (q := (a / Zpos m2)%Z) in *. set (rem := (a mod Zpos m2)%Z) in *.
  assert (Hq : (2 ^ 52 <= q < 2 ^ 54)%Z).
  { assert (Ha : (2 ^ 52 * 2 ^ 53 <= a < 2 ^ 53 * 2 ^ 53)%Z)
      by (unfold a; lia).
    change (2 ^ 54)%Z with (2 * 2 ^ 53)%Z. split; nia. }
  destruct q as [| qp | qp] eqn:Eq; [lia | | lia].
  assert (HD : (52 < Zpos (digits2_pos qp) <= 54)%Z)
    by (apply digits2_pos_range; lia).
  destruct (binary_round_aux_spec qp (e1 - e2 - 53)
              (new_location (Zpos m2) rem)
              (IZR (Zpos qp) + IZR rem / IZR (Zpos m2)))
    as (m & e & Hb & Hro);
    [apply new_location_inbetween; lia | lia | lia |].
  exists (IZR (Zpos m) * bpow e). split.
  - exists m, e. split; [| reflexivity].
    rewrite FloatAxioms.div_spec, HS1, HS2. unfold SF64div, SFdiv. rewrite Hcore.
    exact Hb.
  - replace (rx / ry)
      with ((IZR (Zpos qp) + IZR rem / IZR (Zpos m2)) * bpow (e1 - e2 - 53));
      [exact Hro |].
    assert (Ha : IZR a = IZR (Zpos m2) * IZR (Zpos qp) + IZR rem).
    { rewrite <- mult_IZR, <- plus_IZR. f_equal. lia. }
    assert (Ha' : IZR a = IZR (Zpos m1) * bpow 53).
    { unfold a. rewrite mult_IZR, bpow_IZR by lia. reflexivity. }
    assert (Hm2p : 0 < IZR (Zpos m2)) by (apply IZR_lt; lia).
    replace (IZR (Zpos qp) + IZR rem / IZR (Zpos m2))
      with (IZR a / IZR (Zpos m2)) by (rewrite Ha; field; lra).
    rewrite Ha', Hv1, Hv2.
    replace (e1 - e2 - 53)%Z with (e1 + (- e2 + - (53)))%Z by lia.
    rewrite !bpow_add, !bpow_opp.
    pose proof (bpow_pos e2). pose proof (bpow_pos 53).
    field. lra.
Qed.

Lemma shl_align_value (m : positive) (e e' : Z) :
  (e' <= e)%Z ->
  IZR (Zpos (fst (shl_align m e e'))) * bpow e' = IZR (Zpos m) * bpow e.
Proof.
  intros H. unfold shl_align.
  destruct (e' - e)%Z as [| p | p] eqn:Hp; simpl fst.
  - replace e' with e by lia. reflexivity.
  - lia.
  - rewrite iter_xO_value, mult_IZR, <- bpow_IZR by lia.
    rewrite Rmult_assoc, <- bpow_add. f_equal. f_equal. lia.
Qed.

(** The value [M * 2^E] bounds the number of digits of [M]. *)
Lemma digits_exponent_range (M : positive) (E lo hi : Z) :
  bpow lo <= IZR (Zpos M) * bpow E <= bpow hi ->
  (lo < Zpos (digits2_pos M) + E <= hi + 1)%Z.
Proof.
  intros [H1 H2]. pose proof (IZR_pos_bounds M) as [H3 H4].
  pose proof (bpow_pos E). split.
  - apply bpow_lt_inv. rewrite bpow_add. nra.
  - assert (Zpos (digits2_pos M) - 1 + E < hi + 1)%Z; [| lia].
    apply bpow_lt_inv. rewrite bpow_add, (bpow_succ hi).
    pose proof (bpow_pos hi). nra.
Qed.

Lemma add_rounded (x y : float) (rx ry : R) :
  is_pos x rx -> is_pos y ry ->
  bpow (-400) <= rx <= bpow 400 -> bpow (-400) <= ry <= bpow 400 ->
  exists r, is_pos (x + y) r /\ rounded (rx + ry) r.
Proof.
  intros (m1 & e1 & HS1 & Hv1) (m2 & e2 & HS2 & Hv2) Hrx Hry.
  set (ez := Z.min e1 e2).
  pose proof (shl_align_value m1 e1 ez ltac:(lia)) as Ha1.
  pose proof (shl_align_value m2 e2 ez ltac:(lia)) as Ha2.
  set (a1 := fst (shl_align m1 e1 ez)) in *.
  set (a2 := fst (shl_align m2 e2 ez)) in *.
  assert (HX : IZR (Zpos (a1 + a2)) * bpow ez = rx + ry).
  { rewrite Pos2Z.inj_add, plus_IZR, Hv1, Hv2. lra. }
  assert (Hrange : bpow (-400) <= IZR (Zpos (a1 + a2)) * bpow ez <= bpow 401).
  { rewrite HX. change 401%Z with (400 + 1)%Z. rewrite (bpow_succ 400).
    pose proof (bpow_pos (-400)). lra. }
  apply digits_exponent_range in Hrange.
  destruct (binary_round_spec (a1 + a2) ez) as (m & e & Hb & Hro); [lia |].
  exists (IZR (Zpos m) * bpow e). split.
  - exists m, e. split; [| reflexivity].
    rewrite FloatAxioms.add_spec, HS1, HS2. exact Hb.
  - rewrite <- HX. exact Hro.
Qed.

Lemma sub_rounded (x y : float) (rx ry : R) :
  is_pos x rx -> is_pos y ry -> ry < rx ->
  bpow (-400) <= rx <= bpow 400 -> bpow (-400) <= ry <= bpow 400 ->
  exists r, is_pos (x - y) r /\ rounded (rx - ry) r.
Proof.
  intros Hx Hy Hlt Hrx Hry.
  assert (H1000 : bpow (-1000) <= bpow (-400)) by (apply bpow_le; lia).
  destruct (is_pos_normal x rx Hx) as (m1 & e1 & HS1 & Hv1 & _ & _ & Hb1);
    [lra |].
  destruct (is_pos_normal y ry Hy) as (m2 & e2 & HS2 & Hv2 & _ & _ & Hb2);
    [lra |].
  pose proof (exponent_range _ _ _ _ Hb1 Hrx) as He1.
  pose proof (exponent_range _ _ _ _ Hb2 Hry) as He2.
  set (ez := Z.min e1 e2).
  pose proof (shl_align_value m1 e1 ez ltac:(lia)) as Ha1.
  pose proof (shl_align_value m2 e2 ez ltac:(lia)) as Ha2.
  rewrite <- Hv1 in Ha1. rewrite <- Hv2 in Ha2.
  assert (Hsub : Prim2SF (x - y)
                 = binary_normalize prec emax
                     (Zpos (fst (shl_align m1 e1 ez))
                      - Zpos (fst (shl_align m2 e2 ez))) ez false).
  { rewrite FloatAxioms.sub_spec, HS1, HS2. reflexivity. }
  set (a1 := fst (shl_align m1 e1 ez)) in *.
  set (a2 := fst (shl_align m2 e2 ez)) in *.
  pose proof (bpow_pos ez) as Hez.
  assert (Hgt : (Zpos a2 < Zpos a1)%Z) by (apply lt_IZR; nra).
  destruct (Zpos a1 - Zpos a2)%Z as [| M | M] eqn:HM; [lia | | lia].
  assert (HX : IZR (Zpos M) * bpow ez = rx - ry).
  { rewrite <- HM, minus_IZR. lra. }
  assert (Hrange : bpow (-453) <= IZR (Zpos M) * bpow ez <= bpow 400).
  { split; [| pose proof (bpow_pos (-400)); lra].
    apply Rle_trans with (bpow ez); [apply bpow_le; lia |].
    assert (1 <= IZR (Zpos M)) by (apply IZR_le; lia). nra. }
  apply digits_exponent_range in Hrange.
  destruct (binary_round_spec M ez) as (m & e & Hb & Hro); [lia |].
  exists (IZR (Zpos m) * bpow e). split.
  - exists m, e. split; [| reflexivity]. rewrite Hsub. exact Hb.
  - rewrite <- HX. exact Hro.
Qed.

Lemma Prim2SF_zero : Prim2SF PrimFloat.zero = S754_zero false.
Proof. reflexivity. Qed.

Lemma float_sub_diag (x : float) (r : R) : is_pos x r -> (x - x)%float = PrimFloat.zero.
Proof.
  intros (m & e & HS & _). apply Prim2SF_inj.
  rewrite FloatAxioms.sub_spec, HS, Prim2SF_zero. unfold SF64sub, SFsub.
  rewrite Z.min_id, Z.sub_diag. reflexivity.
Qed.

Lemma float_add_zero_r (x : float) (r : R) : is_pos x r -> (x + PrimFloat.zero)%float = x.
Proof.
  intros (m & e & HS & _). apply Prim2SF_inj.
  rewrite FloatAxioms.add_spec, HS, Prim2SF_zero. reflexivity.
Qed.

Lemma of_Z_is_pos (j : Z) :
  (1 <= j < 2 ^ 53)%Z -> is_pos (F64.of_Z j) (IZR j).
Proof.
  intros Hj. destruct j as [| p | p]; [lia | | lia].
  unfold F64.of_Z.
  assert (HS : Prim2SF (of_uint63 (Uint63.of_Z (Zpos p)))
               = binary_round prec emax false p 0).
  { rewrite of_uint63_spec, Uint63.of_Z_spec, Z.mod_small; [reflexivity |].
    change wB with (2 ^ 63)%Z. lia. }
  pose proof (digits2_pos_range p 0 53 ltac:(lia) ltac:(lia)) as Hd.
  destruct (binary_round_spec p 0) as (m & e & Hb & Hro); [lia |].
  exists m, e. split; [rewrite HS; exact Hb |].
  symmetry. rewrite bpow_0, Rmult_1_r in Hro.
  apply (rounded_exact (Zpos p) 0 _ _ Hro).
  - rewrite bpow_0. lra.
  - rewrite bpow_IZR by lia. apply IZR_lt. lia.
Qed.

Lemma eqb_refl_pos (x : float) (r : R) : is_pos x r -> PrimFloat.eqb x x = true.
Proof.
  intros (m & e & HS & _). rewrite FloatAxioms.eqb_spec, HS.
  unfold SFeqb, SFcompare. rewrite Z.compare_refl.
  change (Pos.compare_cont Eq m m) with (Pos.compare m m).
  rewrite Pos.compare_refl. reflexivity.
Qed.

Lemma eqb_is_pos_eq (x y : float) (r : R) :
  is_pos y r -> PrimFloat.eqb x y = true -> x = y.
Proof.
  intros (m & e & HS & _) H. apply Prim2SF_inj.
  rewrite FloatAxioms.eqb_spec, HS in H. rewrite HS.
  unfold SFeqb, SFcompare in H.
  destruct (Prim2SF x) as [s | s | | s m1 e1];
    try destruct s; try discriminate H.
  destruct (Z.compare_spec e1 e) as [He | _ | _]; try discriminate H.
  change (Pos.compare_cont Eq m1 m) with (Pos.compare m1 m) in H.
  destruct (Pos.compare_spec m1 m) as [Hm | _ | _]; try discriminate H.
  subst. reflexivity.
Qed.

(** [math.Round] on a positive float [x] of value [r], [1/2 <= r < 2^52]:
    the integer [N] with [N - 1/2 <= r < N + 1/2]. *)
Lemma Round_spec (x : float) (r : R) :
  is_pos x r -> / 2 <= r < bpow 52 ->
  exists N : Z,
    F64.Round x = F64.of_Z N
    /\ (1 <= N <= 2 ^ 52)%Z
    /\ IZR N - / 2 <= r < IZR N + / 2.
Proof.
  intros Hx Hr.
  assert (Hhalf : bpow (-1) = / 2)
    by (change (bpow (-1)) with (/ (2 * 1)); lra).
  destruct (is_pos_normal x r Hx) as (m & e & HS & Hv & Hd & Hm & Hb).
  { apply Rle_trans with (bpow (-1)); [apply bpow_le; lia | lra]. }
  assert (He : (-53 <= e <= -1)%Z).
  { split.
    - assert (-1 < e + 53)%Z; [| lia]. apply bpow_lt_inv. lra.
    - assert (e + 52 < 52)%Z; [| lia]. apply bpow_lt_inv. lra. }
  assert (Hnan : PrimFloat.is_nan x = false).
  { unfold PrimFloat.is_nan. rewrite (eqb_refl_pos x r Hx). reflexivity. }
  assert (Hzero : PrimFloat.is_zero x = false).
  { unfold PrimFloat.is_zero.
    rewrite FloatAxioms.eqb_spec, HS, Prim2SF_zero. reflexivity. }
  assert (Hinf : PrimFloat.is_infinity x = false).
  { unfold PrimFloat.is_infinity.
    rewrite FloatAxioms.eqb_spec, abs_spec, HS. reflexivity. }
  assert (Hsign : PrimFloat.get_sign x = false).
  { unfold PrimFloat.get_sign. rewrite Hzero.
    rewrite FloatAxioms.ltb_spec, HS, Prim2SF_zero. reflexivity. }
  unfold F64.Round. rewrite Hnan, Hinf, Hzero, Hsign. cbn [orb].
  pose proof (frshiftexp_spec x) as Hfr.
  destruct (frshiftexp x) as [mf ef].
  rewrite HS in Hfr. unfold SFfrexp in Hfr. rewrite Hd in Hfr.
  change (prec <=? 53)%Z with true in Hfr. cbv iota in Hfr.
  injection Hfr as Hmf Hef.
  pose proof (normfr_mantissa_spec mf) as Hmant.
  rewrite Hmf in Hmant. unfold SFnormfr_mantissa in Hmant.
  rewrite Z.eqb_refl in Hmant. change (Z.of_N (Npos m)) with (Zpos m) in Hmant.
  assert (Hef' : to_Z ef = (e + 2154)%Z).
  { unfold FloatOps.shift, prec in Hef. lia. }
  assert (Hlt1 : Uint63.ltb ef 2101 = false).
  { apply not_true_is_false. intros H. apply Uint63.ltb_spec in H.
    change (to_Z 2101) with 2101%Z in H. lia. }
  assert (Hlt2 : Uint63.ltb 2153 ef = false).
  { apply not_true_is_false. intros H. apply Uint63.ltb_spec in H.
    change (to_Z 2153) with 2153%Z in H. lia. }
  rewrite Hlt1, Hlt2.
  set (s := Uint63.sub 2154 ef).
  assert (Hs : to_Z s = (- e)%Z).
  { unfold s. rewrite Uint63.sub_spec, Hef'.
    change (to_Z 2154) with 2154%Z. rewrite Z.mod_small; [lia |].
    change wB with (2 ^ 63)%Z. lia. }
  assert (Hs1 : to_Z (Uint63.sub s 1) = (- e - 1)%Z).
  { rewrite Uint63.sub_spec, Hs. change (to_Z 1) with 1%Z.
    rewrite Z.mod_small; [lia |]. change wB with (2 ^ 63)%Z. lia. }
  assert (Hpow : forall a : Z, (0 <= a <= 53)%Z -> (0 < 2 ^ a <= 2 ^ 53)%Z).
  { intros a Ha. split; [apply Z.pow_pos_nonneg; lia |].
    apply Z.pow_le_mono_r; lia. }
  set (half := Uint63.lsl 1 (Uint63.sub s 1)).
  assert (Hh : to_Z half = (2 ^ (- e - 1))%Z).
  { unfold half. rewrite Uint63.lsl_spec, Hs1. change (to_Z 1) with 1%Z.
    rewrite Z.mul_1_l, Z.mod_small; [reflexivity |].
    pose proof (Hpow (- e - 1)%Z ltac:(lia)). change wB with (2 ^ 63)%Z. lia. }
  set (v := Uint63.lsr (Uint63.add (normfr_mantissa mf) half) s).
  assert (Hvz : to_Z v = ((Zpos m + 2 ^ (- e - 1)) / 2 ^ (- e))%Z).
  { unfold v. rewrite Uint63.lsr_spec, Uint63.add_spec, Hmant, Hh, Hs.
    rewrite Z.mod_small; [reflexivity |].
    pose proof (Hpow (- e - 1)%Z ltac:(lia)). change wB with (2 ^ 63)%Z. lia. }
  set (N := to_Z v) in *.
  assert (Hdiv : (2 ^ (- e) * N <= Zpos m + 2 ^ (- e - 1)
                  < 2 ^ (- e) * (N + 1))%Z).
  { pose proof (Hpow (- e)%Z ltac:(lia)) as Hp.
    pose proof (Z.div_mod (Zpos m + 2 ^ (- e - 1)) (2 ^ (- e)) ltac:(lia)) as H1.
    pose proof (Z.mod_pos_bound (Zpos m + 2 ^ (- e - 1)) (2 ^ (- e)) ltac:(lia))
      as H2.
    rewrite <- Hvz in H1. lia. }
  assert (Hdouble : (2 ^ (- e) = 2 * 2 ^ (- e - 1))%Z).
  { rewrite <- Z.pow_succ_r by lia. f_equal. lia. }
  assert (HrN : IZR N - / 2 <= r < IZR N + / 2).
  { destruct Hdiv as [H1 H2]. apply IZR_le in H1. apply IZR_lt in H2.
    rewrite mult_IZR, plus_IZR in H1. rewrite mult_IZR, !plus_IZR in H2.
    rewrite Hdouble, mult_IZR in H1, H2.
    rewrite <- !bpow_IZR in H1, H2 by lia.
    assert (Hee : bpow e * (2 * bpow (- e - 1)) = 1).
    { rewrite <- bpow_succ, <- bpow_add.
      replace (e + (- e - 1 + 1))%Z with 0%Z by lia. reflexivity. }
    pose proof (bpow_pos e) as Hpe. pose proof (bpow_pos (- e - 1)) as Hpe1.
    rewrite Hv. set (b := bpow e) in *. set (c := bpow (- e - 1)) in *.
    set (M := IZR (Zpos m)) in *. set (n := IZR N) in *.
    assert (E1 : b * (2 * c * n) = n) by (rewrite <- Rmult_assoc, Hee; lra).
    assert (E2 : b * (2 * c * (n + 1)) = n + 1)
      by (rewrite <- Rmult_assoc, Hee; lra).
    assert (E3 : b * (M + c) = M * b + / 2) by nra.
    split.
    - assert (b * (2 * c * n) <= b * (M + c))
        by (apply Rmult_le_compat_l; lra). lra.
    - assert (b * (M + c) < b * (2 * c * (n + 1)))
        by (apply Rmult_lt_compat_l; lra). lra. }
  assert (HN : (1 <= N <= 2 ^ 52)%Z).
  { split.
    - assert (0 < N)%Z; [| lia]. apply lt_IZR. lra.
    - assert (N < 2 ^ 52 + 1)%Z; [| lia]. apply lt_IZR.
      rewrite plus_IZR, <- bpow_IZR by lia. lra. }
  exists N. split; [| split; [exact HN | exact HrN]].
  unfold F64.of_Z. destruct N as [| p | p] eqn:EN; [lia | | lia].
  rewrite <- EN. unfold N. rewrite Uint63.of_to_Z. reflexivity.
Qed.

Lemma bpow_pos_num (p : positive) : bpow (Zpos p) = IZR (Z.pow_pos 2 p).
Proof. apply bpow_IZR. lia. Qed.

Lemma bpow_neg_num (p : positive) : bpow (Zneg p) = / IZR (Z.pow_pos 2 p).
Proof.
  change (Zneg p) with (- Zpos p)%Z. rewrite bpow_opp, bpow_pos_num.
  reflexivity.
Qed.

Lemma Z_of_near (A B : Z) (x : R) :
  IZR A - / 2 <= x < IZR A + / 2 -> IZR B - / 2 < x < IZR B + / 2 -> A = B.
Proof.
  intros HA HB. assert (A - B = 0)%Z; [| lia].
  apply one_IZR_lt1. rewrite minus_IZR. lra.
Qed.

End FloatOperations.

(** Powers of two with a literal exponent as numerals. *)
Ltac bpow_num_in H :=
  repeat
    match type of H with
    | context [bpow (Zpos ?p)] =>
        let v := eval vm_compute in (Z.pow_pos 2 p) in
        rewrite (bpow_pos_num p) in H; change (Z.pow_pos 2 p) with v in H
    | context [bpow (Zneg ?p)] =>
        let v := eval vm_compute in (Z.pow_pos 2 p) in
        rewrite (bpow_neg_num p) in H; change (Z.pow_pos 2 p) with v in H
    end.

Ltac bpow_num :=
  repeat
    match goal with
    | |- context [bpow (Zpos ?p)] =>
        let v := eval vm_compute in (Z.pow_pos 2 p) in
        rewrite (bpow_pos_num p); change (Z.pow_pos 2 p) with v
    | |- context [bpow (Zneg ?p)] =>
        let v := eval vm_compute in (Z.pow_pos 2 p) in
        rewrite (bpow_neg_num p); change (Z.pow_pos 2 p) with v
    end.

(** The relative and the absolute error bound of a rounding, as linear
    facts. *)
Tactic Notation "rel_bound" constr(R) "as" ident(A) :=
  pose proof (rounded_rel _ _ R) as A; bpow_num_in A.

Tactic Notation "abs_bound" constr(G) constr(R) "as" ident(A) :=
  let G1 := eval vm_compute in (G + 1)%Z in
  let G2 := eval vm_compute in (G - 53)%Z in
  pose proof (rounded_abs G _ _ R) as A;
  change (G + 1)%Z with G1 in A; change (G - 53)%Z with G2 in A;
  bpow_num_in A.

(** *** The errors from the amount to the rounded sum *)

Section ErrorAnalysis.
Local Open Scope R_scope.

(** An amount of [K] cents times 100 is within half a unit of [K]. *)
Lemma cents_times_100 (K : Z) (ra rw : R) :
  (1 <= K < 2 ^ 51)%Z ->
  rounded (IZR K / 100) ra -> rounded (ra * 100) rw ->
  IZR K - / 2 < rw < IZR K + / 2.
Proof.
  intros [HK1 HK2] R1 R2.
  apply IZR_le in HK1.
  assert (HK3 : IZR K <= 2251799813685247) by (apply IZR_le; lia).
  destruct (Z_le_gt_dec K (2 ^ 50)) as [Hle | Hgt].
  - apply IZR_le in Hle. change (2 ^ 50)%Z with 1125899906842624%Z in Hle.
    rel_bound R1 as A1. rel_bound R2 as A2. lra.
  - abs_bound 44%Z R1 as A1. abs_bound 50%Z R2 as A2.
    assert (H1 : - / 512 <= ra - IZR K / 100 <= / 512) by (apply A1; lra).
    assert (H2 : - / 8 <= rw - ra * 100 <= / 8) by (apply A2; lra).
    lra.
Qed.

(** The value of the float [1 + 18/100]. *)
Definition rho : R := 5314247560297185 / 4503599627370496.

(** The net amount in cents, [N], of [K] cents at the standard rate is
    within one unit of [K / rho] and below [100 * 2^44]. *)
Lemma standard_net_bounds (K N : Z) (ra rq rm : R) :
  (1000000 <= K <= 2075877953241086)%Z ->
  rounded (IZR K / 100) ra -> rounded (ra / rho) rq ->
  rounded (rq * 100) rm ->
  IZR N - / 2 <= rm < IZR N + / 2 ->
  IZR K / rho - 1 < IZR N < IZR K / rho + 1
  /\ IZR N < 1759218604441600.
Proof.
  intros [HK1 HK2] R1 R2 R3 HN. unfold rho in *.
  apply IZR_le in HK1, HK2.
  destruct (Z_le_gt_dec K (2 ^ 50)) as [Hle | Hgt].
  - apply IZR_le in Hle. change (2 ^ 50)%Z with 1125899906842624%Z in Hle.
    rel_bound R1 as A1. rel_bound R2 as A2. rel_bound R3 as A3.
    split; [split |]; lra.
  - assert (Hgt' : 1125899906842624 < IZR K) by (apply IZR_lt; lia).
    abs_bound 44%Z R1 as A1. abs_bound 44%Z R2 as A2. abs_bound 50%Z R3 as A3.
    assert (H1 : - / 512 <= ra - IZR K / 100 <= / 512) by (apply A1; lra).
    assert (H2 : - / 512
                 <= rq - ra / (5314247560297185 / 4503599627370496)
                 <= / 512) by (apply A2; lra).
    assert (H3 : - / 8 <= rm - rq * 100 <= / 8) by (apply A3; lra).
    split; [split |]; lra.
Qed.

(** The rounded net amount is below the amount. *)
Lemma net_below_amount (K N : Z) (ra rnet : R) :
  (1000000 <= K <= 2075877953241086)%Z ->
  IZR K / rho - 1 < IZR N < IZR K / rho + 1 ->
  rounded (IZR K / 100) ra -> rounded (IZR N / 100) rnet ->
  rnet < ra.
Proof.
  intros [HK1 HK2] HN R1 R4. unfold rho in *.
  apply IZR_le in HK1, HK2.
  rel_bound R1 as A1. rel_bound R4 as A4. lra.
Qed.

(** The remainder times 100 is within half a unit of [K - N]. *)
Lemma tax_cents_bounds (K N : Z) (ra rnet rd rp : R) :
  (1000000 <= K <= 2075877953241086)%Z ->
  IZR K / rho - 1 < IZR N < IZR K / rho + 1 ->
  IZR N < 1759218604441600 ->
  rounded (IZR K / 100) ra -> rounded (IZR N / 100) rnet ->
  rounded (ra - rnet) rd -> rounded (rd * 100) rp ->
  IZR (K - N) - / 2 < rp < IZR (K - N) + / 2.
Proof.
  intros [HK1 HK2] HN HNmax R1 R4 R5 R6. unfold rho in *.
  rewrite minus_IZR. apply IZR_le in HK1, HK2.
  destruct (Z_le_gt_dec K (2 ^ 50)) as [Hle | Hgt].
  - apply IZR_le in Hle. change (2 ^ 50)%Z with 1125899906842624%Z in Hle.
    rel_bound R1 as A1. rel_bound R4 as A4. rel_bound R5 as A5.
    rel_bound R6 as A6. lra.
  - assert (Hgt' : 1125899906842624 < IZR K) by (apply IZR_lt; lia).
    abs_bound 44%Z R1 as A1. abs_bound 43%Z R4 as A4.
    abs_bound 41%Z R5 as A5. abs_bound 48%Z R6 as A6.
    assert (H1 : - / 512 <= ra - IZR K / 100 <= / 512) by (apply A1; lra).
    assert (H4 : - / 1024 <= rnet - IZR N / 100 <= / 1024)
      by (apply A4; lra).
    assert (H5 : - / 4096 <= rd - (ra - rnet) <= / 4096) by (apply A5; lra).
    assert (H6 : - / 32 <= rp - rd * 100 <= / 32) by (apply A6; lra).
    lra.
Qed.

(** The sum of net and tax times 100 is within half a unit of [K]. *)
Lemma sum_cents_bounds (K N : Z) (rnet rtax rs rw : R) :
  (1000000 <= K <= 2075877953241086)%Z ->
  IZR K / rho - 1 < IZR N < IZR K / rho + 1 ->
  IZR N < 1759218604441600 ->
  rounded (IZR N / 100) rnet -> rounded (IZR (K - N) / 100) rtax ->
  rounded (rnet + rtax) rs -> rounded (rs * 100) rw ->
  IZR K - / 2 < rw < IZR K + / 2.
Proof.
  intros [HK1 HK2] HN HNmax R4 R7 R8 R9. unfold rho in *.
  rewrite minus_IZR in R7. apply IZR_le in HK1, HK2.
  destruct (Z_le_gt_dec K (2 ^ 50)) as [Hle | Hgt].
  - apply IZR_le in Hle. change (2 ^ 50)%Z with 1125899906842624%Z in Hle.
    rel_bound R4 as A4. rel_bound R7 as A7. rel_bound R8 as A8.
    rel_bound R9 as A9. lra.
  - assert (Hgt' : 1125899906842624 < IZR K) by (apply IZR_lt; lia).
    abs_bound 43%Z R4 as A4. abs_bound 41%Z R7 as A7.
    abs_bound 44%Z R8 as A8. abs_bound 50%Z R9 as A9.
    assert (H4 : - / 1024 <= rnet - IZR N / 100 <= / 1024)
      by (apply A4; lra).
    assert (H7 : - / 4096 <= rtax - (IZR K - IZR N) / 100 <= / 4096)
      by (apply A7; lra).
    assert (H8 : - / 512 <= rs - (rnet + rtax) <= / 512) by (apply A8; lra).
    assert (H9 : - / 8 <= rw - rs * 100 <= / 8) by (apply A9; lra).
    lra.
Qed.

Lemma in_range (r : R) :
  bpow (-60) <= r <= bpow 60 -> bpow (-400) <= r <= bpow 400.
Proof.
  intros [H1 H2].
  assert (bpow (-400) <= bpow (-60)) by (apply bpow_le; lia).
  assert (bpow 60 <= bpow 400) by (apply bpow_le; lia). lra.
Qed.

Lemma hundred_is_pos : is_pos F64.hundred 100.
Proof. apply (of_Z_is_pos 100). lia. Qed.

Lemma cents_rounded (K : Z) :
  (1 <= K < 2 ^ 53)%Z ->
  exists ra, is_pos (F64.cents K) ra /\ rounded (IZR K / 100) ra.
Proof.
  intros HK. pose proof (of_Z_is_pos K HK) as H.
  assert (1 <= IZR K <= 9007199254740992)
    by (split; apply IZR_le; lia).
  apply (div_rounded _ _ _ _ H hundred_is_pos);
    apply in_range; bpow_num; lra.
Qed.

Lemma rate18_is_pos : is_pos (1 + F64.of_Z 18 / F64.hundred)%float rho.
Proof.
  exists 5314247560297185%positive, (-52)%Z. split.
  - vm_compute. reflexivity.
  - unfold rho. bpow_num. lra.
Qed.

Lemma one_is_pos : is_pos 1%float 1.
Proof.
  exists 4503599627370496%positive, (-52)%Z. split.
  - vm_compute. reflexivity.
  - bpow_num. lra.
Qed.

(** At the standard rate, for the amounts of one million cents and more
    that the analysis covers. *)
Lemma reconstructs_standard_large (K : Z) :
  (1000000 <= K <= 2075877953241086)%Z ->
  F64.round2 (net_at (F64.of_Z 18) (F64.cents K)
              + tax_at (F64.of_Z 18) (F64.cents K))
  = F64.cents K.
Proof.
  intros HK.
  assert (HKr : 1000000 <= IZR K <= 2075877953241086)
    by (split; apply IZR_le; lia).
  destruct (cents_rounded K) as (ra & Ha & R1); [lia |].
  unfold tax_at, net_at, ValueAddedTax_NetAmount, F64.round2.
  cbn [ValueAddedTax.Percentage].
  set (a := F64.cents K) in *.
  set (r := (1 + F64.of_Z 18 / F64.hundred)%float).
  pose proof rate18_is_pos as Hr. fold r in Hr.
  rel_bound R1 as A1.
  destruct (div_rounded a r ra rho Ha Hr) as (rq & Hq & R2);
    [apply in_range; bpow_num; lra
    | apply in_range; unfold rho; bpow_num; lra |].
  rel_bound R2 as A2. unfold rho in A2.
  destruct (mul_rounded _ _ rq 100 Hq hundred_is_pos) as (rm & Hm & R3);
    [apply in_range; bpow_num; lra | apply in_range; bpow_num; lra |].
  rel_bound R3 as A3.
  destruct (Round_spec _ rm Hm) as (N & HRN & HN1 & HN2); [bpow_num; lra |].
  destruct (standard_net_bounds K N ra rq rm HK R1 R2 R3 HN2) as [HNb HNmax].
  rewrite HRN. change (F64.of_Z N / F64.hundred)%float with (F64.cents N).
  destruct (cents_rounded N) as (rnet & Hnet & R4); [lia |].
  set (net := F64.cents N) in *.
  pose proof (net_below_amount K N ra rnet HK HNb R1 R4) as Hlt.
  rel_bound R4 as A4.
  assert (HNr : 1 <= IZR N) by (apply IZR_le; lia).
  unfold rho in HNb.
  destruct (sub_rounded a net ra rnet Ha Hnet Hlt) as (rd & Hd & R5);
    [apply in_range; bpow_num; lra | apply in_range; bpow_num; lra |].
  pose proof (rounded_pos _ _ R5) as [_ Hrd].
  rel_bound R5 as A5.
  destruct (mul_rounded _ _ rd 100 Hd hundred_is_pos) as (rp & Hp & R6).
  { assert (HKN : (1 <= K - N)%Z).
    { assert (N < K)%Z; [| lia]. apply lt_IZR. lra. }
    apply IZR_le in HKN. rewrite minus_IZR in HKN.
    apply in_range; bpow_num; lra. }
  { apply in_range; bpow_num; lra. }
  fold (rho) in HNb.
  pose proof (tax_cents_bounds K N ra rnet rd rp HK HNb HNmax R1 R4 R5 R6)
    as HT.
  assert (HKN : (1 <= K - N)%Z).
  { unfold rho in HNb. assert (N < K)%Z; [| lia]. apply lt_IZR. lra. }
  assert (HKNr : 1 <= IZR (K - N) <= 2075877953241086)
    by (split; apply IZR_le; lia).
  destruct (Round_spec _ rp Hp) as (T & HRT & HT1 & HT2); [bpow_num; lra |].
  assert (T = (K - N)%Z) by (apply (Z_of_near _ _ rp HT2 HT)). subst T.
  rewrite HRT.
  change (F64.of_Z (K - N) / F64.hundred)%float with (F64.cents (K - N)).
  destruct (cents_rounded (K - N)) as (rtax & Htax & R7); [lia |].
  set (tax := F64.cents (K - N)) in *.
  rel_bound R7 as A7.
  destruct (add_rounded net tax rnet rtax Hnet Htax) as (rs & Hs & R8);
    [apply in_range; bpow_num; lra | apply in_range; bpow_num; lra |].
  rel_bound R8 as A8.
  destruct (mul_rounded _ _ rs 100 Hs hundred_is_pos) as (rw & Hw & R9);
    [apply in_range; bpow_num; lra | apply in_range; bpow_num; lra |].
  pose proof (sum_cents_bounds K N rnet rtax rs rw HK HNb HNmax R4 R7 R8 R9)
    as HK'.
  destruct (Round_spec _ rw Hw) as (K' & HRK & _ & HK2); [bpow_num; lra |].
  assert (K' = K) by (apply (Z_of_near _ _ rw HK2 HK')). subst K'.
  rewrite HRK. reflexivity.
Qed.

(** At the rate zero the net amount is the amount and the tax is zero. *)
Lemma reconstructs_zero_all (K : Z) :
  (1 <= K < 2 ^ 51)%Z ->
  F64.round2 (net_at PrimFloat.zero (F64.cents K)
              + tax_at PrimFloat.zero (F64.cents K))
  = F64.cents K.
Proof.
  intros HK.
  assert (HKr : 1 <= IZR K <= 2251799813685248)
    by (split; apply IZR_le; lia).
  destruct (cents_rounded K) as (ra & Ha & R1); [lia |].
  unfold tax_at, net_at, ValueAddedTax_NetAmount, F64.round2.
  cbn [ValueAddedTax.Percentage].
  set (a := F64.cents K) in *.
  change (1 + PrimFloat.zero / F64.hundred)%float with 1%float.
  rel_bound R1 as A1.
  destruct (div_rounded a 1%float ra 1 Ha one_is_pos) as (rq & Hq & R2);
    [apply in_range; bpow_num; lra | apply in_range; bpow_num; lra |].
  assert (Hrq : rq = ra).
  { destruct (is_pos_normal a ra Ha) as (m & e & _ & Hv & _ & _ & Hb).
    { apply Rle_trans with (bpow (-60)); [apply bpow_le; lia |].
      bpow_num. lra. }
    assert (Hex : rq = ra / 1); [| lra].
    apply (rounded_exact (Zpos m) e _ _ R2); [rewrite Hv at 1; lra | lra]. }
  subst rq.
  assert (Hround : forall y : float,
            is_pos y ra ->
            (F64.Round (y * F64.hundred) / F64.hundred)%float = a).
  { intros y Hy.
    destruct (mul_rounded _ _ ra 100 Hy hundred_is_pos) as (rm & Hm & R3);
      [apply in_range; bpow_num; lra | apply in_range; bpow_num; lra |].
    pose proof (cents_times_100 K ra rm HK R1 R3) as HN.
    destruct (Round_spec _ rm Hm) as (N & HRN & _ & HN2); [bpow_num; lra |].
    assert (N = K) by (apply (Z_of_near _ _ rm HN2 HN)). subst N.
    rewrite HRN. reflexivity. }
  rewrite (Hround _ Hq).
  rewrite (float_sub_diag a ra Ha).
  change (F64.Round (PrimFloat.zero * F64.hundred) / F64.hundred)%float
    with PrimFloat.zero.
  rewrite (float_add_zero_r a ra Ha).
  apply (Hround _ Ha).
Qed.

End ErrorAnalysis.


(** The amounts between the last one that the analysis covers and the first
    one that is not reconstructed, checked one by one. *)
Definition reconstructs_rounded (rate : float) (k : Z) : bool :=
  let a := F64.cents k in
  PrimFloat.eqb (F64.round2 (net_at rate a + tax_at rate a)) a.

Lemma reconstructs_standard_last :
  all_range 72 2075877953241087 (reconstructs_rounded (F64.of_Z 18)) = true.
Proof. vm_compute. reflexivity. Qed.

(** At both rates the rounded sum is the amount, bit for bit, for every
    amount below 2075877953241159 cents. *)
Lemma reconstructs_cents (rate : float) (k : Z) :
  rate = F64.of_Z 18 \/ rate = PrimFloat.zero ->
  (1 <= k < 2075877953241159)%Z ->
  F64.round2 (net_at rate (F64.cents k) + tax_at rate (F64.cents k))
  = F64.cents k.
Proof.
  intros [-> | ->] Hk; [| apply reconstructs_zero_all; lia].
  destruct (cents_rounded k) as (ra & Ha & _); [lia |].
  destruct (Z_le_gt_dec k 1000000) as [Hsmall | Hbig].
  - apply (eqb_is_pos_eq _ _ ra Ha).
    pose proof (all_range_spec _ _ 1 reconstructs_standard k ltac:(lia)) as H.
    unfold reconstructs in H. apply andb_true_iff in H as [H _]. exact H.
  - destruct (Z_le_gt_dec k 2075877953241086) as [Hmid | Hlast].
    + apply reconstructs_standard_large. lia.
    + apply (eqb_is_pos_eq _ _ ra Ha).
      apply (all_range_spec _ _ 2075877953241087 reconstructs_standard_last).
      lia.
Qed.

(** Up to 10000.00 the unrounded float64 sum is the amount or one of the two
    float64 values next to it. *)
Lemma raw_sum_adjacent_cents (taxCode k : Z) :
  (1 <= k <= 1000000)%Z ->
  let a := F64.cents k in
  let s := (NetAmount taxCode a + ValueAddedTaxAmount taxCode a)%float in
  PrimFloat.eqb s a || PrimFloat.eqb s (PrimFloat.next_up a)
  || PrimFloat.eqb s (PrimFloat.next_down a) = true.
Proof.
  intros Hk a s. subst s a.
  rewrite NetAmount_net_at, ValueAddedTaxAmount_tax_at.
  assert (H : reconstructs (ValueAddedTaxRate taxCode) k = true).
  { destruct (ParseTaxCode_rate taxCode) as [-> | ->].
    - apply (all_range_spec _ _ 1 reconstructs_standard). lia.
    - apply (all_range_spec _ _ 1 reconstructs_zero_rate). lia. }
  unfold reconstructs in H. apply andb_true_iff in H as [_ H]. exact H.
Qed.

(** C1, as stated, fails. For the zero-rated category and the positive
    amount 0.005 the net amount is 0.01 (the half cent is rounded away from
    zero) and the tax amount is -0.01: the sum is 0, not the amount, which
    itself rounds to 0.01. For the standard category and the amount 0.06 the
    net amount is 0.05 and the tax amount 0.01, and their float64 sum is
    0.060000000000000005, which [==] tells apart from 0.06. For the amount
    1e307 the product by 100 overflows: net is +Inf, tax is -Inf and the sum
    is NaN. For the amount 20758779532411.59 at the standard rate the net
    amount 17592186044416.60 is the first one of 2^44 and more, where the
    float64 values are 1/256 apart: net and tax add up to the amount in
    cents, but their float64 sum rounds to 20758779532411.60. *)
Lemma net_plus_tax_counterexamples :
  PrimFloat.ltb PrimFloat.zero (F64.cents 6) = true
  /\ NetAmount StandardVATCODE (F64.cents 6) = F64.cents 5
  /\ ValueAddedTaxAmount StandardVATCODE (F64.cents 6) = F64.cents 1
  /\ PrimFloat.eqb
       (NetAmount StandardVATCODE (F64.cents 6)
        + ValueAddedTaxAmount StandardVATCODE (F64.cents 6))%float
       (F64.cents 6) = false
  /\ (let half_cent := (F64.of_Z 5 / F64.of_Z 1000)%float in
      PrimFloat.ltb PrimFloat.zero half_cent = true
      /\ NetAmount ZeroVATCODE half_cent = F64.cents 1
      /\ ValueAddedTaxAmount ZeroVATCODE half_cent = F64.cents (-1)
      /\ (NetAmount ZeroVATCODE half_cent
          + ValueAddedTaxAmount ZeroVATCODE half_cent)%float = PrimFloat.zero
      /\ F64.round2 half_cent = F64.cents 1)
  /\ (let huge := 0x1.c7b1f3cac7433p+1019%float in
      PrimFloat.ltb PrimFloat.zero huge = true
      /\ PrimFloat.is_infinity huge = false
      /\ NetAmount StandardVATCODE huge = PrimFloat.infinity
      /\ ValueAddedTaxAmount StandardVATCODE huge = PrimFloat.neg_infinity
      /\ PrimFloat.is_nan
           (NetAmount StandardVATCODE huge
            + ValueAddedTaxAmount StandardVATCODE huge)%float = true)
  /\ (let a := F64.cents 2075877953241159 in
      let net := NetAmount StandardVATCODE a in
      let tax := ValueAddedTaxAmount StandardVATCODE a in
      PrimFloat.ltb PrimFloat.zero a = true
      /\ net = F64.cents 1759218604441660
      /\ tax = F64.cents 316659348799499
      /\ (1759218604441660 + 316659348799499 = 2075877953241159)%Z
      /\ F64.round2 (net + tax) = F64.cents 2075877953241160
      /\ PrimFloat.eqb (F64.round2 (net + tax)) a = false).
Proof. repeat split; vm_compute; reflexivity. Qed.

(** C1 (amended): for every tax code the tax amount is the remainder
    [x - NetAmount] rounded to two decimals, whatever the amount [x]; and for
    every amount [a] of [k] cents, [1 <= k < 2075877953241159] (0.01 to
    20758779532411.58), the float64 sum net + tax rounded to two decimals is
    [a] itself, bit for bit, so that [==] holds of the rounded sum. The bound
    is the first amount for which this fails. *)
Theorem net_plus_tax_reconstructs_cents (taxCode k : Z) :
  (1 <= k < 2075877953241159)%Z ->
  let a := F64.cents k in
  let net := NetAmount taxCode a in
  let tax := ValueAddedTaxAmount taxCode a in
  (forall x : float,
     ValueAddedTaxAmount taxCode x = F64.round2 (x - NetAmount taxCode x))
  /\ F64.round2 (net + tax) = a
  /\ PrimFloat.eqb (F64.round2 (net + tax)) a = true.
Proof.
  intros Hk a net tax. split; [reflexivity |].
  subst net tax a.
  rewrite NetAmount_net_at, ValueAddedTaxAmount_tax_at.
  assert (H : F64.round2
                (net_at (ValueAddedTaxRate taxCode) (F64.cents k)
                 + tax_at (ValueAddedTaxRate taxCode) (F64.cents k))
              = F64.cents k)
    by (apply reconstructs_cents; [apply ParseTaxCode_rate | exact Hk]).
  split; [exact H |]. rewrite H.
  destruct (cents_rounded k) as (ra & Ha & _); [lia |].
  exact (eqb_refl_pos _ ra Ha).
Qed.

Lemma net_plus_tax_reconstructs_cents_witness :
  let a := F64.cents 2075877953241158 in
  let net := NetAmount TaxableItemCode a in
  let tax := ValueAddedTaxAmount TaxableItemCode a in
  (forall x : float,
     ValueAddedTaxAmount TaxableItemCode x
     = F64.round2 (x - NetAmount TaxableItemCode x))
  /\ F64.round2 (net + tax) = a
  /\ PrimFloat.eqb (F64.round2 (net + tax)) a = true.
Proof.
  apply (net_plus_tax_reconstructs_cents TaxableItemCode 2075877953241158).
  lia.
Defined.

(** ** C2: the report builder does not round *)

(** C2 fails on the code for Z reports: [generateZReport] stores the
    caller's corrections 1.234 as they are, while 2-decimal rounding would
    give 1.23. *)
Lemma generateZReport_keeps_unrounded_corrections :
  let corrections := (F64.of_Z 1234 / F64.of_Z 1000)%float in
  let totals :=
    ReportTotals.mk PrimFloat.zero PrimFloat.zero corrections PrimFloat.zero
      PrimFloat.zero 0 PrimFloat.zero 0 0 in
  let z :=
    generateZReport
      (ReportParams.mk "2023-01-01" "10:00:00" "V" "T" "U" "O" "R" "Z" "E" "D")
      (Address.mk "N" "S" "M" "C" "K") [] [] totals in
  models.REPORTTOTALS.CORRECTIONS (models.ZREPORT.TOTALS z) = corrections
  /\ F64.round2 corrections = F64.cents 123
  /\ PrimFloat.eqb (models.REPORTTOTALS.CORRECTIONS (models.ZREPORT.TOTALS z))
        (F64.round2 corrections) = false.
Proof. repeat split; vm_compute; reflexivity. Qed.

(** ** C6: [ParsePayment] *)

(** [ParsePayment] returns for every value whose dynamic type is not
    [int64]. *)
Lemma ParsePayment_returns_unless_int64 (value : any) :
  (forall n, value <> any_integer k_int64 n) ->
  exists p, ParsePayment value = Returns p.
Proof.
  intros Hne. destruct value as [k n | s | p | x | b |]; simpl; eauto.
  - destruct k; simpl; eauto.
    + destruct n as [| p | p]; eauto.
      do 3 (destruct p as [p | p |]; eauto).
    + exfalso. apply (Hne n). reflexivity.
  - repeat (match goal with |- context [if ?c then _ else _] => destruct c end);
      eauto.
Qed.

Lemma ParsePayment_examples :
  ParsePayment (any_integer k_int 1) = Returns CashPaymentType
  /\ ParsePayment (any_string "cash") = Returns CashPaymentType
  /\ ParsePayment (any_string "CHEQUE") = Returns ChequePaymentType
  /\ ParsePayment (any_integer k_int 3) = Returns CreditCardPaymentType
  /\ ParsePayment (any_integer k_int32 3) = Returns CashPaymentType
  /\ ParsePayment (any_float64 (F64.of_Z 3)) = Returns CashPaymentType.
Proof. repeat split; reflexivity. Qed.

(** C6 fails on the code: every [int64] value enters the clause
    [case int, int64:] and panics at the type assertion [i.(int)], so
    [ParsePayment(int64(3))] returns no payment type at all. *)
Theorem ParsePayment_int64_panics :
  ParsePayment (any_integer k_int64 3)
  = Panics "interface conversion: interface {} is int64, not int"
  /\ forall n : Z,
       ParsePayment (any_integer k_int64 n)
       = Panics "interface conversion: interface {} is int64, not int".
Proof. split; [reflexivity | intros n; reflexivity]. Qed.

(** ** C4 and C5: the Z-report aggregator *)

Definition canonical_vat_keys : list string :=
  ["A-18.00"; "B-0.00"; "C-0.00"; "D-0.00"; "E-0.00"].

Definition canonical_payment_types : list string :=
  ["CASH"; "CHEQUE"; "CCARD"; "EMONEY"; "INVOICE"].

(** The key under which [sumVatTotals] files an entry. *)
Definition vat_key (vat : VATTOTAL.t) : string :=
  rate_key (VATTOTAL.ID vat) (VATTOTAL.Rate vat).

Lemma sumVatTotals_step_lookup_ne (m : gmap string (float * float))
  (vat : VATTOTAL.t) (k : string) :
  vat_key vat <> k ->
  vat_lookup (sumVatTotals_step m vat) k = vat_lookup m k.
Proof.
  intros Hne. unfold sumVatTotals_step, vat_lookup, vat_key in *.
  cbv zeta. by rewrite lookup_insert_ne.
Qed.

Lemma sumVatTotals_step_lookup_eq (m : gmap string (float * float))
  (vat : VATTOTAL.t) :
  vat_lookup (sumVatTotals_step m vat) (vat_key vat)
  = ((vat_lookup m (vat_key vat)).1 + VATTOTAL.NetAmount vat,
     (vat_lookup m (vat_key vat)).2 + VATTOTAL.TaxAmount vat)%float.
Proof.
  unfold sumVatTotals_step, vat_key. cbv zeta.
  unfold vat_lookup at 1. by rewrite lookup_insert_eq.
Qed.

Lemma sumVatTotals_untouched (vats : list VATTOTAL.t) (k : string) :
  forall m : gmap string (float * float),
    (forall vat, vat ∈ vats -> vat_key vat <> k) ->
    vat_lookup (fold_left sumVatTotals_step vats m) k = vat_lookup m k.
Proof.
  induction vats as [| vat vats IH]; intros m H; simpl; [reflexivity |].
  rewrite IH.
  - apply sumVatTotals_step_lookup_ne. apply H. left.
  - intros v Hv. apply H. by right.
Qed.

(** Two maps that agree on a set of keys still agree on it after the same
    entry is added to both. *)
Lemma sumVatTotals_step_agree (keys : list string)
  (m1 m2 : gmap string (float * float)) (vat : VATTOTAL.t) :
  (forall k, k ∈ keys -> vat_lookup m1 k = vat_lookup m2 k) ->
  forall k, k ∈ keys ->
    vat_lookup (sumVatTotals_step m1 vat) k
    = vat_lookup (sumVatTotals_step m2 vat) k.
Proof.
  intros H k Hk. destruct (decide (vat_key vat = k)) as [<- | Hne].
  - rewrite !sumVatTotals_step_lookup_eq. by rewrite (H _ Hk).
  - rewrite !sumVatTotals_step_lookup_ne by done. by apply H.
Qed.

Lemma sumVatTotals_fold_agree (keys : list string) (vats : list VATTOTAL.t) :
  forall m1 m2 : gmap string (float * float),
    (forall k, k ∈ keys -> vat_lookup m1 k = vat_lookup m2 k) ->
    forall k, k ∈ keys ->
      vat_lookup (fold_left sumVatTotals_step vats m1) k
      = vat_lookup (fold_left sumVatTotals_step vats m2) k.
Proof.
  induction vats as [| vat vats IH]; intros m1 m2 H k Hk; simpl.
  - by apply H.
  - apply IH; [| done]. by apply sumVatTotals_step_agree.
Qed.

Lemma sumVatTotals_drop (keys : list string) (vats1 vats2 : list VATTOTAL.t)
  (vat : VATTOTAL.t) (m : gmap string (float * float)) :
  vat_key vat ∉ keys ->
  forall k, k ∈ keys ->
    vat_lookup (fold_left sumVatTotals_step (vats1 ++ vat :: vats2) m) k
    = vat_lookup (fold_left sumVatTotals_step (vats1 ++ vats2) m) k.
Proof.
  intros Hvat k Hk. rewrite !fold_left_app. simpl.
  apply sumVatTotals_fold_agree with (keys := keys); [| done].
  intros k' Hk'. apply sumVatTotals_step_lookup_ne.
  intros Heq. apply Hvat. by rewrite Heq.
Qed.

Lemma sumPayments_step_lookup_ne (m : gmap string float) (p : Payment.t)
  (k : string) :
  Payment.Type_ p <> k ->
  pay_lookup (sumPayments_step m p) k = pay_lookup m k.
Proof.
  intros Hne. unfold sumPayments_step, pay_lookup. by rewrite lookup_insert_ne.
Qed.

Lemma sumPayments_step_lookup_eq (m : gmap string float) (p : Payment.t) :
  pay_lookup (sumPayments_step m p) (Payment.Type_ p)
  = (pay_lookup m (Payment.Type_ p) + Payment.Amount p)%float.
Proof.
  unfold sumPayments_step. unfold pay_lookup at 1. by rewrite lookup_insert_eq.
Qed.

Lemma sumPayments_untouched (payments : list Payment.t) (k : string) :
  forall m : gmap string float,
    (forall p, p ∈ payments -> Payment.Type_ p <> k) ->
    pay_lookup (fold_left sumPayments_step payments m) k = pay_lookup m k.
Proof.
  induction payments as [| p payments IH]; intros m H; simpl; [reflexivity |].
  rewrite IH.
  - apply sumPayments_step_lookup_ne. apply H. left.
  - intros q Hq. apply H. by right.
Qed.

Lemma sumPayments_fold_agree (keys : list string) (payments : list Payment.t) :
  forall m1 m2 : gmap string float,
    (forall k, k ∈ keys -> pay_lookup m1 k = pay_lookup m2 k) ->
    forall k, k ∈ keys ->
      pay_lookup (fold_left sumPayments_step payments m1) k
      = pay_lookup (fold_left sumPayments_step payments m2) k.
Proof.
  induction payments as [| p payments IH]; intros m1 m2 H k Hk; simpl.
  - by apply H.
  - apply IH; [| done]. intros k' Hk'.
    destruct (decide (Payment.Type_ p = k')) as [<- | Hne].
    + rewrite !sumPayments_step_lookup_eq. by rewrite (H _ Hk').
    + rewrite !sumPayments_step_lookup_ne by done. by apply H.
Qed.

Lemma sumPayments_drop (keys : list string) (ps1 ps2 : list Payment.t)
  (p : Payment.t) (m : gmap string float) :
  Payment.Type_ p ∉ keys ->
  forall k, k ∈ keys ->
    pay_lookup (fold_left sumPayments_step (ps1 ++ p :: ps2) m) k
    = pay_lookup (fold_left sumPayments_step (ps1 ++ ps2) m) k.
Proof.
  intros Hp k Hk. rewrite !fold_left_app. simpl.
  apply sumPayments_fold_agree with (keys := keys); [| done].
  intros k' Hk'. apply sumPayments_step_lookup_ne.
  intros Heq. apply Hp. by rewrite Heq.
Qed.

(** C4: whatever the inputs, [sumVatTotals] returns the five entries
    A-18.00, B-0.00, C-0.00, D-0.00, E-0.00 in this order and [sumPayments]
    the five entries CASH, CHEQUE, CCARD, EMONEY, INVOICE in this order; an
    entry whose key no input forms carries the amounts "0.00". *)
Theorem report_aggregation_fixed_shape (vats : list VATTOTAL.t)
  (payments : list Payment.t) :
  length (sumVatTotals vats) = 5
  /\ map models.VATTOTAL.VATRATE (sumVatTotals vats) = canonical_vat_keys
  /\ length (sumPayments payments) = 5
  /\ map models.PAYMENT.PMTTYPE (sumPayments payments) = canonical_payment_types
  /\ (forall e, e ∈ sumVatTotals vats ->
        (forall vat, vat ∈ vats -> vat_key vat <> models.VATTOTAL.VATRATE e) ->
        models.VATTOTAL.NETTAMOUNT e = "0.00"
        /\ models.VATTOTAL.TAXAMOUNT e = "0.00")
  /\ (forall e, e ∈ sumPayments payments ->
        (forall p, p ∈ payments -> Payment.Type_ p <> models.PAYMENT.PMTTYPE e) ->
        models.PAYMENT.PMTAMOUNT e = "0.00").
Proof.
  repeat split; try reflexivity.
  - unfold sumVatTotals in H. set_unfold in H.
    destruct_or!; subst e; simpl in *;
      rewrite sumVatTotals_untouched by assumption; reflexivity.
  - unfold sumVatTotals in H. set_unfold in H.
    destruct_or!; subst e; simpl in *;
      rewrite sumVatTotals_untouched by assumption; reflexivity.
  - intros e He H. unfold sumPayments in He. set_unfold in He.
    destruct_or!; subst e; simpl in *; unfold pay_entry; simpl;
      rewrite sumPayments_untouched by assumption; reflexivity.
Qed.

(** The aggregation of no entry, of one entry and of entries under a
    non-canonical key. *)
Lemma report_aggregation_examples :
  sumVatTotals []
  = [ models.VATTOTAL.mk "A-18.00" "0.00" "0.00";
      models.VATTOTAL.mk "B-0.00" "0.00" "0.00";
      models.VATTOTAL.mk "C-0.00" "0.00" "0.00";
      models.VATTOTAL.mk "D-0.00" "0.00" "0.00";
      models.VATTOTAL.mk "E-0.00" "0.00" "0.00" ]
  /\ sumVatTotals
       [ VATTOTAL.mk "C" PrimFloat.zero PrimFloat.zero (F64.cents 12345);
         VATTOTAL.mk "A" (F64.cents 1850) (F64.of_Z 185) (F64.of_Z 1000) ]
     = [ models.VATTOTAL.mk "A-18.00" "0.00" "0.00";
         models.VATTOTAL.mk "B-0.00" "0.00" "0.00";
         models.VATTOTAL.mk "C-0.00" "123.45" "0.00";
         models.VATTOTAL.mk "D-0.00" "0.00" "0.00";
         models.VATTOTAL.mk "E-0.00" "0.00" "0.00" ]
  /\ sumPayments
       [ Payment.mk "INVOICE" (F64.of_Z 700); Payment.mk "cash" (F64.of_Z 5);
         Payment.mk "INVOICE" (F64.cents 50) ]
     = [ models.PAYMENT.mk "CASH" "0.00";
         models.PAYMENT.mk "CHEQUE" "0.00";
         models.PAYMENT.mk "CCARD" "0.00";
         models.PAYMENT.mk "EMONEY" "0.00";
         models.PAYMENT.mk "INVOICE" "700.50" ].
Proof. repeat split; vm_compute; reflexivity. Qed.

Definition is_canonical_vat (vat : VATTOTAL.t) : bool :=
  bool_decide (vat_key vat ∈ canonical_vat_keys).

Definition is_canonical_payment (p : Payment.t) : bool :=
  bool_decide (Payment.Type_ p ∈ canonical_payment_types).

Lemma sumVatTotals_fold_filter (vats : list VATTOTAL.t) :
  forall m1 m2 : gmap string (float * float),
    (forall k, k ∈ canonical_vat_keys -> vat_lookup m1 k = vat_lookup m2 k) ->
    forall k, k ∈ canonical_vat_keys ->
      vat_lookup (fold_left sumVatTotals_step vats m1) k
      = vat_lookup
          (fold_left sumVatTotals_step (List.filter is_canonical_vat vats) m2) k.
Proof.
  induction vats as [| vat vats IH]; intros m1 m2 H k Hk; simpl.
  - by apply H.
  - destruct (is_canonical_vat vat) eqn:Hc; simpl.
    + apply IH; [| done]. by apply sumVatTotals_step_agree.
    + apply IH; [| done]. intros k' Hk'.
      rewrite sumVatTotals_step_lookup_ne; [by apply H |].
      intros Heq. apply bool_decide_eq_false in Hc. apply Hc.
      by rewrite Heq.
Qed.

Lemma sumPayments_fold_filter (payments : list Payment.t) :
  forall m1 m2 : gmap string float,
    (forall k, k ∈ canonical_payment_types -> pay_lookup m1 k = pay_lookup m2 k) ->
    forall k, k ∈ canonical_payment_types ->
      pay_lookup (fold_left sumPayments_step payments m1) k
      = pay_lookup
          (fold_left sumPayments_step
             (List.filter is_canonical_payment payments) m2) k.
Proof.
  induction payments as [| p payments IH]; intros m1 m2 H k Hk; simpl.
  - by apply H.
  - destruct (is_canonical_payment p) eqn:Hc; simpl.
    + apply IH; [| done]. intros k' Hk'.
      destruct (decide (Payment.Type_ p = k')) as [<- | Hne].
      * rewrite !sumPayments_step_lookup_eq. by rewrite (H _ Hk').
      * rewrite !sumPayments_step_lookup_ne by done. by apply H.
    + apply IH; [| done]. intros k' Hk'.
      rewrite sumPayments_step_lookup_ne; [by apply H |].
      intros Heq. apply bool_decide_eq_false in Hc. apply Hc.
      by rewrite Heq.
Qed.

(** The output of [sumVatTotals] is a function of the five canonical
    lookups of the final map. *)
Lemma sumVatTotals_ext (vats vats' : list VATTOTAL.t) :
  (forall k, k ∈ canonical_vat_keys ->
     vat_lookup (fold_left sumVatTotals_step vats vatTotalMap_init) k
     = vat_lookup (fold_left sumVatTotals_step vats' vatTotalMap_init) k) ->
  sumVatTotals vats = sumVatTotals vats'.
Proof.
  intros H. unfold sumVatTotals, vat_entry.
  rewrite !H by (unfold canonical_vat_keys; set_solver). reflexivity.
Qed.

Lemma sumPayments_ext (payments payments' : list Payment.t) :
  (forall k, k ∈ canonical_payment_types ->
     pay_lookup (fold_left sumPayments_step payments paymentMap_init) k
     = pay_lookup (fold_left sumPayments_step payments' paymentMap_init) k) ->
  sumPayments payments = sumPayments payments'.
Proof.
  intros H. unfold sumPayments, pay_entry.
  rewrite !H by (unfold canonical_payment_types; set_solver). reflexivity.
Qed.

(** The aggregation sees only the entries with a canonical key. *)
Lemma sumVatTotals_filter (vats : list VATTOTAL.t) :
  sumVatTotals vats = sumVatTotals (List.filter is_canonical_vat vats).
Proof.
  apply sumVatTotals_ext. intros k Hk.
  by apply sumVatTotals_fold_filter.
Qed.

Lemma sumPayments_filter (payments : list Payment.t) :
  sumPayments payments
  = sumPayments (List.filter is_canonical_payment payments).
Proof.
  apply sumPayments_ext. intros k Hk.
  by apply sumPayments_fold_filter.
Qed.

(** C5: a VAT entry whose key ["{id}-{rate:2dp}"] is not canonical and a
    payment whose type is not canonical contribute nothing: removing either
    from any position of the input leaves the aggregation unchanged, and the
    aggregation of any input is that of its canonical entries alone. The
    functions are total: nothing is raised. *)
Theorem report_aggregation_drops_unknown
  (vats1 vats2 : list VATTOTAL.t) (vat : VATTOTAL.t)
  (ps1 ps2 : list Payment.t) (p : Payment.t) :
  vat_key vat ∉ canonical_vat_keys ->
  Payment.Type_ p ∉ canonical_payment_types ->
  sumVatTotals (vats1 ++ vat :: vats2) = sumVatTotals (vats1 ++ vats2)
  /\ sumPayments (ps1 ++ p :: ps2) = sumPayments (ps1 ++ ps2)
  /\ sumVatTotals (vats1 ++ vat :: vats2)
     = sumVatTotals (List.filter is_canonical_vat (vats1 ++ vat :: vats2))
  /\ sumPayments (ps1 ++ p :: ps2)
     = sumPayments (List.filter is_canonical_payment (ps1 ++ p :: ps2)).
Proof.
  intros Hvat Hp. repeat split.
  - apply sumVatTotals_ext. intros k Hk.
    by apply sumVatTotals_drop with (keys := canonical_vat_keys).
  - apply sumPayments_ext. intros k Hk.
    by apply sumPayments_drop with (keys := canonical_payment_types).
  - apply sumVatTotals_filter.
  - apply sumPayments_filter.
Qed.

Lemma not_canonical_vat_example :
  vat_key (VATTOTAL.mk "A" (F64.cents 1850) (F64.of_Z 185) (F64.of_Z 1000))
  ∉ canonical_vat_keys.
Proof.
  rewrite list_elem_of_In. vm_compute. intuition discriminate.
Qed.

Lemma not_canonical_payment_example :
  Payment.Type_ (Payment.mk "cash" (F64.of_Z 700)) ∉ canonical_payment_types.
Proof.
  rewrite list_elem_of_In. vm_compute. intuition discriminate.
Qed.

Lemma report_aggregation_drops_unknown_witness :
  let vat := VATTOTAL.mk "A" (F64.cents 1850) (F64.of_Z 185) (F64.of_Z 1000) in
  let std := VATTOTAL.mk "A" (F64.of_Z 18) (F64.of_Z 180) (F64.of_Z 1000) in
  let p := Payment.mk "cash" (F64.of_Z 700) in
  let q := Payment.mk "CASH" (F64.of_Z 500) in
  sumVatTotals ([std] ++ vat :: [std]) = sumVatTotals ([std] ++ [std])
  /\ sumPayments ([q] ++ p :: []) = sumPayments ([q] ++ [])
  /\ sumVatTotals ([std] ++ vat :: [std])
     = sumVatTotals (List.filter is_canonical_vat ([std] ++ vat :: [std]))
  /\ sumPayments ([q] ++ p :: [])
     = sumPayments (List.filter is_canonical_payment ([q] ++ p :: [])).
Proof.
  intros vat std p q.
  apply (report_aggregation_drops_unknown [std] [std] vat [q] [] p).
  - exact not_canonical_vat_example.
  - exact not_canonical_payment_example.
Defined.

(** ** Base64: decoding inverts encoding *)

Lemma list_ind3 {A : Type} (P : list A -> Prop) :
  P [] -> (forall a, P [a]) -> (forall a b, P [a; b]) ->
  (forall a b c l, P l -> P (a :: b :: c :: l)) ->
  forall l, P l.
Proof.
  intros H0 H1 H2 H3.
  fix IH 1. intros [| a [| b [| c l]]];
    [exact H0 | apply H1 | apply H2 | apply H3; apply IH].
Qed.

Lemma dec_enc_char (n : N) :
  (n < 64)%N -> Base64.dec_char (Base64.enc_char n) = Some n.
Proof.
  intros H. destruct n as [| p]; [reflexivity |].
  do 6 (destruct p as [p | p |]; try reflexivity); lia.
Qed.

Lemma enc_char_not_pad (n : N) :
  (n < 64)%N -> Ascii.eqb (Base64.enc_char n) Base64.pad = false.
Proof.
  intros H. destruct (Ascii.eqb_spec (Base64.enc_char n) Base64.pad) as [E |];
    [| reflexivity].
  apply dec_enc_char in H. rewrite E in H. discriminate H.
Qed.

Lemma enc_char_not_newline (n : N) :
  (n < 64)%N ->
  ((N_of_ascii (Base64.enc_char n) =? 10) || (N_of_ascii (Base64.enc_char n) =? 13))%N
  = false.
Proof.
  intros H. destruct n as [| p]; [reflexivity |].
  do 6 (destruct p as [p | p |]; try reflexivity); lia.
Qed.

Lemma sextets_spec (a b c : N) :
  (a < 256)%N -> (b < 256)%N -> (c < 256)%N ->
  forall s0 s1 s2 s3, Base64.sextets a b c = (s0, s1, s2, s3) ->
  (s0 < 64 /\ s1 < 64 /\ s2 < 64 /\ s3 < 64
   /\ s0 * 4 + s1 / 16 = a
   /\ (s1 mod 16) * 16 + s2 / 4 = b
   /\ (s2 mod 4) * 64 + s3 = c)%N.
Proof.
  intros Ha Hb Hc s0 s1 s2 s3 [= <- <- <- <-].
  pose proof (N.div_mod a 4 ltac:(discriminate)) as Ea.
  pose proof (N.mod_lt a 4 ltac:(discriminate)) as La.
  pose proof (N.div_mod b 16 ltac:(discriminate)) as Eb.
  pose proof (N.mod_lt b 16 ltac:(discriminate)) as Lb.
  pose proof (N.div_mod c 64 ltac:(discriminate)) as Ec.
  pose proof (N.mod_lt c 64 ltac:(discriminate)) as Lc.
  set (qa := (a / 4)%N) in *. set (ra := (a mod 4)%N) in *.
  set (qb := (b / 16)%N) in *. set (rb := (b mod 16)%N) in *.
  set (qc := (c / 64)%N) in *. set (rc := (c mod 64)%N) in *.
  assert (H1 : ((ra * 16 + qb) / 16 = ra)%N)
    by (symmetry; apply (N.div_unique _ _ _ qb); lia).
  assert (H2 : ((ra * 16 + qb) mod 16 = qb)%N)
    by (symmetry; apply (N.mod_unique _ _ ra); lia).
  assert (H3 : ((rb * 4 + qc) / 4 = rb)%N)
    by (symmetry; apply (N.div_unique _ _ _ qc); lia).
  assert (H4 : ((rb * 4 + qc) mod 4 = qc)%N)
    by (symmetry; apply (N.mod_unique _ _ rb); lia).
  rewrite H1, H2, H3, H4. lia.
Qed.

Lemma byte_of_to_N (b : Byte.byte) : Base64.byte_of_N (Byte.to_N b) = b.
Proof. unfold Base64.byte_of_N. by rewrite Byte.of_to_N. Qed.

Lemma to_N_lt_256 (b : Byte.byte) : (Byte.to_N b < 256)%N.
Proof. pose proof (Byte.to_N_bounded b). lia. Qed.

Lemma skip_newlines_EncodeToString (src : list Byte.byte) :
  Base64.skip_newlines (Base64.EncodeToString src) = Base64.EncodeToString src.
Proof.
  induction src as [| a | a b | a b c rest IH] using list_ind3.
  - reflexivity.
  - cbn [Base64.EncodeToString].
    destruct (Base64.sextets (Byte.to_N a) 0 0) as [[[s0 s1] s2] s3] eqn:E.
    destruct (sextets_spec (Byte.to_N a) 0 0 (to_N_lt_256 a) eq_refl eq_refl
                _ _ _ _ E)
      as (L0 & L1 & _).
    cbn [Base64.skip_newlines].
    by rewrite !enc_char_not_newline.
  - cbn [Base64.EncodeToString].
    destruct (Base64.sextets (Byte.to_N a) (Byte.to_N b) 0)
      as [[[s0 s1] s2] s3] eqn:E.
    destruct (sextets_spec (Byte.to_N a) (Byte.to_N b) 0 (to_N_lt_256 a)
                (to_N_lt_256 b) eq_refl _ _ _ _ E) as (L0 & L1 & L2 & _).
    cbn [Base64.skip_newlines].
    by rewrite !enc_char_not_newline.
  - cbn [Base64.EncodeToString].
    destruct (Base64.sextets (Byte.to_N a) (Byte.to_N b) (Byte.to_N c))
      as [[[s0 s1] s2] s3] eqn:E.
    destruct (sextets_spec _ _ _ (to_N_lt_256 a) (to_N_lt_256 b)
                (to_N_lt_256 c) _ _ _ _ E) as (L0 & L1 & L2 & L3 & _).
    cbn [Base64.skip_newlines].
    rewrite !enc_char_not_newline by done. by rewrite IH.
Qed.

Lemma decode_quanta_EncodeToString (src : list Byte.byte) :
  Base64.decode_quanta (Base64.EncodeToString src) = Ok src.
Proof.
  induction src as [| a | a b | a b c rest IH] using list_ind3.
  - reflexivity.
  - cbn [Base64.EncodeToString].
    destruct (Base64.sextets (Byte.to_N a) 0 0) as [[[s0 s1] s2] s3] eqn:E.
    destruct (sextets_spec (Byte.to_N a) 0 0 (to_N_lt_256 a) eq_refl eq_refl
                _ _ _ _ E)
      as (L0 & L1 & _ & _ & Ha & _).
    cbn [Base64.decode_quanta].
    rewrite !dec_enc_char by done. rewrite Ha, byte_of_to_N. reflexivity.
  - cbn [Base64.EncodeToString].
    destruct (Base64.sextets (Byte.to_N a) (Byte.to_N b) 0)
      as [[[s0 s1] s2] s3] eqn:E.
    destruct (sextets_spec (Byte.to_N a) (Byte.to_N b) 0 (to_N_lt_256 a)
                (to_N_lt_256 b) eq_refl _ _ _ _ E) as (L0 & L1 & L2 & _ & Ha & Hb & _).
    cbn [Base64.decode_quanta].
    rewrite !dec_enc_char by done. rewrite (enc_char_not_pad s2) by done.
    rewrite Ha, Hb, !byte_of_to_N. reflexivity.
  - cbn [Base64.EncodeToString].
    destruct (Base64.sextets (Byte.to_N a) (Byte.to_N b) (Byte.to_N c))
      as [[[s0 s1] s2] s3] eqn:E.
    destruct (sextets_spec _ _ _ (to_N_lt_256 a) (to_N_lt_256 b)
                (to_N_lt_256 c) _ _ _ _ E)
      as (L0 & L1 & L2 & L3 & Ha & Hb & Hc).
    cbn [Base64.decode_quanta].
    rewrite !dec_enc_char by done.
    rewrite (enc_char_not_pad s2), (enc_char_not_pad s3) by done.
    rewrite IH, Ha, Hb, Hc, !byte_of_to_N. reflexivity.
Qed.

(** [base64.StdEncoding.DecodeString] inverts [EncodeToString]. *)
Lemma Base64_roundtrip (src : list Byte.byte) :
  Base64.DecodeString (Base64.EncodeToString src) = Ok src.
Proof.
  unfold Base64.DecodeString.
  by rewrite skip_newlines_EncodeToString, decode_quanta_EncodeToString.
Qed.

(** ** The pipeline on the sample collaborators *)

Module Run.

Definition ProcessItems := ProcessItems Sample.map_range.

Definition Sign :=
  Sign Sample.PrivateKey Sample.PublicKey Sample.PublicKey_of Sample.sha1_Sum
    Sample.rsa_SignPKCS1v15 Sample.rsa_VerifyPKCS1v15.

Definition SignPayload :=
  SignPayload Sample.PrivateKey Sample.PublicKey Sample.PublicKey_of
    Sample.sha1_Sum Sample.rsa_SignPKCS1v15 Sample.rsa_VerifyPKCS1v15
    Base64.EncodeToString Base64.DecodeString.

Definition VerifySignature :=
  VerifySignature Sample.PublicKey Sample.sha1_Sum Sample.rsa_VerifyPKCS1v15
    Base64.DecodeString.

Definition ReceiptBytes :=
  ReceiptBytes Sample.map_range Sample.PrivateKey Sample.PublicKey
    Sample.PublicKey_of Sample.sha1_Sum Sample.rsa_SignPKCS1v15
    Sample.rsa_VerifyPKCS1v15 Base64.EncodeToString Sample.xml_Marshal_RCT.

Definition ReportBytes :=
  ReportBytes Sample.PrivateKey Sample.PublicKey Sample.PublicKey_of
    Sample.sha1_Sum Sample.rsa_SignPKCS1v15 Sample.rsa_VerifyPKCS1v15
    Base64.EncodeToString Base64.DecodeString Sample.xml_Marshal_ZREPORT
    Sample.regexp_ReplaceAllString.

Definition submitReceipt (client_Do : Request.t -> http_reply) :=
  submitReceipt Sample.map_range Sample.PrivateKey Sample.PublicKey
    Sample.PublicKey_of Sample.sha1_Sum Sample.rsa_SignPKCS1v15
    Sample.rsa_VerifyPKCS1v15 Base64.EncodeToString Sample.xml_Marshal_RCT
    Sample.http_NewRequest_err client_Do Sample.xml_Decode_Error
    Sample.xml_Decode_RCTACKEFDMS.

Definition submitReport (client_Do : Request.t -> http_reply) :=
  submitReport Sample.PrivateKey Sample.PublicKey Sample.PublicKey_of
    Sample.sha1_Sum Sample.rsa_SignPKCS1v15 Sample.rsa_VerifyPKCS1v15
    Base64.EncodeToString Base64.DecodeString Sample.xml_Marshal_ZREPORT
    Sample.regexp_ReplaceAllString Sample.http_NewRequest_err client_Do
    Sample.xml_Decode_Error Sample.xml_Decode_ReportAckEFDMS.

(** The canonical payload of the sample receipt: the wrapper tags around
    the payment and the VAT total are gone. *)
Definition receipt_payload : string :=
  "<RCT><DATE>2022-11-17</DATE><TIME>14:00:00</TIME>"
  +:+ "<TOTALS><TOTALTAXEXCL>4237.29</TOTALTAXEXCL>"
  +:+ "<TOTALTAXINCL>5000.00</TOTALTAXINCL><DISCOUNT>5000.00</DISCOUNT></TOTALS>"
  +:+ "<PAYMENTS><PMTTYPE>CASH</PMTTYPE><PMTAMOUNT>5000.00</PMTAMOUNT></PAYMENTS>"
  +:+ "<VATTOTALS><VATRATE>A</VATRATE><NETTAMOUNT>4237.29</NETTAMOUNT>"
  +:+ "<TAXAMOUNT>762.71</TAXAMOUNT></VATTOTALS></RCT>".

End Run.

(** The package's test [TestProcessItems]: quantity 5 at 2000 with a
    discount of 5000, and quantity 5 at 1000 without discount. *)
Lemma ProcessItems_test_cases :
  Run.ProcessItems Sample.items
  = ItemProcessResponse.mk
      [models.ITEM.mk "1" "Item 1" (F64.of_Z 5) 1 (F64.of_Z 10000)]
      [models.VATTOTAL.mk "A" "4237.29" "762.71"]
      (models.TOTALS.mk (F64.cents 423729) (F64.of_Z 5000) (F64.of_Z 5000))
  /\ Run.ProcessItems
       [Item.mk "1" "Item 1" TaxableItemCode (F64.of_Z 5) (F64.of_Z 1000)
          PrimFloat.zero]
     = ItemProcessResponse.mk
         [models.ITEM.mk "1" "Item 1" (F64.of_Z 5) 1 (F64.of_Z 5000)]
         [models.VATTOTAL.mk "A" "4237.29" "762.71"]
         (models.TOTALS.mk (F64.cents 423729) (F64.of_Z 5000) PrimFloat.zero).
Proof. split; vm_compute; reflexivity. Qed.

(** The totals of [ProcessItems] are not rounded: a unit price of 0.001 stays
    in the tax-inclusive total, which rounding would turn into 0. *)
Lemma ProcessItems_totals_unrounded_example :
  let price := (F64.of_Z 1 / F64.of_Z 1000)%float in
  let T :=
    ItemProcessResponse.TOTALS
      (Run.ProcessItems
         [Item.mk "1" "x" NonTaxableItemCode (F64.of_Z 1) price PrimFloat.zero]) in
  models.TOTALS.TOTALTAXINCL T = price
  /\ F64.round2 (models.TOTALS.TOTALTAXINCL T) = PrimFloat.zero.
Proof. split; vm_compute; reflexivity. Qed.

Lemma ProcessItems_spec_witness :
  let r := Run.ProcessItems Sample.items in
  ItemProcessResponse.ITEMS r = map render_item Sample.items
  /\ (forall id : string,
        id ∈ map models.VATTOTAL.VATRATE (ItemProcessResponse.VATTOTALS r)
        <-> exists item, item ∈ Sample.items
                         /\ ValueAddedTaxID (Item.TaxCode item) = id)
  /\ NoDup (map models.VATTOTAL.VATRATE (ItemProcessResponse.VATTOTALS r)).
Proof.
  pose proof (ProcessItems_spec Sample.map_range
                (fun m => reflexivity (Sample.map_range m)) Sample.items) as H.
  cbv zeta in H. destruct H as (H1 & _ & H3 & H4 & _).
  exact (conj H1 (conj H3 H4)).
Defined.

Lemma Sample_Sign_examples :
  Run.Sign Sample.good_key (list_byte_of_string Run.receipt_payload)
  = Ok [Byte.xee]
  /\ Run.SignPayload Sample.good_key (list_byte_of_string Run.receipt_payload)
     = Ok [Byte.xee]
  /\ Run.Sign Sample.corrupted_key (list_byte_of_string Run.receipt_payload)
     = Err (fmt_Errorf_w "could not verify signature "
              (errors_New "crypto/rsa: verification error"))
  /\ Run.SignPayload Sample.corrupted_key
       (list_byte_of_string Run.receipt_payload)
     = Err (fmt_Errorf_w "invalid signature "
              (fmt_Errorf_w "could not verify signature "
                 (errors_New "crypto/rsa: verification error"))).
Proof. repeat split; vm_compute; reflexivity. Qed.

Lemma signers_return_only_verified_witness :
  Run.VerifySignature (Sample.PublicKey_of Sample.good_key)
    (list_byte_of_string Run.receipt_payload)
    (Base64.EncodeToString [Byte.xee]) = None
  /\ Run.Sign Sample.corrupted_key (list_byte_of_string Run.receipt_payload)
     = Err (fmt_Errorf_w "could not verify signature "
              (errors_New "crypto/rsa: verification error")).
Proof.
  pose proof (signers_return_only_verified Sample.PrivateKey Sample.PublicKey
                Sample.PublicKey_of Sample.sha1_Sum Sample.rsa_SignPKCS1v15
                Sample.rsa_VerifyPKCS1v15 Base64.EncodeToString
                Base64.DecodeString) as H.
  split.
  - refine (proj2 (proj1 (proj2 (proj2 (H Sample.good_key _))) [Byte.xee] _)).
    vm_compute. reflexivity.
  - eapply (proj1 (proj2 (H Sample.corrupted_key _))); vm_compute; reflexivity.
Defined.

Lemma Sign_SignPayload_equivalent_witness :
  let payload := list_byte_of_string Run.receipt_payload in
  (forall sg,
     Run.Sign Sample.good_key payload = Ok sg
     <-> Run.SignPayload Sample.good_key payload = Ok sg)
  /\ ((exists e, Run.Sign Sample.corrupted_key payload = Err e)
      <-> (exists e, Run.SignPayload Sample.corrupted_key payload = Err e)).
Proof.
  intros payload. split.
  - apply (Sign_SignPayload_equivalent Sample.PrivateKey Sample.PublicKey
             Sample.PublicKey_of Sample.sha1_Sum Sample.rsa_SignPKCS1v15
             Sample.rsa_VerifyPKCS1v15 Base64.EncodeToString
             Base64.DecodeString Sample.good_key payload Base64_roundtrip).
  - apply (Sign_SignPayload_equivalent Sample.PrivateKey Sample.PublicKey
             Sample.PublicKey_of Sample.sha1_Sum Sample.rsa_SignPKCS1v15
             Sample.rsa_VerifyPKCS1v15 Base64.EncodeToString
             Base64.DecodeString Sample.corrupted_key payload Base64_roundtrip).
Defined.

(** The sample receipt and report, built and signed. *)
Lemma ReceiptBytes_example :
  Run.ReceiptBytes Sample.good_key Sample.params Sample.customer Sample.items
    Sample.payments
  = Ok (list_byte_of_string (envelope Run.receipt_payload "7g=="))
  /\ Run.Sign Sample.good_key (list_byte_of_string Run.receipt_payload)
     = Ok [Byte.xee]
  /\ Base64.EncodeToString [Byte.xee] = "7g=="
  /\ exists e,
       Run.ReceiptBytes Sample.corrupted_key Sample.params Sample.customer
         Sample.items Sample.payments = Err e.
Proof.
  repeat split; try (vm_compute; reflexivity).
  eexists. vm_compute. reflexivity.
Qed.

Lemma signature_covers_embedded_payload_witness :
  (exists (payload : string) (sg : list Byte.byte),
     Run.ReceiptBytes Sample.good_key Sample.params Sample.customer
       Sample.items Sample.payments
     = Ok (list_byte_of_string
             (xml_Header +:+ "<EFDMS>" +:+ payload +:+ "<EFDMSSIGNATURE>"
              +:+ Base64.EncodeToString sg +:+ "</EFDMSSIGNATURE></EFDMS>"))
     /\ Run.Sign Sample.good_key (list_byte_of_string payload) = Ok sg)
  /\ (exists (payload : string) (sg : list Byte.byte),
        Run.ReportBytes Sample.good_key Sample.report_params Sample.address
          Sample.vats Sample.payments Sample.totals
        = Ok (list_byte_of_string
                (xml_Header +:+ "<EFDMS>" +:+ payload +:+ "<EFDMSSIGNATURE>"
                 +:+ Base64.EncodeToString sg +:+ "</EFDMSSIGNATURE></EFDMS>"))
        /\ Run.SignPayload Sample.good_key (list_byte_of_string payload)
           = Ok sg).
Proof.
  pose proof (signature_covers_embedded_payload Sample.map_range
                Sample.PrivateKey Sample.PublicKey Sample.PublicKey_of
                Sample.sha1_Sum Sample.rsa_SignPKCS1v15
                Sample.rsa_VerifyPKCS1v15 Base64.EncodeToString
                Base64.DecodeString Sample.xml_Marshal_RCT
                Sample.xml_Marshal_ZREPORT Sample.regexp_ReplaceAllString
                Sample.good_key Sample.params Sample.customer Sample.items
                Sample.payments Sample.report_params Sample.address
                Sample.vats Sample.payments Sample.totals) as [H1 H2].
  split.
  - edestruct H1 as (payload & sg & Hout & Hs & _);
      [vm_compute; reflexivity |].
    exists payload, sg. split; [| exact Hs].
    rewrite <- Hout. vm_compute. reflexivity.
  - edestruct H2 as (payload & sg & Hout & Hs & _);
      [vm_compute; reflexivity |].
    exists payload, sg. split; [| exact Hs].
    rewrite <- Hout. vm_compute. reflexivity.
Defined.

Lemma builders_rounding_witness :
  models.RCT.TOTALS
    (generateReceipt Sample.map_range Sample.params Sample.customer
       Sample.items Sample.payments)
  = models.TOTALS.mk (F64.cents 423729) (F64.of_Z 5000) (F64.of_Z 5000)
  /\ models.ZREPORT.TOTALS
       (generateZReport Sample.report_params Sample.address Sample.vats
          Sample.payments Sample.totals)
     = models.REPORTTOTALS.mk (F64.of_Z 5000) (F64.of_Z 5000) PrimFloat.zero
         (F64.of_Z 5000) PrimFloat.zero 0 PrimFloat.zero 1 0.
Proof.
  pose proof (builders_rounding Sample.map_range Sample.PrivateKey
                Sample.PublicKey Sample.PublicKey_of Sample.sha1_Sum
                Sample.rsa_SignPKCS1v15 Sample.rsa_VerifyPKCS1v15
                Base64.EncodeToString Sample.xml_Marshal_RCT
                Sample.params Sample.customer Sample.items Sample.payments
                Sample.report_params Sample.address Sample.vats
                Sample.payments Sample.totals) as H.
  cbv zeta in H. destruct H as (H1 & _ & _ & _ & H5 & _).
  split.
  - rewrite H1. vm_compute. reflexivity.
  - rewrite H5. reflexivity.
Defined.

Lemma submission_error_classification_witness :
  (exists e,
     Run.submitReceipt Sample.client_canceled ctx_canceled
       "https://vfd.tra.go.tz/api/efdmsRctInfo" Sample.headers Sample.good_key
       Sample.receipt = (None, Some e)
     /\ IsNetworkError e = true
     /\ Unwrap e = Some context_Canceled)
  /\ (exists e,
        Run.submitReceipt Sample.client_500 ctx_active
          "https://vfd.tra.go.tz/api/efdmsRctInfo" Sample.headers
          Sample.good_key Sample.receipt = (None, Some e)
        /\ is_application_rejection e "Invalid Signature"
        /\ IsNetworkError e = false)
  /\ (exists e,
        Run.submitReport Sample.client_canceled ctx_deadline_exceeded
          "https://vfd.tra.go.tz/api/efdmszreport" Sample.headers
          Sample.good_key Sample.report = (None, Some e)
        /\ IsNetworkError e = true
        /\ Unwrap e = Some context_DeadlineExceeded)
  /\ (exists e,
        Run.submitReport Sample.client_500 ctx_active
          "https://vfd.tra.go.tz/api/efdmszreport" Sample.headers
          Sample.good_key Sample.report = (None, Some e)
        /\ is_application_rejection e "Invalid Signature"
        /\ IsNetworkError e = false)
  /\ (exists e,
        Run.submitReceipt Sample.client_broken_body ctx_canceled
          "https://vfd.tra.go.tz/api/efdmsRctInfo" Sample.headers
          Sample.good_key Sample.receipt = (None, Some e)
        /\ Unwrap e = Some context_Canceled
        /\ IsNetworkError e = false)
  /\ (exists e,
        Run.submitReport Sample.client_broken_body ctx_canceled
          "https://vfd.tra.go.tz/api/efdmszreport" Sample.headers
          Sample.good_key Sample.report = (None, Some e)
        /\ Unwrap e = Some context_Canceled
        /\ IsNetworkError e = false).
Proof.
  pose proof (fun client ctx url =>
    submission_error_classification Sample.map_range Sample.PrivateKey
      Sample.PublicKey Sample.PublicKey_of Sample.sha1_Sum
      Sample.rsa_SignPKCS1v15 Sample.rsa_VerifyPKCS1v15 Base64.EncodeToString
      Base64.DecodeString Sample.xml_Marshal_RCT Sample.xml_Marshal_ZREPORT
      Sample.regexp_ReplaceAllString Sample.http_NewRequest_err client
      Sample.xml_Decode_Error Sample.xml_Decode_RCTACKEFDMS
      Sample.xml_Decode_ReportAckEFDMS ctx url Sample.headers Sample.good_key
      Sample.receipt Sample.report eq_refl) as H.
  cbv beta zeta in H.
  repeat apply conj.
  - edestruct (proj1 (H Sample.client_canceled ctx_canceled
                        "https://vfd.tra.go.tz/api/efdmsRctInfo"))
      as (e & cause & Hres & _ & Hc & _ & Hn & Hu & _);
      [vm_compute; reflexivity | reflexivity | discriminate |].
    injection Hc as <-. exists e. repeat split; assumption.
  - edestruct (proj1 (proj2 (H Sample.client_500 ctx_active
                               "https://vfd.tra.go.tz/api/efdmsRctInfo")))
      as (e & Hres & Hrej & Hn);
      [vm_compute; reflexivity | reflexivity | vm_compute; reflexivity |].
    exists e. repeat split; assumption.
  - edestruct (proj1 (proj2 (proj2 (H Sample.client_canceled
                                      ctx_deadline_exceeded
                                      "https://vfd.tra.go.tz/api/efdmszreport"))))
      as (e & cause & Hres & _ & Hc & _ & Hn & Hu & _);
      [vm_compute; reflexivity | reflexivity | discriminate |].
    injection Hc as <-. exists e. repeat split; assumption.
  - edestruct (proj1 (proj2 (proj2 (proj2
                 (H Sample.client_500 ctx_active
                    "https://vfd.tra.go.tz/api/efdmszreport")))))
      as (e & Hres & Hrej & Hn);
      [vm_compute; reflexivity | reflexivity | vm_compute; reflexivity |].
    exists e. repeat split; assumption.
  - edestruct (proj1 (proj2 (proj2 (proj2 (proj2
                 (H Sample.client_broken_body ctx_canceled
                    "https://vfd.tra.go.tz/api/efdmsRctInfo"))))))
      as (e & Hres & -> & Hu & Hn & _);
      [vm_compute; reflexivity | reflexivity |].
    eexists. split; [exact Hres |]. split; [exact Hu | exact Hn].
  - edestruct (proj2 (proj2 (proj2 (proj2 (proj2
                 (H Sample.client_broken_body ctx_canceled
                    "https://vfd.tra.go.tz/api/efdmszreport"))))))
      as (e & Hres & -> & Hu & Hn & _);
      [vm_compute; reflexivity | reflexivity |].
    eexists. split; [exact Hres |]. split; [exact Hu | exact Hn].
Defined.

(** The receipt builder rounds the three totals only: the amount of a rendered
    item keeps every digit of [Quantity * UnitPrice]. *)
Lemma generateReceipt_item_amount_example :
  let price := (F64.of_Z 1234 / F64.of_Z 1000)%float in
  let rct :=
    generateReceipt Sample.map_range Sample.params Sample.customer
      [Item.mk "1" "x" TaxableItemCode (F64.of_Z 1) price PrimFloat.zero]
      Sample.payments in
  map models.ITEM.AMT (models.RCT.ITEMS rct) = [price]
  /\ F64.round2 price = F64.cents 123
  /\ models.TOTALS.TOTALTAXINCL (models.RCT.TOTALS rct) = F64.cents 123.
Proof. repeat split; vm_compute; reflexivity. Qed.

(** C8 fails on the code when the transport fails after [client.Do] has
    returned: the headers of the reply have arrived, the context is canceled,
    and reading the body stops with [context.Canceled]. [submitReceipt] and
    [submitReport] return that error wrapped by [fmt.Errorf], and
    [IsNetworkError] answers false for it. *)
Lemma body_read_failure_is_no_network_error :
  Run.submitReceipt Sample.client_broken_body ctx_canceled
    "https://vfd.tra.go.tz/api/efdmsRctInfo" Sample.headers Sample.good_key
    Sample.receipt
  = (None, Some (fmt_Errorf_w "receipt upload failed : " context_Canceled))
  /\ IsNetworkError (fmt_Errorf_w "receipt upload failed : " context_Canceled)
     = false
  /\ Run.submitReport Sample.client_broken_body ctx_canceled
       "https://vfd.tra.go.tz/api/efdmszreport" Sample.headers Sample.good_key
       Sample.report
     = (None, Some (fmt_Errorf_w "report submit failed : " context_Canceled))
  /\ IsNetworkError (fmt_Errorf_w "report submit failed : " context_Canceled)
     = false.
Proof. repeat split; vm_compute; reflexivity. Qed.

(** * Further properties of the package

    The error helpers and the tax-code table in full, the sums of the
    aggregator and of the item loop, the environments and URLs, the token
    and registration exchanges, the submission of prepared files and the
    client options. *)

(** ** Errors: [checkNetworkError], [NetworkError] and [ParseErrorCode] *)

(** The first test of [checkNetworkError]: the context is done, or the error
    is one of the two context errors itself. *)
Definition context_branch (ctx : ctx_state) (err : error) : bool :=
  (bool_decide (ctx_Err ctx <> None) || error_eqb_Canceled err
   || error_eqb_DeadlineExceeded err)%bool.

(** The method [Error] of a [NetworkError] [e] returns
    [fmt.Sprintf("%s: %s", e.Message, e.Err.Error())]: the method [Error] is
    called on the field [Err], which panics when the field is [nil].
    [Error_of] is the text of the other errors. *)
Definition NetworkError_Error (Error_of : error -> string)
  (e_Err : option error) (e_Message : string) : outcome string :=
  match e_Err with
  | None =>
      Panics "runtime error: invalid memory address or nil pointer dereference"
  | Some err => Returns (e_Message +:+ ": " +:+ Error_of err)
  end.

Definition ParseErrorCode (code : Z) : string :=
  match code with
  | 0%Z => "SUCCESS"
  | 1%Z => "FAIL"
  | 3%Z => "Invalid TIN"
  | 4%Z => "VFD Registration Approval required"
  | 5%Z => "Unhandled Exception"
  | 6%Z => "Invalid Serial or Serial not Registered to Web API/TIN"
  | 7%Z => "Invalid client header"
  | 8%Z => "Wrong Certificate used to Register Web API"
  | _ => "Unknown error"
  end.

Lemma checkNetworkError_Some (ctx : ctx_state) (prefix : string) (err : error) :
  checkNetworkError ctx prefix (Some err) <> None.
Proof. unfold checkNetworkError. by repeat case_match. Qed.

(** X1: [checkNetworkError] maps [nil] to [nil] and every other error to an
    error. The result is recognized by [IsNetworkError] exactly when the
    context is done, or the error is [context.Canceled] or
    [context.DeadlineExceeded], or it is a [net.Error], or it already wraps
    a [NetworkError]. The cause kept by the result ([errors.Unwrap]) is the
    given error, except on the context branch, where the given error is
    dropped and [ctx.Err()] is kept in its place. *)
Theorem checkNetworkError_classification (ctx : ctx_state) (prefix : string) :
  checkNetworkError ctx prefix None = None
  /\ forall err : error,
       exists e : error,
         checkNetworkError ctx prefix (Some err) = Some e
         /\ IsNetworkError e
            = (context_branch ctx err || is_net_Error err
               || IsNetworkError err)%bool
         /\ Unwrap e
            = (if context_branch ctx err then ctx_Err ctx else Some err).
Proof.
  split; [reflexivity |]. intros err.
  unfold checkNetworkError. fold (context_branch ctx err).
  destruct (context_branch ctx err) eqn:Hc.
  - eexists. split; [reflexivity |]. split; reflexivity.
  - destruct (is_net_Error err) eqn:Hn.
    + eexists. split; [reflexivity |]. split; reflexivity.
    + eexists. split; [reflexivity |]. split; reflexivity.
Qed.

(** X2: when [checkNetworkError] returns a [NetworkError], calling [Error]
    on it panics exactly when the context is still active and the given
    error is [context.Canceled] or [context.DeadlineExceeded] itself: the
    field [Err] is then [ctx.Err()], which is [nil]. In every other case the
    text is the message followed by the text of the cause. *)
Theorem checkNetworkError_nil_cause (Error_of : error -> string)
  (ctx : ctx_state) (prefix : string) (err : error) (cause : option error)
  (Message : string) :
  checkNetworkError ctx prefix (Some err) = Some (NetworkError cause Message) ->
  (exists msg, NetworkError_Error Error_of cause Message = Panics msg)
  <-> ctx = ctx_active
      /\ (err = context_Canceled \/ err = context_DeadlineExceeded).
Proof.
  unfold checkNetworkError.
  destruct ctx, err; simpl; intros [= <- <-]; simpl;
    (split; [intros [m Hm]; try discriminate Hm; auto
            | intros [H1 [H2 | H2]]; try discriminate; eauto]).
Qed.

Lemma checkNetworkError_nil_cause_witness :
  checkNetworkError ctx_active "receipt upload" (Some context_Canceled)
  = Some (NetworkError None
            "receipt upload: context error (canceled or deadline exceeded)")
  /\ ((exists msg,
         NetworkError_Error (fun _ => "context canceled") None
           "receipt upload: context error (canceled or deadline exceeded)"
         = Panics msg)
      <-> ctx_active = ctx_active
          /\ (context_Canceled = context_Canceled
              \/ context_Canceled = context_DeadlineExceeded)).
Proof.
  split; [reflexivity |].
  apply (checkNetworkError_nil_cause (fun _ => "context canceled") ctx_active
           "receipt upload" context_Canceled).
  reflexivity.
Defined.

(** X3: [ParseErrorCode] answers "SUCCESS" exactly for the code that
    [IsSuccess] accepts, and "Unknown error" exactly for the codes outside
    0, 1, 3, 4, 5, 6, 7, 8: the negative ones, 2, and those above 8. *)
Theorem ParseErrorCode_success (code : Z) :
  (ParseErrorCode code = "SUCCESS" <-> IsSuccess code = true)
  /\ (ParseErrorCode code = "Unknown error"
      <-> (code < 0 \/ code = 2 \/ 8 < code)%Z).
Proof.
  unfold ParseErrorCode, IsSuccess, SuccessCode.
  destruct code as [| p | p];
    [| do 4 (try destruct p as [p | p |]) |];
    split; (split; intros H; first [discriminate H | reflexivity | lia]).
Qed.

(** ** [ParsePayment] and vat.go: what the parsers hand to the aggregator *)

(** X4: whatever [ParsePayment] returns is one of the five canonical payment
    types; parsing the returned type converted to a string,
    [ParsePayment(string(p))], gives it back, while the returned value passed
    as it is, [ParsePayment(p)], has the dynamic type [PaymentType], takes
    the default clause and gives CASH, which is [p] only when [p] is CASH;
    and a payment of the returned type is never dropped by [sumPayments]. *)
Theorem ParsePayment_returns_canonical (value : any) (p : PaymentType)
  (amount : float) :
  ParsePayment value = Returns p ->
  p ∈ canonical_payment_types
  /\ ParsePayment (any_string p) = Returns p
  /\ ParsePayment (any_PaymentType p) = Returns CashPaymentType
  /\ (ParsePayment (any_PaymentType p) = Returns p <-> p = CashPaymentType)
  /\ is_canonical_payment (Payment.mk p amount) = true.
Proof.
  intros H.
  assert (Hp : p ∈ canonical_payment_types).
  { unfold ParsePayment, assert_int in H.
    repeat case_match; simplify_eq;
      unfold canonical_payment_types, CashPaymentType, ChequePaymentType,
        CreditCardPaymentType, ElectronicPaymentType, InvoicePaymentType;
      set_solver. }
  split; [exact Hp |]. split; [| split; [reflexivity | split]].
  - unfold canonical_payment_types in Hp. set_unfold in Hp.
    destruct_or!; subst p; try reflexivity; done.
  - simpl. split; [intros Heq; injection Heq as Heq; by symmetry | by intros ->].
  - unfold is_canonical_payment. simpl. by apply bool_decide_eq_true.
Qed.

Lemma ParsePayment_returns_canonical_witness :
  ParsePayment (any_string "emoney") = Returns "EMONEY"
  /\ "EMONEY" ∈ canonical_payment_types
  /\ ParsePayment (any_string "EMONEY") = Returns "EMONEY"
  /\ ParsePayment (any_PaymentType "EMONEY") = Returns CashPaymentType
  /\ (ParsePayment (any_PaymentType "EMONEY") = Returns "EMONEY"
      <-> "EMONEY" = CashPaymentType)
  /\ is_canonical_payment (Payment.mk "EMONEY" (F64.of_Z 5)) = true.
Proof.
  split; [reflexivity |].
  apply (ParsePayment_returns_canonical (any_string "emoney") "EMONEY"
           (F64.of_Z 5)).
  reflexivity.
Defined.

(** The five categories. *)
Definition categories : list ValueAddedTax.t :=
  [standardVAT; specialVAT; zeroVAT; specialReliefVAT; exemptedVAT].

Lemma ParseTaxCode_cases (code : Z) :
  ((1 <= code <= 5)%Z /\ ValueAddedTax.Code (ParseTaxCode code) = code)
  \/ ((code < 1 \/ 5 < code)%Z /\ ParseTaxCode code = standardVAT).
Proof.
  unfold ParseTaxCode.
  destruct code as [| p | p]; [right; split; [lia | reflexivity] | |
                               right; split; [lia | reflexivity]].
  do 3 (destruct p as [p | p |];
        try (left; split; [lia | reflexivity]);
        try (right; split; [lia | reflexivity])).
Qed.

Lemma ParseTaxCode_in_categories (code : Z) :
  ParseTaxCode code ∈ categories.
Proof.
  unfold ParseTaxCode, categories.
  destruct code as [| p | p]; [set_solver | | set_solver].
  do 3 (destruct p as [p | p |]; try set_solver).
Qed.

Lemma ParseTaxCode_Code (code : Z) :
  ParseTaxCode (ValueAddedTax.Code (ParseTaxCode code)) = ParseTaxCode code.
Proof.
  destruct (ParseTaxCode_cases code) as [[_ Hc] | [_ Hs]];
    [by rewrite Hc | by rewrite Hs].
Qed.

(** X5: [ParseTaxCode] gives a category carrying the given code exactly for
    the codes 1 to 5. Every other code is taken for the standard category:
    its net amount and tax amount are those of code 1 (rate 18) and its
    report key is "A-18.00". Parsing the code of the category found gives
    the same category. *)
Theorem ParseTaxCode_roundtrip (code : Z) :
  (ValueAddedTax.Code (ParseTaxCode code) = code <-> (1 <= code <= 5)%Z)
  /\ ParseTaxCode (ValueAddedTax.Code (ParseTaxCode code)) = ParseTaxCode code
  /\ ((code < 1 \/ 5 < code)%Z ->
      ParseTaxCode code = standardVAT
      /\ ReportTaxRateID code = "A-18.00"
      /\ forall a : float,
           NetAmount code a = NetAmount StandardVATCODE a
           /\ ValueAddedTaxAmount code a
              = ValueAddedTaxAmount StandardVATCODE a).
Proof.
  split; [| split; [apply ParseTaxCode_Code |]].
  - destruct (ParseTaxCode_cases code) as [[Hr Hc] | [Hr Hs]]; [tauto |].
    rewrite Hs. simpl. unfold StandardVATCODE. lia.
  - intros Hout.
    destruct (ParseTaxCode_cases code) as [[Hr _] | [_ Hs]]; [lia |].
    split; [exact Hs |].
    unfold NetAmount, ValueAddedTaxAmount, ReportTaxRateID.
    rewrite Hs. repeat split.
Qed.

(** X6: the key that [ReportTaxRateID] forms for any tax code is one of the
    five keys of [sumVatTotals], so a report entry built from
    [ValueAddedTaxID] and [ValueAddedTaxRate] is never dropped; and two tax
    codes share a report key exactly when [ProcessItems] files them under
    the same category id. *)
Theorem ReportTaxRateID_canonical (c1 c2 : Z) (taxAmount netAmount : float) :
  ReportTaxRateID c1 ∈ canonical_vat_keys
  /\ vat_key
       (VATTOTAL.mk (ValueAddedTaxID c1) (ValueAddedTaxRate c1) taxAmount
          netAmount) = ReportTaxRateID c1
  /\ is_canonical_vat
       (VATTOTAL.mk (ValueAddedTaxID c1) (ValueAddedTaxRate c1) taxAmount
          netAmount) = true
  /\ (ReportTaxRateID c1 = ReportTaxRateID c2
      <-> ValueAddedTaxID c1 = ValueAddedTaxID c2).
Proof.
  assert (Hin : forall c, ReportTaxRateID c ∈ canonical_vat_keys).
  { intros c. unfold ReportTaxRateID.
    pose proof (ParseTaxCode_in_categories c) as H.
    unfold categories in H. set_unfold in H.
    destruct_or!; rewrite H; vm_compute; set_solver. }
  split; [apply Hin |]. split; [reflexivity |]. split.
  - unfold is_canonical_vat. apply bool_decide_eq_true. apply Hin.
  - unfold ReportTaxRateID, ValueAddedTaxID.
    pose proof (ParseTaxCode_in_categories c1) as H1.
    pose proof (ParseTaxCode_in_categories c2) as H2.
    unfold categories in H1, H2. set_unfold in H1. set_unfold in H2.
    destruct_or!; rewrite H1, H2; vm_compute; split; congruence.
Qed.

(** ** vat.go: the VAT split in whole cents *)

(** The net amount in cents of a gross amount of [k] cents at the standard
    rate, in integer arithmetic: [100 k / 118] rounded to the nearest
    integer (a tie cannot occur, [100 k] being even and [59 (2 m + 1)]
    odd). *)
Definition net_cents (k : Z) : Z := ((200 * k + 118) / 236)%Z.

(** The same on machine integers, and the comparison with Go's [==] that is
    evaluated for every amount of the range: at rate 18 the net amount is
    [net_cents k] cents and the tax the remaining cents; at rate 0 the net
    amount is the amount and the tax is zero. *)
Definition vat_split_ok (k : Z) : bool :=
  let i := Uint63.of_Z k in
  let n := ((200 * i + 118) / 236)%uint63 in
  let a := (PrimFloat.of_uint63 i / F64.hundred)%float in
  let net := net_at (F64.of_Z 18) a in
  let net0 := net_at PrimFloat.zero a in
  PrimFloat.eqb net (PrimFloat.of_uint63 n / F64.hundred)
  && PrimFloat.eqb (F64.round2 (a - net))
       (PrimFloat.of_uint63 (i - n) / F64.hundred)
  && PrimFloat.eqb net0 a
  && PrimFloat.eqb (F64.round2 (a - net0)) PrimFloat.zero.

Lemma vat_split_checked : all_range 1000000 1 vat_split_ok = true.
Proof. vm_cast_no_check (eq_refl true). Qed.

Lemma net_cents_bounds (k : Z) :
  (1 <= k)%Z -> (0 <= net_cents k <= k)%Z.
Proof.
  intros Hk. unfold net_cents. split; [apply Z.div_pos; lia |].
  enough ((200 * k + 118) / 236 < k + 1)%Z by lia.
  apply Z.div_lt_upper_bound; lia.
Qed.

Lemma net_cents_uint63 (k : Z) :
  (1 <= k <= 1000000)%Z ->
  ((200 * Uint63.of_Z k + 118) / 236)%uint63 = Uint63.of_Z (net_cents k)
  /\ (Uint63.of_Z k - (200 * Uint63.of_Z k + 118) / 236)%uint63
     = Uint63.of_Z (k - net_cents k).
Proof.
  intros Hk.
  assert (HwB : wB = 9223372036854775808%Z) by reflexivity.
  pose proof (net_cents_bounds k ltac:(lia)) as Hq.
  assert (Hi : Uint63.to_Z (Uint63.of_Z k) = k).
  { rewrite Uint63.of_Z_spec. apply Z.mod_small. lia. }
  assert (Hn : Uint63.to_Z ((200 * Uint63.of_Z k + 118) / 236)%uint63
               = net_cents k).
  { rewrite Uint63.div_spec, Uint63.add_spec, Uint63.mul_spec, Hi.
    change (Uint63.to_Z 200%uint63) with 200%Z.
    change (Uint63.to_Z 118%uint63) with 118%Z.
    change (Uint63.to_Z 236%uint63) with 236%Z.
    rewrite (Z.mod_small (200 * k)) by lia.
    rewrite Z.mod_small by lia. reflexivity. }
  split.
  - apply Uint63.to_Z_inj. rewrite Hn, Uint63.of_Z_spec.
    symmetry. apply Z.mod_small. lia.
  - apply Uint63.to_Z_inj.
    rewrite Uint63.sub_spec, Hn, Hi, Uint63.of_Z_spec.
    reflexivity.
Qed.

Lemma F64_of_Z_nonneg (z : Z) :
  (0 <= z)%Z -> F64.of_Z z = PrimFloat.of_uint63 (Uint63.of_Z z).
Proof. destruct z; [reflexivity | reflexivity | lia]. Qed.

Lemma ValueAddedTaxRate_cases (taxCode : Z) :
  ValueAddedTaxRate taxCode
  = if bool_decide (2 <= taxCode <= 5)%Z then PrimFloat.zero else F64.of_Z 18.
Proof.
  unfold ValueAddedTaxRate, ParseTaxCode.
  destruct taxCode as [| p | p]; [reflexivity | | reflexivity].
  do 3 (destruct p as [p | p |]; try reflexivity).
Qed.

(** X7: for every amount of [k] cents, [1 <= k <= 1000000] (0.01 to
    10000.00), the float64 computation gives the integer split. For the
    codes 2 to 5 (rate 0) the net amount [==] the amount and the tax [==] 0.
    For every other code (rate 18) the net amount [==] [n / 100] and the tax
    [==] [(k - n) / 100], where [n] is [100 k / 118] rounded to the nearest
    integer. *)
Theorem vat_split_in_cents (taxCode k : Z) :
  (1 <= k <= 1000000)%Z ->
  let a := F64.cents k in
  if bool_decide (2 <= taxCode <= 5)%Z
  then PrimFloat.eqb (NetAmount taxCode a) a = true
       /\ PrimFloat.eqb (ValueAddedTaxAmount taxCode a) PrimFloat.zero = true
  else PrimFloat.eqb (NetAmount taxCode a) (F64.cents (net_cents k)) = true
       /\ PrimFloat.eqb (ValueAddedTaxAmount taxCode a)
            (F64.cents (k - net_cents k)) = true.
Proof.
  intros Hk a.
  pose proof (all_range_spec _ _ 1 vat_split_checked k ltac:(lia)) as H.
  unfold vat_split_ok in H. cbv zeta in H.
  destruct (net_cents_uint63 k Hk) as [Hn Hd].
  rewrite Hd, Hn in H.
  pose proof (net_cents_bounds k ltac:(lia)) as Hq.
  rewrite <- !F64_of_Z_nonneg in H by lia.
  fold (F64.cents k) in H. fold (F64.cents (net_cents k)) in H.
  fold (F64.cents (k - net_cents k)) in H. fold a in H.
  apply andb_true_iff in H as [H H4]. apply andb_true_iff in H as [H H3].
  apply andb_true_iff in H as [H1 H2].
  rewrite NetAmount_net_at, ValueAddedTaxAmount_tax_at,
    ValueAddedTaxRate_cases.
  destruct (bool_decide (2 <= taxCode <= 5)%Z); split; assumption.
Qed.

Lemma vat_split_in_cents_witness :
  (1 <= 11800 <= 1000000)%Z
  /\ PrimFloat.eqb (NetAmount TaxableItemCode (F64.cents 11800))
       (F64.cents 10000) = true
  /\ PrimFloat.eqb (ValueAddedTaxAmount TaxableItemCode (F64.cents 11800))
       (F64.cents 1800) = true.
Proof.
  split; [lia |].
  apply (vat_split_in_cents TaxableItemCode 11800). lia.
Defined.

(** ** report.go: what the aggregator adds up *)

(** The float64 sum of a list, added from the left to a start value, as a
    Go loop [acc += x] computes it. *)
Definition sum_from (start : float) (xs : list float) : float :=
  fold_left PrimFloat.add xs start.

(** The entries of [vats] filed under the key [k], and the payments of type
    [k], in input order. *)
Definition vats_under (k : string) (vats : list VATTOTAL.t)
  : list VATTOTAL.t :=
  List.filter (fun vat => bool_decide (vat_key vat = k)) vats.

Definition payments_of (k : string) (payments : list Payment.t)
  : list Payment.t :=
  List.filter (fun p => bool_decide (Payment.Type_ p = k)) payments.

Lemma sumVatTotals_fold_lookup (vats : list VATTOTAL.t) (k : string) :
  forall m : gmap string (float * float),
    vat_lookup (fold_left sumVatTotals_step vats m) k
    = (sum_from (vat_lookup m k).1
         (map VATTOTAL.NetAmount (vats_under k vats)),
       sum_from (vat_lookup m k).2
         (map VATTOTAL.TaxAmount (vats_under k vats))).
Proof.
  induction vats as [| vat vats IH]; intros m; simpl.
  - by destruct (vat_lookup m k).
  - rewrite IH. case_bool_decide as Hk; simpl.
    + subst k. by rewrite sumVatTotals_step_lookup_eq.
    + by rewrite sumVatTotals_step_lookup_ne.
Qed.

Lemma sumPayments_fold_lookup (payments : list Payment.t) (k : string) :
  forall m : gmap string float,
    pay_lookup (fold_left sumPayments_step payments m) k
    = sum_from (pay_lookup m k) (map Payment.Amount (payments_of k payments)).
Proof.
  induction payments as [| p payments IH]; intros m; simpl; [done |].
  rewrite IH. case_bool_decide as Hk; simpl.
  - subst k. by rewrite sumPayments_step_lookup_eq.
  - by rewrite sumPayments_step_lookup_ne.
Qed.

(** X8: the amounts of the Z report are sums in input order. For each of the
    five keys, [sumVatTotals] prints the float64 sum, started at 0, of the
    net amounts of the entries filed under that key, and likewise of their
    tax amounts; for each of the five payment types, [sumPayments] prints
    the float64 sum of the amounts of the payments of that type. The sums
    are formatted with two decimals and are not rounded before. *)
Theorem report_aggregation_sums (vats : list VATTOTAL.t)
  (payments : list Payment.t) :
  sumVatTotals vats
  = map (fun k =>
           models.VATTOTAL.mk k
             (F64.Sprintf_2f
                (sum_from PrimFloat.zero
                   (map VATTOTAL.NetAmount (vats_under k vats))))
             (F64.Sprintf_2f
                (sum_from PrimFloat.zero
                   (map VATTOTAL.TaxAmount (vats_under k vats)))))
      canonical_vat_keys
  /\ sumPayments payments
     = map (fun k =>
              models.PAYMENT.mk k
                (F64.Sprintf_2f
                   (sum_from PrimFloat.zero
                      (map Payment.Amount (payments_of k payments)))))
         canonical_payment_types.
Proof.
  split.
  - unfold sumVatTotals, vat_entry, canonical_vat_keys. simpl.
    rewrite !sumVatTotals_fold_lookup. reflexivity.
  - unfold sumPayments, pay_entry, canonical_payment_types. simpl.
    rewrite !sumPayments_fold_lookup. reflexivity.
Qed.

(** ** receipt.go: the VAT totals of [ProcessItems] *)

(** The items that resolve to the category [id], in input order. *)
Definition items_in (id : string) (items : list Item.t) : list Item.t :=
  List.filter
    (fun item => bool_decide (ValueAddedTaxID (Item.TaxCode item) = id)) items.

(** [NETAMOUNT] and [TAXAMOUNT] of the loop body. *)
Definition item_net (item : Item.t) : float :=
  NetAmount (Item.TaxCode item) (taxable_amount item).
Definition item_tax (item : Item.t) : float :=
  ValueAddedTaxAmount (Item.TaxCode item) (taxable_amount item).

Lemma ProcessItems_step_lookup (st : ProcessState.t) (item : Item.t)
  (id : string) :
  ProcessState.vatTotals (ProcessItems_step st item) !! id
  = if bool_decide (ValueAddedTaxID (Item.TaxCode item) = id)
    then match ProcessState.vatTotals st !! id with
         | None => Some (vatTotal.mk id (item_net item) (item_tax item))
         | Some v =>
             Some (vatTotal.mk (vatTotal.VATRATE v)
                     (vatTotal.NETTAMOUNT v + item_net item)%float
                     (vatTotal.TAXAMOUNT v + item_tax item)%float)
         end
    else ProcessState.vatTotals st !! id.
Proof.
  unfold ProcessItems_step, ValueAddedTaxID. cbn [ProcessState.vatTotals].
  case_bool_decide as Hid.
  - subst id.
    destruct (ProcessState.vatTotals st !! _) as [v |] eqn:Hv;
      by rewrite lookup_insert_eq.
  - destruct (ProcessState.vatTotals st !! ValueAddedTax.ID _) as [v |];
      by rewrite lookup_insert_ne.
Qed.

Lemma ProcessItems_fold_lookup (items : list Item.t) (id : string) :
  forall st : ProcessState.t,
    ProcessState.vatTotals (fold_left ProcessItems_step items st) !! id
    = match ProcessState.vatTotals st !! id with
      | Some v =>
          Some (vatTotal.mk (vatTotal.VATRATE v)
                  (sum_from (vatTotal.NETTAMOUNT v)
                     (map item_net (items_in id items)))
                  (sum_from (vatTotal.TAXAMOUNT v)
                     (map item_tax (items_in id items))))
      | None =>
          match items_in id items with
          | [] => None
          | first :: rest =>
              Some (vatTotal.mk id
                      (sum_from (item_net first) (map item_net rest))
                      (sum_from (item_tax first) (map item_tax rest)))
          end
      end.
Proof.
  induction items as [| item items IH]; intros st; simpl.
  - by destruct (ProcessState.vatTotals st !! id) as [[]|].
  - rewrite IH, ProcessItems_step_lookup.
    case_bool_decide as Hid; simpl.
    + by destruct (ProcessState.vatTotals st !! id) as [v |].
    + reflexivity.
Qed.

(** X9: every VAT total returned by [ProcessItems] belongs to a category
    that some item resolves to, and its two amounts are the float64 sums, in
    input order, of the net amounts and of the tax amounts of the items of
    that category: the first item of the category starts the sum and the
    later ones are added to it. The sums are formatted with two decimals.
    This holds for every order in which Go ranges over the map. *)
Theorem ProcessItems_category_totals
  (map_range : gmap string vatTotal.t -> list vatTotal.t)
  (items : list Item.t) (e : models.VATTOTAL.t) :
  (forall m, map_range m ≡ₚ (map_to_list m).*2) ->
  e ∈ ItemProcessResponse.VATTOTALS (ProcessItems map_range items) ->
  exists (first : Item.t) (rest : list Item.t),
    items_in (models.VATTOTAL.VATRATE e) items = first :: rest
    /\ models.VATTOTAL.NETTAMOUNT e
       = F64.Sprintf_2f (sum_from (item_net first) (map item_net rest))
    /\ models.VATTOTAL.TAXAMOUNT e
       = F64.Sprintf_2f (sum_from (item_tax first) (map item_tax rest)).
Proof.
  intros Hperm He. unfold ProcessItems in He. cbn in He.
  apply list_elem_of_fmap in He as (v & -> & Hv).
  rewrite (Hperm _) in Hv.
  apply list_elem_of_fmap in Hv as ([k v'] & -> & Hkv).
  apply elem_of_map_to_list in Hkv. cbn [snd].
  rewrite ProcessItems_fold_lookup in Hkv.
  unfold ProcessItems_init in Hkv. cbn [ProcessState.vatTotals] in Hkv.
  rewrite lookup_empty in Hkv.
  destruct (items_in k items) as [| first rest] eqn:Hin; [discriminate |].
  injection Hkv as <-. cbn. exists first, rest. by rewrite Hin.
Qed.

Lemma ProcessItems_category_totals_witness :
  let items :=
    [ Item.mk "1" "bread" TaxableItemCode (F64.of_Z 2) (F64.of_Z 590)
        PrimFloat.zero;
      Item.mk "2" "milk" NonTaxableItemCode (F64.of_Z 1) (F64.of_Z 300)
        PrimFloat.zero;
      Item.mk "3" "soap" TaxableItemCode (F64.of_Z 1) (F64.of_Z 118)
        PrimFloat.zero ] in
  let e := models.VATTOTAL.mk "A" "1100.00" "198.00" in
  (forall m, Sample.map_range m ≡ₚ (map_to_list m).*2)
  /\ e ∈ ItemProcessResponse.VATTOTALS (ProcessItems Sample.map_range items)
  /\ exists (first : Item.t) (rest : list Item.t),
       items_in (models.VATTOTAL.VATRATE e) items = first :: rest
       /\ models.VATTOTAL.NETTAMOUNT e
          = F64.Sprintf_2f (sum_from (item_net first) (map item_net rest))
       /\ models.VATTOTAL.TAXAMOUNT e
          = F64.Sprintf_2f (sum_from (item_tax first) (map item_tax rest)).
Proof.
  intros items e.
  assert (Hperm : forall m, Sample.map_range m ≡ₚ (map_to_list m).*2)
    by reflexivity.
  assert (He : e ∈ ItemProcessResponse.VATTOTALS
                     (ProcessItems Sample.map_range items)).
  { apply list_elem_of_In. vm_compute. tauto. }
  split; [exact Hperm |]. split; [exact He |].
  exact (ProcessItems_category_totals Sample.map_range items e Hperm He).
Defined.

(** The item with its tax code replaced by the code of the category it
    resolves to: unchanged for the codes 1 to 5, code 1 for every other. *)
Definition resolved (item : Item.t) : Item.t :=
  Item.mk (Item.ID item) (Item.Description item)
    (ValueAddedTax.Code (ParseTaxCode (Item.TaxCode item)))
    (Item.Quantity item) (Item.UnitPrice item) (Item.Discount item).

(** The loop variables apart from the rendered items. *)
Definition accumulators (st : ProcessState.t)
  : float * float * float * gmap string vatTotal.t :=
  (ProcessState.DISCOUNT st, ProcessState.TOTALTAXEXCLUSIVE st,
   ProcessState.TOTALTAXINCLUSIVE st, ProcessState.vatTotals st).

Lemma ProcessItems_step_resolved (st st' : ProcessState.t) (item : Item.t) :
  accumulators st = accumulators st' ->
  accumulators (ProcessItems_step st (resolved item))
  = accumulators (ProcessItems_step st' item).
Proof.
  unfold accumulators. intros [= H1 H2 H3 H4].
  unfold ProcessItems_step, NetAmount, ValueAddedTaxAmount, resolved.
  cbn [ProcessState.DISCOUNT ProcessState.TOTALTAXEXCLUSIVE
       ProcessState.TOTALTAXINCLUSIVE ProcessState.vatTotals
       Item.ID Item.Description Item.TaxCode Item.Quantity Item.UnitPrice
       Item.Discount].
  rewrite ParseTaxCode_Code, H1, H2, H3, H4. reflexivity.
Qed.

Lemma ProcessItems_fold_resolved (items : list Item.t) :
  forall st st' : ProcessState.t,
    accumulators st = accumulators st' ->
    accumulators (fold_left ProcessItems_step (map resolved items) st)
    = accumulators (fold_left ProcessItems_step items st').
Proof.
  induction items as [| item items IH]; intros st st' H; simpl; [done |].
  apply IH. by apply ProcessItems_step_resolved.
Qed.

(** X10: an item with an unrecognized tax code is billed as a standard-rated
    item but reported with the code it came with. The VAT totals, the
    monetary totals and the item amounts of [ProcessItems] are those of the
    same items with every code outside 1 to 5 replaced by 1, while the
    [TAXCODE] of each rendered item is the code as given. *)
Theorem ProcessItems_unrecognized_tax_code
  (map_range : gmap string vatTotal.t -> list vatTotal.t)
  (items : list Item.t) :
  let r := ProcessItems map_range items in
  let r' := ProcessItems map_range (map resolved items) in
  ItemProcessResponse.VATTOTALS r = ItemProcessResponse.VATTOTALS r'
  /\ ItemProcessResponse.TOTALS r = ItemProcessResponse.TOTALS r'
  /\ map models.ITEM.AMT (ItemProcessResponse.ITEMS r)
     = map models.ITEM.AMT (ItemProcessResponse.ITEMS r')
  /\ map models.ITEM.TAXCODE (ItemProcessResponse.ITEMS r)
     = map Item.TaxCode items
  /\ (forall item : Item.t,
        Item.TaxCode (resolved item)
        = if bool_decide (1 <= Item.TaxCode item <= 5)%Z
          then Item.TaxCode item else StandardVATCODE).
Proof.
  intros r r'. subst r r'. unfold ProcessItems.
  cbn [ItemProcessResponse.VATTOTALS ItemProcessResponse.TOTALS
       ItemProcessResponse.ITEMS].
  pose proof (ProcessItems_fold_resolved items ProcessItems_init
                ProcessItems_init eq_refl) as H.
  unfold accumulators in H. injection H as H1 H2 H3 H4.
  rewrite H1, H2, H3, H4, !ProcessItems_fold_ITEMS.
  unfold ProcessItems_init. cbn [ProcessState.ITEMS app].
  rewrite !map_map. do 4 (split; [reflexivity |]).
  intros item. unfold resolved. cbn [Item.TaxCode].
  destruct (ParseTaxCode_cases (Item.TaxCode item)) as [[Hr Hc] | [Hr Hs]].
  - by rewrite bool_decide_eq_true_2.
  - rewrite bool_decide_eq_false_2 by lia. by rewrite Hs.
Qed.

(** ** receipt.go and report.go: the replacer that strips the wrapper tags *)

(** Some wrapper tag starts at some position of [s]. *)
Fixpoint has_wrapper_tag (s : string) : bool :=
  match s with
  | EmptyString => false
  | String _ rest =>
      bool_decide (is_Some (first_match wrapper_tags s)) || has_wrapper_tag rest
  end.

Lemma first_match_wrapper_tags (s : string) (old new : string) :
  first_match wrapper_tags s = Some (old, new) -> new = EmptyString.
Proof.
  unfold wrapper_tags. simpl.
  repeat (case_match; [by intros [= <- <-] |]). discriminate.
Qed.

Lemma string_app_empty_l (s : string) : EmptyString +:+ s = s.
Proof. reflexivity. Qed.

Lemma Replacer_go_length (s : string) :
  forall skip : nat,
    String.length (Replacer_go wrapper_tags skip s) <= String.length s.
Proof.
  induction s as [| c rest IH]; intros skip; [simpl; lia |].
  destruct skip as [| n].
  - cbn [Replacer_go].
    destruct (first_match wrapper_tags (String c rest)) as [[old new] |] eqn:Hm.
    + rewrite (first_match_wrapper_tags _ _ _ Hm), string_app_empty_l. simpl.
      specialize (IH (String.length old - 1)). lia.
    + simpl. specialize (IH 0). lia.
  - cbn [Replacer_go]. specialize (IH n). simpl. lia.
Qed.

Lemma Replacer_go_sublist (s : string) :
  forall skip : nat,
    sublist (list_ascii_of_string (Replacer_go wrapper_tags skip s))
      (list_ascii_of_string s).
Proof.
  induction s as [| c rest IH]; intros skip; [simpl; constructor |].
  destruct skip as [| n].
  - cbn [Replacer_go].
    destruct (first_match wrapper_tags (String c rest)) as [[old new] |] eqn:Hm.
    + rewrite (first_match_wrapper_tags _ _ _ Hm), string_app_empty_l. simpl.
      apply sublist_cons, IH.
    + simpl. apply sublist_skip, IH.
  - cbn [Replacer_go]. simpl. apply sublist_cons, IH.
Qed.

(** X11: the replacer that [ReceiptBytes] and [formatReportXmlPayload] apply
    to the serialized document only deletes characters: its result is a
    subsequence of the input. It returns the input unchanged exactly when
    none of the four tags [<PAYMENT>], [</PAYMENT>], [<VATTOTAL>] and
    [</VATTOTAL>] occurs in it, and a strictly shorter text otherwise. *)
Theorem Replacer_only_deletes_wrapper_tags (s : string) :
  sublist (list_ascii_of_string (Replacer_Replace wrapper_tags s))
    (list_ascii_of_string s)
  /\ (Replacer_Replace wrapper_tags s = s <-> has_wrapper_tag s = false)
  /\ (has_wrapper_tag s = true ->
      String.length (Replacer_Replace wrapper_tags s) < String.length s).
Proof.
  unfold Replacer_Replace.
  assert (Hlt : has_wrapper_tag s = true ->
                String.length (Replacer_go wrapper_tags 0 s) < String.length s).
  { induction s as [| c rest IH]; [discriminate |].
    cbn [has_wrapper_tag Replacer_go].
    destruct (first_match wrapper_tags (String c rest)) as [[old new] |] eqn:Hm.
    - intros _. rewrite (first_match_wrapper_tags _ _ _ Hm), string_app_empty_l. simpl.
      pose proof (Replacer_go_length rest (String.length old - 1)). lia.
    - rewrite bool_decide_eq_false_2 by (by intros [? ?]). simpl.
      intros H. specialize (IH H). lia. }
  split; [apply Replacer_go_sublist |]. split; [| exact Hlt].
  split.
  - intros Heq. destruct (has_wrapper_tag s) eqn:Hh; [| done].
    specialize (Hlt eq_refl). rewrite Heq in Hlt. lia.
  - clear Hlt. induction s as [| c rest IH]; [done |].
    cbn [has_wrapper_tag Replacer_go]. intros H.
    apply orb_false_iff in H as [H1 H2].
    destruct (first_match wrapper_tags (String c rest)) as [[old new] |] eqn:Hm.
    + apply bool_decide_eq_false in H1. exfalso. apply H1. eauto.
    + by rewrite IH.
Qed.

(** ** Package [env] and [RequestURL]: environments, actions and URLs *)

Module env.
Definition Env := string.
Definition DEV : Env := "development".
Definition TEST : Env := "test".
Definition STAGING : Env := "staging".
Definition PROD : Env := "production".

Definition Parse (s : string) : Env :=
  if (String.eqb s "development" || String.eqb s "dev")%bool then DEV
  else if (String.eqb s "test" || String.eqb s "testing")%bool then TEST
  else if String.eqb s "staging" then STAGING
  else if (String.eqb s "production" || String.eqb s "prod")%bool then PROD
  else DEV.
End env.

Definition RegisterProductionURL := "https://vfd.tra.go.tz/api/vfdRegReq".
Definition FetchTokenProductionURL := "https://vfd.tra.go.tz/vfdtoken".
Definition SubmitReceiptProductionURL :=
  "https://vfd.tra.go.tz/api/efdmsRctInfo".
Definition SubmitReportProductionURL :=
  "https://vfd.tra.go.tz/api/efdmszreport".
Definition VerifyReceiptProductionURL := "https://verify.tra.go.tz/".
Definition RegisterTestingURL :=
  "https://virtual.tra.go.tz/efdmsRctApi/api/vfdRegReq".
Definition FetchTokenTestingURL :=
  "https://virtual.tra.go.tz/efdmsRctApi/vfdtoken".
Definition SubmitReceiptTestingURL :=
  "https://virtual.tra.go.tz/efdmsRctApi/api/efdmsRctInfo".
Definition SubmitReportTestingURL :=
  "https://virtual.tra.go.tz/efdmsRctApi/api/efdmszreport".
Definition VerifyReceiptTestingURL :=
  "https://virtual.tra.go.tz/efdmsRctVerify/".

(** [type Action string] *)
Definition Action := string.
Definition RegisterClientAction : Action := "register".
Definition FetchTokenAction : Action := "token".
Definition SubmitReceiptAction : Action := "receipt".
Definition SubmitReportAction : Action := "report".
Definition ReceiptVerificationAction : Action := "verification".

Module URL.
Record t := mk
  { Registration : string; FetchToken : string; SubmitReceipt : string;
    SubmitReport : string; VerifyReceipt : string }.
End URL.

Definition RequestURL (e : env.Env) (action : Action) : string :=
  let u :=
    if String.eqb e env.PROD
    then URL.mk RegisterProductionURL FetchTokenProductionURL
           SubmitReceiptProductionURL SubmitReportProductionURL
           VerifyReceiptProductionURL
    else URL.mk RegisterTestingURL FetchTokenTestingURL
           SubmitReceiptTestingURL SubmitReportTestingURL
           VerifyReceiptTestingURL in
  if String.eqb action RegisterClientAction then URL.Registration u
  else if String.eqb action FetchTokenAction then URL.FetchToken u
  else if String.eqb action SubmitReceiptAction then URL.SubmitReceipt u
  else if String.eqb action SubmitReportAction then URL.SubmitReport u
  else if String.eqb action ReceiptVerificationAction then URL.VerifyReceipt u
  else EmptyString.

(** ** receipt.go: the verification link *)

(** [strings.ReplaceAll(s, ":", "")] *)
Fixpoint remove_colons (s : string) : string :=
  match s with
  | EmptyString => EmptyString
  | String c rest =>
      if Ascii.eqb c ":" then remove_colons rest
      else String c (remove_colons rest)
  end.

(** [fmt.Sprintf("%s%s%d_%s", ...)]; [pretty] prints an integer in decimal
    as the verb [%d] does. *)
Definition receiptLink (baseURL receiptCode : string) (gc : Z)
  (receiptTime : string) : string :=
  baseURL +:+ receiptCode +:+ pretty gc +:+ "_" +:+ remove_colons receiptTime.

Definition ReceiptLink (e : env.Env) (receiptCode : string) (gc : Z)
  (receiptTime : string) : string :=
  let baseURL :=
    if String.eqb e env.PROD then VerifyReceiptProductionURL
    else VerifyReceiptTestingURL in
  receiptLink baseURL receiptCode gc receiptTime.

(** ** Tokens: middlewares of the token callback *)

Section Middleware.

(** [*TokenResponse] and the result of a callback are left abstract. *)
Variable TokenResponse : Type.

(** [type OnTokenResponse func(context.Context, *TokenResponse) error] *)
Definition OnTokenResponse : Type := ctx_state -> TokenResponse -> option error.
(** [type TokenResponseMiddleware func(next OnTokenResponse) OnTokenResponse] *)
Definition TokenResponseMiddleware : Type := OnTokenResponse -> OnTokenResponse.

(** The loop [for i := len(middlewares) - 1; i >= 0; i--] as a recursion on
    the number of middlewares still to apply. *)
Fixpoint WrapTokenResponseMiddleware_loop (i : nat) (next : OnTokenResponse)
  (middlewares : list TokenResponseMiddleware) : OnTokenResponse :=
  match i with
  | O => next
  | S j =>
      match middlewares !! j with
      | Some m => WrapTokenResponseMiddleware_loop j (m next) middlewares
      | None => next
      end
  end.

Definition WrapTokenResponseMiddleware (next : OnTokenResponse)
  (middlewares : list TokenResponseMiddleware) : OnTokenResponse :=
  WrapTokenResponseMiddleware_loop (length middlewares) next middlewares.

End Middleware.

Arguments WrapTokenResponseMiddleware {TokenResponse} next middlewares.
Arguments WrapTokenResponseMiddleware_loop {TokenResponse} i next middlewares.

Definition actions : list Action :=
  [RegisterClientAction; FetchTokenAction; SubmitReceiptAction;
   SubmitReportAction; ReceiptVerificationAction].

Lemma env_Parse_PROD (s : string) :
  env.Parse s = env.PROD <-> s = "production" \/ s = "prod".
Proof.
  unfold env.Parse.
  repeat match goal with
         | |- context [String.eqb s ?t] =>
             destruct (String.eqb_spec s t) as [-> | ?];
             [vm_compute; split; intros Hx;
              first [discriminate Hx | reflexivity | by left | by right
                    | destruct Hx as [Hx | Hx]; discriminate Hx] |]
         end.
  simpl. unfold env.DEV, env.PROD.
  split; [discriminate | intros [Hx | Hx]; contradiction].
Qed.

Lemma RequestURL_two_sets (e : env.Env) (action : Action) :
  RequestURL e action
  = RequestURL (if String.eqb e env.PROD then env.PROD else env.TEST) action.
Proof. unfold RequestURL. by destruct (String.eqb e env.PROD). Qed.

Lemma RequestURL_empty (e : env.Env) (action : Action) :
  RequestURL e action = EmptyString <-> action ∉ actions.
Proof.
  rewrite list_elem_of_In. unfold RequestURL, actions.
  destruct (String.eqb e env.PROD); cbv zeta;
    repeat match goal with
           | |- context [String.eqb action ?t] =>
               destruct (String.eqb_spec action t) as [-> | ?];
               [split; [discriminate | intros Hx; exfalso; apply Hx; simpl; tauto]
               |]
           end;
    (split; [intros _; simpl; intuition congruence | reflexivity]).
Qed.

Lemma RequestURL_PROD_TEST (action : Action) :
  action ∈ actions -> RequestURL env.PROD action <> RequestURL env.TEST action.
Proof.
  unfold actions. intros Hin. set_unfold in Hin.
  destruct_or!; subst action; vm_compute; discriminate.
Qed.

(** X12: [RequestURL] is empty exactly for an action outside the five known
    ones. For a known action and an environment name parsed by [env.Parse],
    it is the production URL exactly when the name is "production" or
    "prod", and the testing URL for every other name: "staging", an
    unrecognized name and a name in upper case all select the testing
    endpoint. The two URLs of an action never coincide. *)
Theorem RequestURL_environment (s : string) (action : Action) :
  (RequestURL (env.Parse s) action = EmptyString <-> action ∉ actions)
  /\ (action ∈ actions ->
      (RequestURL (env.Parse s) action = RequestURL env.PROD action
       <-> s = "production" \/ s = "prod")
      /\ (RequestURL (env.Parse s) action = RequestURL env.TEST action
          <-> ~ (s = "production" \/ s = "prod"))).
Proof.
  split; [apply RequestURL_empty |]. intros Hin.
  pose proof (RequestURL_PROD_TEST action Hin) as Hne.
  rewrite <- (env_Parse_PROD s), (RequestURL_two_sets (env.Parse s)).
  destruct (String.eqb_spec (env.Parse s) env.PROD) as [He | He].
  - split; [tauto |]. split; [contradiction | tauto].
  - split; [| tauto]. split; [| contradiction].
    intros Heq. exfalso. apply Hne. by rewrite Heq.
Qed.

Lemma remove_colons_free (s : string) :
  ~ In ":"%char (list_ascii_of_string (remove_colons s)).
Proof.
  induction s as [| c rest IH]; simpl; [tauto |].
  destruct (Ascii.eqb_spec c ":") as [-> | Hc]; [exact IH |].
  simpl. intros [H | H]; [by apply Hc | by apply IH].
Qed.

Lemma remove_colons_idem (s : string) :
  remove_colons (remove_colons s) = remove_colons s.
Proof.
  induction s as [| c rest IH]; simpl; [reflexivity |].
  destruct (Ascii.eqb c ":") eqn:Hc; [exact IH |].
  simpl. by rewrite Hc, IH.
Qed.

(** X13: the link of [ReceiptLink] starts with the verification URL that
    [RequestURL] gives for the same environment, followed by the receipt
    code, the counter in decimal, an underscore and the time. The time part
    holds no colon, and a time given without its colons yields the same
    link. *)
Theorem ReceiptLink_shape (e : env.Env) (receiptCode : string) (gc : Z)
  (receiptTime : string) :
  ReceiptLink e receiptCode gc receiptTime
  = RequestURL e ReceiptVerificationAction +:+ receiptCode +:+ pretty gc
    +:+ "_" +:+ remove_colons receiptTime
  /\ ~ In ":"%char (list_ascii_of_string (remove_colons receiptTime))
  /\ ReceiptLink e receiptCode gc (remove_colons receiptTime)
     = ReceiptLink e receiptCode gc receiptTime.
Proof.
  split; [| split; [apply remove_colons_free |]].
  - unfold ReceiptLink, receiptLink, RequestURL.
    by destruct (String.eqb e env.PROD).
  - unfold ReceiptLink, receiptLink. by rewrite remove_colons_idem.
Qed.

Lemma WrapTokenResponseMiddleware_loop_app {T : Type}
  (front : list (TokenResponseMiddleware T)) :
  forall (next : OnTokenResponse T) (back : list (TokenResponseMiddleware T)),
    WrapTokenResponseMiddleware_loop (length front) next (front ++ back)
    = fold_right (fun m acc => m acc) next front.
Proof.
  induction front as [| m front IH] using rev_ind; intros next back;
    [reflexivity |].
  rewrite length_app, Nat.add_1_r. cbn [WrapTokenResponseMiddleware_loop].
  rewrite <- app_assoc, lookup_app_r by reflexivity.
  rewrite Nat.sub_diag. cbn [lookup list_lookup app].
  rewrite IH, fold_right_app. reflexivity.
Qed.

Lemma WrapTokenResponseMiddleware_fold {T : Type} (next : OnTokenResponse T)
  (middlewares : list (TokenResponseMiddleware T)) :
  WrapTokenResponseMiddleware next middlewares
  = fold_right (fun m acc => m acc) next middlewares.
Proof.
  unfold WrapTokenResponseMiddleware.
  rewrite <- (app_nil_r middlewares) at 2.
  apply WrapTokenResponseMiddleware_loop_app.
Qed.

(** X14: [WrapTokenResponseMiddleware] nests the middlewares in the order
    given: with none the callback is returned as it is, the first
    middleware becomes the outermost call, and wrapping with a concatenated
    list is wrapping with the inner list and then with the outer one. *)
Theorem WrapTokenResponseMiddleware_order {T : Type} (next : OnTokenResponse T)
  (m : TokenResponseMiddleware T)
  (outer inner : list (TokenResponseMiddleware T)) :
  WrapTokenResponseMiddleware next [] = next
  /\ WrapTokenResponseMiddleware next (m :: inner)
     = m (WrapTokenResponseMiddleware next inner)
  /\ WrapTokenResponseMiddleware next (outer ++ inner)
     = WrapTokenResponseMiddleware (WrapTokenResponseMiddleware next inner)
         outer.
Proof.
  rewrite !WrapTokenResponseMiddleware_fold, fold_right_app. repeat split.
Qed.

(** ** Tokens: [fetchToken] and [FetchTokenWithMw] *)

Module TokenRequest.
Record t := mk { Username : string; Password : string; GrantType : string }.
End TokenRequest.

Module TokenResponse.
Record t := mk
  { Code : string; Message : string; AccessToken : string; TokenType : string;
    ExpiresIn : Z; Error : string }.
End TokenResponse.

(** An [*http.Response] whose headers are read: the status code, the lookup
    [resp.Header.Get] and the outcome of [io.ReadAll(resp.Body)]. *)
Module HttpResponse.
Record t := mk
  { StatusCode : Z; Header_Get : string -> string;
    Body : result (list Byte.byte) }.
End HttpResponse.

(** [var ErrFetchToken = errors.New("fetch token failed")] *)
Definition ErrFetchToken : error := errors_New "fetch token failed".

Section Token.

(** [url.QueryEscape], applied by [url.Values.Encode] to keys and values. *)
Variable url_QueryEscape : string -> string.
Variable http_NewRequest_err : string -> option error.
(** [json.NewDecoder(...).Decode] into a [TokenResponse]. *)
Variable json_Decode_TokenResponse : list Byte.byte -> result TokenResponse.t.

(** [form.Encode()] of the three values set by [fetchToken]: [Encode] writes
    the pairs sorted by key. *)
Definition form_Encode (request : TokenRequest.t) : string :=
  "grant_type=" +:+ url_QueryEscape (TokenRequest.GrantType request)
  +:+ "&password=" +:+ url_QueryEscape (TokenRequest.Password request)
  +:+ "&username=" +:+ url_QueryEscape (TokenRequest.Username request).

(** The request that [fetchToken] hands to [client.Do]. *)
Definition fetchToken_Request (path : string) (request : TokenRequest.t)
  : Request.t :=
  Request.mk "POST" path
    [("Content-Type", "application/x-www-form-urlencoded")]
    (list_byte_of_string (form_Encode request)).

(** [fetchToken]. The client is a parameter of the function; [ctx2] is the
    state of the context derived with the one-minute timeout when
    [client.Do] returns. In the first two wrapped errors the verb [%v]
    prints [ErrFetchToken] and [%w] wraps the cause; in the last one [%w]
    wraps [ErrFetchToken] itself and the text follows it. *)
Definition fetchToken (ctx2 : ctx_state)
  (client_Do : Request.t -> result HttpResponse.t) (path : string)
  (request : TokenRequest.t) : option TokenResponse.t * option error :=
  match http_NewRequest_err path with
  | Some err => (None, Some (fmt_Errorf_w "fetch token failed: " err))
  | None =>
      match client_Do (fetchToken_Request path request) with
      | Err err => (None, checkNetworkError ctx2 "fetch token" (Some err))
      | Ok resp =>
          match HttpResponse.Body resp with
          | Err err => (None, Some (fmt_Errorf_w "fetch token failed: " err))
          | Ok out =>
              match json_Decode_TokenResponse out with
              | Err err =>
                  (None, Some (fmt_Errorf_w "response decode error: " err))
              | Ok decoded =>
                  let response :=
                    TokenResponse.mk
                      (HttpResponse.Header_Get resp "ACKCODE")
                      (HttpResponse.Header_Get resp "ACKMSG")
                      (TokenResponse.AccessToken decoded)
                      (TokenResponse.TokenType decoded)
                      (TokenResponse.ExpiresIn decoded)
                      (TokenResponse.Error decoded) in
                  if negb (HttpResponse.StatusCode resp =? 200)%Z then
                    (None,
                     Some (fmt_Errorf_w
                             (": error code=[" +:+ TokenResponse.Code response
                              +:+ "],message=["
                              +:+ TokenResponse.Message response
                              +:+ "], error=[" +:+ TokenResponse.Error response
                              +:+ "]")
                             ErrFetchToken))
                  else (Some response, None)
              end
          end
      end
  end.

(** [FetchTokenWithMw] and the method of the same name of [Client]: the
    callback receives the caller's context [ctx] and the pointer
    [response]. *)
Definition FetchTokenWithMw (ctx ctx2 : ctx_state)
  (client_Do : Request.t -> result HttpResponse.t) (url : string)
  (request : TokenRequest.t)
  (callback : OnTokenResponse (option TokenResponse.t))
  : option TokenResponse.t * option error :=
  match fetchToken ctx2 client_Do url request with
  | (_, Some err) => (None, Some err)
  | (response, None) =>
      match callback ctx response with
      | Some err => (None, Some err)
      | None => (response, None)
      end
  end.

(** X15: [fetchToken] returns either a token response or an error, never
    both and never neither. A response is returned only when the server
    answered with status 200 and a body that decodes; its [Code] and
    [Message] are then the [ACKCODE] and [ACKMSG] headers of the reply,
    whatever the body says, and its other four fields are those of the
    decoded body. *)
Theorem fetchToken_result (ctx2 : ctx_state)
  (client_Do : Request.t -> result HttpResponse.t) (path : string)
  (request : TokenRequest.t) (r : option TokenResponse.t)
  (e : option error) :
  fetchToken ctx2 client_Do path request = (r, e) ->
  (r = None <-> e <> None)
  /\ forall response : TokenResponse.t,
       r = Some response ->
       exists (resp : HttpResponse.t) (out : list Byte.byte)
         (decoded : TokenResponse.t),
         client_Do (fetchToken_Request path request) = Ok resp
         /\ HttpResponse.StatusCode resp = 200%Z
         /\ HttpResponse.Body resp = Ok out
         /\ json_Decode_TokenResponse out = Ok decoded
         /\ response
            = TokenResponse.mk (HttpResponse.Header_Get resp "ACKCODE")
                (HttpResponse.Header_Get resp "ACKMSG")
                (TokenResponse.AccessToken decoded)
                (TokenResponse.TokenType decoded)
                (TokenResponse.ExpiresIn decoded)
                (TokenResponse.Error decoded).
Proof.
  unfold fetchToken. intros H.
  destruct (http_NewRequest_err path);
    [injection H as <- <-; split; [done | discriminate] |].
  destruct (client_Do _) as [resp | err] eqn:Hdo;
    [| injection H as <- <-;
       split; [split; [intros _; apply checkNetworkError_Some | done]
              | discriminate]].
  destruct (HttpResponse.Body resp) as [out | err] eqn:Hbody;
    [| injection H as <- <-; split; [done | discriminate]].
  destruct (json_Decode_TokenResponse out) as [decoded | err] eqn:Hdec;
    [| injection H as <- <-; split; [done | discriminate]].
  destruct (HttpResponse.StatusCode resp =? 200)%Z eqn:Hsc;
    cbn [negb] in H; injection H as <- <-;
    [| split; [done | discriminate]].
  split; [split; congruence |].
  intros response [= <-]. exists resp, out, decoded.
  apply Z.eqb_eq in Hsc. by repeat split.
Qed.

(** X16: [FetchTokenWithMw] hands out a token response exactly when
    [fetchToken] succeeded with that response and the callback, called with
    it, returned no error. A failing callback withholds the token: the
    result is then the callback's error alone. *)
Theorem FetchTokenWithMw_callback (ctx ctx2 : ctx_state)
  (client_Do : Request.t -> result HttpResponse.t) (url : string)
  (request : TokenRequest.t)
  (callback : OnTokenResponse (option TokenResponse.t))
  (response : TokenResponse.t) (err : option error) :
  (FetchTokenWithMw ctx ctx2 client_Do url request callback
   = (Some response, err)
   <-> err = None
       /\ fetchToken ctx2 client_Do url request = (Some response, None)
       /\ callback ctx (Some response) = None)
  /\ (forall cause : error,
        fetchToken ctx2 client_Do url request = (Some response, None) ->
        callback ctx (Some response) = Some cause ->
        FetchTokenWithMw ctx ctx2 client_Do url request callback
        = (None, Some cause)).
Proof.
  unfold FetchTokenWithMw. split.
  - destruct (fetchToken ctx2 client_Do url request) as [r [e |]] eqn:Hf.
    + split; [discriminate | intros (_ & H & _); discriminate].
    + destruct (callback ctx r) as [e |] eqn:Hcb.
      * split; [discriminate |]. intros (_ & [= ->] & H). congruence.
      * split.
        -- intros [= -> <-]. by repeat split.
        -- intros (-> & [= ->] & _). reflexivity.
  - intros cause -> ->. reflexivity.
Qed.

End Token.

(** ** register.go: registration of a device *)

(** [models.REGDATA], [models.REGDATAEFDMS], [models.TAXCODES] and
    [models.REGDATARESP] (the [EFDMSRESP] element of [models.REGRESPACK]),
    without their [XMLName] and [Text] fields. *)
Module REGDATA.
Record t := mk { TIN : string; CERTKEY : string }.
End REGDATA.

Module REGDATAEFDMS.
Record t := mk { REGDATA : REGDATA.t; EFDMSSIGNATURE : string }.
End REGDATAEFDMS.

Module TAXCODES.
Record t := mk
  { CODEA : string; CODEB : string; CODEC : string; CODED : string }.
End TAXCODES.

Module REGDATARESP.
Record t := mk
  { ACKCODE : string; ACKMSG : string; REGID : string; SERIAL : string;
    UIN : string; TIN : string; VRN : string; MOBILE : string;
    ADDRESS : string; STREET : string; CITY : string; COUNTRY : string;
    NAME : string; RECEIPTCODE : string; REGION : string; ROUTINGKEY : string;
    GC : Z; TAXOFFICE : string; USERNAME : string; PASSWORD : string;
    TOKENPATH : string; TAXCODES : TAXCODES.t }.
End REGDATARESP.

Module RegistrationResponse.
Record t := mk
  { ACKCODE : string; ACKMSG : string; REGID : string; SERIAL : string;
    UIN : string; TIN : string; VRN : string; MOBILE : string;
    ADDRESS : string; STREET : string; CITY : string; COUNTRY : string;
    NAME : string; RECEIPTCODE : string; REGION : string; ROUTINGKEY : string;
    GC : Z; TAXOFFICE : string; USERNAME : string; PASSWORD : string;
    TOKENPATH : string; TAXCODES : TAXCODES.t }.
End RegistrationResponse.

Module RegistrationRequest.
Record t := mk
  { ContentType : string; CertSerial : string; Tin : string;
    CertKey : string }.
End RegistrationRequest.

(** [var ErrRegistrationFailed = errors.New("registration failed")] *)
Definition ErrRegistrationFailed : error := errors_New "registration failed".

Definition RegistrationRequestClient := "webapi".

Definition responseFormat (response : REGDATARESP.t) : RegistrationResponse.t :=
  RegistrationResponse.mk
    (REGDATARESP.ACKCODE response) (REGDATARESP.ACKMSG response)
    (REGDATARESP.REGID response) (REGDATARESP.SERIAL response)
    (REGDATARESP.UIN response) (REGDATARESP.TIN response)
    (REGDATARESP.VRN response) (REGDATARESP.MOBILE response)
    (REGDATARESP.ADDRESS response) (REGDATARESP.STREET response)
    (REGDATARESP.CITY response) (REGDATARESP.COUNTRY response)
    (REGDATARESP.NAME response) (REGDATARESP.RECEIPTCODE response)
    (REGDATARESP.REGION response) (REGDATARESP.ROUTINGKEY response)
    (REGDATARESP.GC response) (REGDATARESP.TAXOFFICE response)
    (REGDATARESP.USERNAME response) (REGDATARESP.PASSWORD response)
    (REGDATARESP.TOKENPATH response)
    (TAXCODES.mk
       (TAXCODES.CODEA (REGDATARESP.TAXCODES response))
       (TAXCODES.CODEB (REGDATARESP.TAXCODES response))
       (TAXCODES.CODEC (REGDATARESP.TAXCODES response))
       (TAXCODES.CODED (REGDATARESP.TAXCODES response))).

Section Registration.

Variable PrivateKey PublicKey : Type.
Variable PublicKey_of : PrivateKey -> PublicKey.
Variable sha1_Sum : list Byte.byte -> list Byte.byte.
Variable rsa_SignPKCS1v15 : PrivateKey -> list Byte.byte -> result (list Byte.byte).
Variable rsa_VerifyPKCS1v15 :
  PublicKey -> list Byte.byte -> list Byte.byte -> option error.
Variable base64_EncodeToString : list Byte.byte -> string.
Variable xml_Marshal_REGDATA : REGDATA.t -> result (list Byte.byte).
Variable xml_Marshal_REGDATAEFDMS : REGDATAEFDMS.t -> result (list Byte.byte).
Variable http_NewRequest_err : string -> option error.
Variable xml_Decode_Error : list Byte.byte -> result string.
(** [xml.NewDecoder(...).Decode] into [models.REGRESPACK] (its
    [EFDMSRESP]). *)
Variable xml_Decode_REGRESPACK : list Byte.byte -> result REGDATARESP.t.

(** The request that [register] hands to [client.Do]. *)
Definition register_Request (requestURL certSerial : string)
  (out : list Byte.byte) : Request.t :=
  Request.mk "POST" requestURL
    [ ("Content-Type", ContentTypeXML);
      ("Cert-Serial", certSerial);
      ("Client", RegistrationRequestClient) ] out.

(** [register]: the client is a parameter of the function; [ctx] is the
    state of the caller's context when [client.Do] returns. The error of a
    reply 500 wraps [ErrRegistrationFailed] with [%w]; the error of a
    non-zero [ACKCODE] only prints it with [%v]. *)
Definition register (ctx : ctx_state) (client_Do : Request.t -> http_reply)
  (requestURL : string) (privateKey : PrivateKey)
  (request : RegistrationRequest.t)
  : option RegistrationResponse.t * option error :=
  let taxIdNumber := RegistrationRequest.Tin request in
  let certKey := RegistrationRequest.CertKey request in
  let certSerial :=
    encodeBase64String base64_EncodeToString
      (RegistrationRequest.CertSerial request) in
  let reg := REGDATA.mk taxIdNumber certKey in
  match xml_Marshal_REGDATA reg with
  | Err err =>
      (None,
       Some (fmt_Errorf_w
               "registration failed: failed to marshal registration body: "
               err))
  | Ok out =>
      match Sign PrivateKey PublicKey PublicKey_of sha1_Sum rsa_SignPKCS1v15
              rsa_VerifyPKCS1v15 privateKey out with
      | Err err => (None, Some err)
      | Ok signedPayload =>
          let signedPayloadBase64 :=
            encodeBase64Bytes base64_EncodeToString signedPayload in
          let requestPayload := REGDATAEFDMS.mk reg signedPayloadBase64 in
          match xml_Marshal_REGDATAEFDMS requestPayload with
          | Err err => (None, Some err)
          | Ok out =>
              match http_NewRequest_err requestURL with
              | Some err => (None, Some err)
              | None =>
                  match client_Do (register_Request requestURL certSerial out)
                  with
                  | DoFailed err =>
                      (None, checkNetworkError ctx "registration" (Some err))
                  | DoResponse _ (Err err) =>
                      (None, Some (fmt_Errorf_w "registration failed: " err))
                  | DoResponse StatusCode (Ok out) =>
                      if (StatusCode =? 500)%Z then
                        match xml_Decode_Error out with
                        | Err err =>
                            (None,
                             Some (fmt_Errorf_w "registration failed: " err))
                        | Ok Message =>
                            (None,
                             Some (fmt_Errorf_w (": " +:+ Message)
                                     ErrRegistrationFailed))
                        end
                      else
                        match xml_Decode_REGRESPACK out with
                        | Err err =>
                            (None,
                             Some (fmt_Errorf_w "registration failed: " err))
                        | Ok response =>
                            let responseCode := REGDATARESP.ACKCODE response in
                            if negb (String.eqb responseCode "0") then
                              let responseMessage :=
                                REGDATARESP.ACKMSG response in
                              (None,
                               Some (errors_New
                                       ("registration failed response code: "
                                        +:+ responseCode +:+ ", message: "
                                        +:+ responseMessage)))
                            else (Some (responseFormat response), None)
                        end
                  end
              end
          end
      end
  end.

(** A request that carries a verified signature of the registration data of
    [request]: its body is the serialized envelope of the data and of the
    base64 text of a signature that the key produced for the serialized
    data and that verifies under the public key. *)
Definition signed_registration (requestURL : string) (privateKey : PrivateKey)
  (request : RegistrationRequest.t) (req : Request.t) : Prop :=
  exists (data signature : list Byte.byte),
    let reg :=
      REGDATA.mk (RegistrationRequest.Tin request)
        (RegistrationRequest.CertKey request) in
    xml_Marshal_REGDATA reg = Ok data
    /\ rsa_SignPKCS1v15 privateKey (sha1_Sum data) = Ok signature
    /\ rsa_VerifyPKCS1v15 (PublicKey_of privateKey) (sha1_Sum data) signature
       = None
    /\ xml_Marshal_REGDATAEFDMS
         (REGDATAEFDMS.mk reg (base64_EncodeToString signature))
       = Ok (Request.Body req)
    /\ Request.Method req = "POST"
    /\ Request.URL req = requestURL
    /\ Request.Header req
       = [ ("Content-Type", "application/xml");
           ("Cert-Serial",
            base64_EncodeToString
              (list_byte_of_string (RegistrationRequest.CertSerial request)));
           ("Client", "webapi") ].

Lemma Sign_Ok_verified (key : PrivateKey) (payload sg : list Byte.byte) :
  Sign PrivateKey PublicKey PublicKey_of sha1_Sum rsa_SignPKCS1v15
    rsa_VerifyPKCS1v15 key payload = Ok sg ->
  rsa_SignPKCS1v15 key (sha1_Sum payload) = Ok sg
  /\ rsa_VerifyPKCS1v15 (PublicKey_of key) (sha1_Sum payload) sg = None.
Proof.
  unfold Sign, signPayload, verifySignature.
  destruct (rsa_SignPKCS1v15 key (sha1_Sum payload)) as [s | e];
    [| discriminate].
  destruct (rsa_VerifyPKCS1v15 _ _ s) eqn:Hv; [discriminate |].
  by intros [= <-].
Qed.

(** X17: [register] sends nothing but signed registrations. Its result is
    the same for any two clients that answer alike to the requests carrying
    a verified signature of the registration data: whatever a client would
    do with another request cannot matter, because no other request is ever
    handed to it (and none at all when serializing or signing fails). *)
Theorem register_sends_only_signed_requests (ctx : ctx_state)
  (client1 client2 : Request.t -> http_reply) (requestURL : string)
  (privateKey : PrivateKey) (request : RegistrationRequest.t) :
  (forall req : Request.t,
     signed_registration requestURL privateKey request req ->
     client1 req = client2 req) ->
  register ctx client1 requestURL privateKey request
  = register ctx client2 requestURL privateKey request.
Proof.
  intros Hagree. unfold register. cbv zeta.
  destruct (xml_Marshal_REGDATA _) as [data | e] eqn:Hdata; [| reflexivity].
  destruct (Sign _ _ _ _ _ _ privateKey data) as [sg | e] eqn:Hsign;
    [| reflexivity].
  destruct (xml_Marshal_REGDATAEFDMS _) as [out | e] eqn:Hout; [| reflexivity].
  destruct (http_NewRequest_err requestURL); [reflexivity |].
  rewrite Hagree; [reflexivity |].
  apply Sign_Ok_verified in Hsign as [Hs Hv].
  exists data, sg. cbv zeta. by repeat split.
Qed.

(** X18: [register] returns either a registration response or an error,
    never both and never neither. A response is returned only when the
    authority answered a signed registration with a status other than 500
    and a body that decodes with [ACKCODE] "0"; the response then carries
    [ACKCODE] "0" and every field of the decoded [EFDMSRESP]. A reply with
    any other [ACKCODE] ends in an error. *)
Theorem register_result (ctx : ctx_state)
  (client_Do : Request.t -> http_reply) (requestURL : string)
  (privateKey : PrivateKey) (request : RegistrationRequest.t)
  (r : option RegistrationResponse.t) (e : option error) :
  register ctx client_Do requestURL privateKey request = (r, e) ->
  (r = None <-> e <> None)
  /\ forall response : RegistrationResponse.t,
       r = Some response ->
       RegistrationResponse.ACKCODE response = "0"
       /\ exists (req : Request.t) (StatusCode : Z) (out : list Byte.byte)
            (decoded : REGDATARESP.t),
            signed_registration requestURL privateKey request req
            /\ client_Do req = DoResponse StatusCode (Ok out)
            /\ StatusCode <> 500%Z
            /\ xml_Decode_REGRESPACK out = Ok decoded
            /\ response = responseFormat decoded.
Proof.
  unfold register. cbv zeta. intros H.
  destruct (xml_Marshal_REGDATA _) as [data | err] eqn:Hdata;
    [| injection H as <- <-; split; [done | discriminate]].
  destruct (Sign _ _ _ _ _ _ privateKey data) as [sg | err] eqn:Hsign;
    [| injection H as <- <-; split; [done | discriminate]].
  destruct (xml_Marshal_REGDATAEFDMS _) as [body | err] eqn:Hbody;
    [| injection H as <- <-; split; [done | discriminate]].
  destruct (http_NewRequest_err requestURL);
    [injection H as <- <-; split; [done | discriminate] |].
  destruct (client_Do _) as [err | sc [out | err]] eqn:Hdo.
  - injection H as <- <-.
    split; [split; [intros _; apply checkNetworkError_Some | done]
           | discriminate].
  - destruct (sc =? 500)%Z eqn:Hsc.
    + destruct (xml_Decode_Error out); injection H as <- <-;
        (split; [done | discriminate]).
    + destruct (xml_Decode_REGRESPACK out) as [decoded | err] eqn:Hdec;
        [| injection H as <- <-; split; [done | discriminate]].
      destruct (String.eqb_spec (REGDATARESP.ACKCODE decoded) "0")
        as [Hc | Hc]; cbn [negb] in H; injection H as <- <-;
        [| split; [done | discriminate]].
      split; [split; congruence |].
      intros response [= <-]. split; [exact Hc |].
      eexists _, sc, out, decoded. split; [| split; [exact Hdo |]].
      * apply Sign_Ok_verified in Hsign as [Hs Hv].
        exists data, sg. cbv zeta. by repeat split.
      * apply Z.eqb_neq in Hsc. by repeat split.
  - injection H as <- <-. split; [done | discriminate].
Qed.

End Registration.

(** ** [SubmitRawRequest]: submission of a prepared file *)

Module RawRequest.
Record t := mk { Env : env.Env; Action : Action; FilePath : string }.
End RawRequest.

Section RawRequest.

Variable base64_EncodeToString : list Byte.byte -> string.
(** [os.Open(path)] followed by [io.Copy(payload, file)]: the bytes of the
    file, or the error of either call. *)
Variable os_ReadFile : string -> result (list Byte.byte).
Variable http_NewRequest_err : string -> option error.
Variable xml_Decode_Error : list Byte.byte -> result string.
Variable xml_Decode_RCTACKEFDMS : list Byte.byte -> result RCTACK.t.
Variable xml_Decode_ReportAckEFDMS : list Byte.byte -> result ZACK.t.

(** The calls of [req.Header.Set] in [SubmitRawRequest], in order. *)
Definition raw_headers (headers : RequestHeaders.t) (action : Action)
  : list (string * string) :=
  [ ("Content-Type", ContentTypeXML);
    ("Cert-Serial",
     encodeBase64String base64_EncodeToString
       (RequestHeaders.CertSerial headers));
    ("Authorization", "bearer " +:+ RequestHeaders.BearerToken headers) ]
  ++ (if String.eqb action SubmitReceiptAction
      then [("Routing-Key", SubmitReceiptRoutingKey)] else [])
  ++ (if String.eqb action SubmitReportAction
      then [("Routing-Key", SubmitReportRoutingKey)] else []).

(** [SubmitRawRequest]. [client_Do] is the client [vhttp.Instance()];
    [newContext] is the state of the derived context when [client.Do]
    returns. *)
Definition SubmitRawRequest (newContext : ctx_state)
  (client_Do : Request.t -> http_reply) (headers : RequestHeaders.t)
  (raw : RawRequest.t) : option Response.t * option error :=
  let reqURL := RequestURL (RawRequest.Env raw) (RawRequest.Action raw) in
  match (if negb (String.eqb (RawRequest.FilePath raw) EmptyString)
         then os_ReadFile (RawRequest.FilePath raw) else Ok []) with
  | Err err => (None, Some err)
  | Ok payload =>
      match http_NewRequest_err reqURL with
      | Some err => (None, Some err)
      | None =>
          let req :=
            Request.mk "POST" reqURL
              (raw_headers headers (RawRequest.Action raw)) payload in
          match client_Do req with
          | DoFailed err =>
              (None,
               checkNetworkError newContext "raw request submit" (Some err))
          | DoResponse _ (Err err) =>
              (None, Some (fmt_Errorf_w "receipt upload failed : " err))
          | DoResponse StatusCode (Ok out) =>
              if (StatusCode =? 500)%Z then
                match xml_Decode_Error out with
                | Err err =>
                    (None, Some (fmt_Errorf_w "receipt upload failed : " err))
                | Ok Message =>
                    (None, Some (errors_New ("registration error: " +:+ Message)))
                end
              else if String.eqb (RawRequest.Action raw) SubmitReportAction then
                match xml_Decode_ReportAckEFDMS out with
                | Err err =>
                    (None, Some (fmt_Errorf_w "report submit failed : " err))
                | Ok ack =>
                    (Some (Response.mk (ZACK.ZNUMBER ack) (ZACK.DATE ack)
                             (ZACK.TIME ack) (ZACK.ACKCODE ack)
                             (ZACK.ACKMSG ack)), None)
                end
              else if String.eqb (RawRequest.Action raw) SubmitReceiptAction then
                match xml_Decode_RCTACKEFDMS out with
                | Err err =>
                    (None, Some (fmt_Errorf_w "receipt upload failed : " err))
                | Ok ack =>
                    (Some (Response.mk (RCTACK.RCTNUM ack) (RCTACK.DATE ack)
                             (RCTACK.TIME ack) (RCTACK.ACKCODE ack)
                             (RCTACK.ACKMSG ack)), None)
                end
              else (None, Some (errors_New "couldnt figure out the action"))
          end
      end
  end.

(** X19: [SubmitRawRequest] returns either a response or an error, never
    both and never neither. A response is returned only for the actions
    "receipt" and "report": for every other action the call ends in an
    error, also when the authority answered. The header [Routing-Key] is
    set for these two actions only, to "vfdrct" and "vfdzreport". *)
Theorem SubmitRawRequest_result (newContext : ctx_state)
  (client_Do : Request.t -> http_reply) (headers : RequestHeaders.t)
  (raw : RawRequest.t) (r : option Response.t) (e : option error) :
  SubmitRawRequest newContext client_Do headers raw = (r, e) ->
  (r = None <-> e <> None)
  /\ (r <> None ->
      RawRequest.Action raw = SubmitReceiptAction
      \/ RawRequest.Action raw = SubmitReportAction)
  /\ (forall value : string,
        ("Routing-Key", value) ∈ raw_headers headers (RawRequest.Action raw)
        <-> (RawRequest.Action raw = SubmitReceiptAction
             /\ value = SubmitReceiptRoutingKey)
            \/ (RawRequest.Action raw = SubmitReportAction
                /\ value = SubmitReportRoutingKey)).
Proof.
  intros H. split; [| split].
  - unfold SubmitRawRequest in H. cbv zeta in H.
    repeat case_match; simplify_eq; try (split; congruence);
      by (split; [intros _; apply checkNetworkError_Some | done]).
  - unfold SubmitRawRequest in H. cbv zeta in H. intros Hr.
    repeat case_match; simplify_eq;
      repeat match goal with
             | Heq : String.eqb _ _ = true |- _ => apply String.eqb_eq in Heq
             end; auto.
  - intros value. unfold raw_headers.
    destruct (String.eqb_spec (RawRequest.Action raw) SubmitReceiptAction)
      as [-> | Hrc];
      [| destruct (String.eqb_spec (RawRequest.Action raw) SubmitReportAction)
           as [-> | Hrp]];
      simpl; set_unfold; split; intros Hx; destruct_or?; destruct_and?;
      simplify_eq; auto; try discriminate; try contradiction.
Qed.

End RawRequest.

(** ** [submitReceipt], [submitReport] and [SubmitRawRequest]: what a
    submission returns *)

Section Submission.

Variable map_range : gmap string vatTotal.t -> list vatTotal.t.
Variable PrivateKey PublicKey : Type.
Variable PublicKey_of : PrivateKey -> PublicKey.
Variable sha1_Sum : list Byte.byte -> list Byte.byte.
Variable rsa_SignPKCS1v15 : PrivateKey -> list Byte.byte -> result (list Byte.byte).
Variable rsa_VerifyPKCS1v15 :
  PublicKey -> list Byte.byte -> list Byte.byte -> option error.
Variable base64_EncodeToString : list Byte.byte -> string.
Variable base64_DecodeString : string -> result (list Byte.byte).
Variable xml_Marshal_RCT : models.RCT.t -> result (list Byte.byte).
Variable xml_Marshal_ZREPORT : models.ZREPORT.t -> result (list Byte.byte).
Variable regexp_ReplaceAllString : string -> string -> string -> string.
Variable os_ReadFile : string -> result (list Byte.byte).
Variable http_NewRequest_err : string -> option error.
Variable xml_Decode_Error : list Byte.byte -> result string.
Variable xml_Decode_RCTACKEFDMS : list Byte.byte -> result RCTACK.t.
Variable xml_Decode_ReportAckEFDMS : list Byte.byte -> result ZACK.t.

(** The functions of the pipeline over these collaborators, the client
    being an argument as it is in the source. *)
Let receipt_bytes :=
  ReceiptBytes map_range PrivateKey PublicKey PublicKey_of sha1_Sum
    rsa_SignPKCS1v15 rsa_VerifyPKCS1v15 base64_EncodeToString xml_Marshal_RCT.
Let submit_receipt (client_Do : Request.t -> http_reply) :=
  submitReceipt map_range PrivateKey PublicKey PublicKey_of sha1_Sum
    rsa_SignPKCS1v15 rsa_VerifyPKCS1v15 base64_EncodeToString xml_Marshal_RCT
    http_NewRequest_err client_Do xml_Decode_Error xml_Decode_RCTACKEFDMS.
Let submit_raw :=
  SubmitRawRequest base64_EncodeToString os_ReadFile http_NewRequest_err
    xml_Decode_Error xml_Decode_RCTACKEFDMS xml_Decode_ReportAckEFDMS.



(** X22: submitting a file that holds the bytes of [ReceiptBytes] with the
    action "receipt" is submitting the receipt, for every HTTP client.
    [SubmitRawRequest] posts the bytes of the file, to the same URL and with
    the same four headers as [submitReceipt] (set in another order), and
    its result depends on the client only through the reply to that one
    request; so does the result of [submitReceipt]. For a client that gives
    the two requests the same reply, the two calls return the same
    response; they return the same error as well whenever the client
    returned a reply. When the transport fails both classify the failure
    with [checkNetworkError], under their own prefixes. *)
Theorem SubmitRawRequest_agrees_with_submitReceipt (newContext : ctx_state)
  (client_Do : Request.t -> http_reply) (headers : RequestHeaders.t)
  (privateKey : PrivateKey) (rct : ReceiptRequest.t) (raw : RawRequest.t)
  (payload : list Byte.byte) :
  RawRequest.Action raw = SubmitReceiptAction ->
  RawRequest.FilePath raw <> EmptyString ->
  os_ReadFile (RawRequest.FilePath raw) = Ok payload ->
  receipt_bytes privateKey (ReceiptRequest.Params rct)
    (ReceiptRequest.Customer rct) (ReceiptRequest.Items rct)
    (ReceiptRequest.Payments rct) = Ok payload ->
  let requestURL := RequestURL (RawRequest.Env raw) SubmitReceiptAction in
  let posted_raw :=
    Request.mk "POST" requestURL
      (raw_headers base64_EncodeToString headers SubmitReceiptAction)
      payload in
  let posted_typed :=
    Request.mk "POST" requestURL
      (submit_headers base64_EncodeToString SubmitReceiptRoutingKey headers)
      payload in
  let typed :=
    submit_receipt client_Do newContext requestURL headers privateKey rct in
  let untyped := submit_raw newContext client_Do headers raw in
  Request.Header posted_raw ≡ₚ Request.Header posted_typed
  /\ (forall other : Request.t -> http_reply,
        other posted_raw = client_Do posted_raw ->
        submit_raw newContext other headers raw = untyped)
  /\ (forall other : Request.t -> http_reply,
        other posted_typed = client_Do posted_typed ->
        submit_receipt other newContext requestURL headers privateKey rct
        = typed)
  /\ (http_NewRequest_err requestURL = None ->
      (forall (StatusCode : Z) (out : list Byte.byte) (ack : RCTACK.t),
         client_Do posted_raw = DoResponse StatusCode (Ok out) ->
         StatusCode <> 500%Z ->
         xml_Decode_RCTACKEFDMS out = Ok ack ->
         untyped
         = (Some (Response.mk (RCTACK.RCTNUM ack) (RCTACK.DATE ack)
                    (RCTACK.TIME ack) (RCTACK.ACKCODE ack)
                    (RCTACK.ACKMSG ack)), None))
      /\ (forall err : error,
            client_Do posted_raw = DoFailed err ->
            untyped
            = (None,
               checkNetworkError newContext "raw request submit" (Some err)))
      /\ (forall err : error,
            client_Do posted_typed = DoFailed err ->
            typed
            = (None, checkNetworkError newContext "receipt upload" (Some err))))
  /\ (client_Do posted_raw = client_Do posted_typed ->
      untyped.1 = typed.1
      /\ (forall (StatusCode : Z) (body : result (list Byte.byte)),
            client_Do posted_raw = DoResponse StatusCode body ->
            untyped = typed)).
Proof.
  intros Hact Hpath Hfile Hbytes requestURL posted_raw posted_typed typed
    untyped.
  subst typed untyped submit_receipt submit_raw receipt_bytes.
  cbv beta in *.
  unfold submitReceipt, SubmitRawRequest. cbv zeta.
  rewrite Hbytes, Hact.
  apply String.eqb_neq in Hpath. rewrite Hpath. cbn [negb]. rewrite Hfile.
  fold requestURL. fold posted_raw. fold posted_typed.
  split.
  { subst posted_raw posted_typed. unfold raw_headers, submit_headers. simpl.
    apply Permutation_cons; [done |]. apply Permutation_sym.
    apply (Permutation_cons_append [_; _]). }
  change (SubmitReceiptAction =? SubmitReportAction)%string with false.
  change (SubmitReceiptAction =? SubmitReceiptAction)%string with true.
  cbv iota.
  split; [intros other ->; reflexivity |].
  split; [intros other ->; reflexivity |].
  split.
  - intros ->. split; [| split].
    + intros sc out ack -> Hsc Hdec.
      apply Z.eqb_neq in Hsc. rewrite Hsc, Hdec. reflexivity.
    + intros err ->. reflexivity.
    + intros err ->. reflexivity.
  - intros <-. destruct (http_NewRequest_err requestURL);
      [split; [reflexivity | intros; reflexivity] |].
    destruct (client_Do posted_raw) as [err | sc [out | err]].
    + split; [reflexivity | discriminate].
    + split; reflexivity.
    + split; reflexivity.
Qed.

End Submission.

(** ** client.go: the client and its options *)

(** [type Client struct { http *http.Client }]: the pointer may be [nil].
    [H] is the type of the clients that are not [nil]. *)
Module Client.
Record t (H : Type) := mk { http : option H }.
Arguments mk {H} http.
Arguments http {H} t.
End Client.

(** [type Option]: a function that takes a pointer to a [Client] and
    updates the client it points to. *)
Definition Option (H : Type) : Type := Client.t H -> Client.t H.

Definition WithHttpClient {H : Type} (http : option H) : Option H :=
  fun c => Client.mk http.

Definition SetHttpClient {H : Type} (c : Client.t H) (http : option H)
  : Client.t H :=
  match http with
  | Some _ => Client.mk http
  | None => c
  end.

(** [NewClient]; [http_DefaultClient] is [http.DefaultClient]. *)
Definition NewClient {H : Type} (http_DefaultClient : H)
  (options : list (Option H)) : Client.t H :=
  fold_left (fun client option => option client) options
    (Client.mk (Some http_DefaultClient)).

(** X23: [NewClient] without options uses [http.DefaultClient]; the options
    are applied in the order given, so the client of the last
    [WithHttpClient] is the one kept, also when it is [nil]. [SetHttpClient]
    never replaces a client by [nil]: the client is [nil] afterwards only if
    it was [nil] before and [nil] was given. *)
Theorem NewClient_options {H : Type} (http_DefaultClient : H)
  (options : list (Option H)) (http : option H) (c : Client.t H) :
  NewClient http_DefaultClient [] = Client.mk (Some http_DefaultClient)
  /\ NewClient http_DefaultClient (options ++ [WithHttpClient http])
     = Client.mk http
  /\ (forall option : Option H,
        NewClient http_DefaultClient (options ++ [option])
        = option (NewClient http_DefaultClient options))
  /\ (Client.http (SetHttpClient c http) = None
      <-> Client.http c = None /\ http = None).
Proof.
  unfold NewClient. rewrite fold_left_app. split; [reflexivity |].
  split; [reflexivity |]. split.
  - intros option. by rewrite fold_left_app.
  - unfold SetHttpClient. destruct http as [h |]; simpl.
    + split; [discriminate | intros [_ Hh]; discriminate Hh].
    + tauto.
Qed.

(** ** The exchanges on sample collaborators *)

Module SampleExchange.

Definition url_QueryEscape (s : string) : string := s.

(** A decoder that takes the whole body for the access token and reports a
    code and a message of its own. *)
Definition json_Decode_TokenResponse (out : list Byte.byte)
  : result TokenResponse.t :=
  Ok (TokenResponse.mk "7" "from the body" (string_of_list_byte out) "bearer"
        3600 EmptyString).

Definition Header_Get (key : string) : string :=
  if String.eqb key "ACKCODE" then "0"
  else if String.eqb key "ACKMSG" then "Success" else EmptyString.

Definition token_client (req : Request.t) : result HttpResponse.t :=
  Ok (HttpResponse.mk 200 Header_Get (Ok (list_byte_of_string "tok"))).

Definition token_request : TokenRequest.t :=
  TokenRequest.mk "user" "secret" "password".

Definition fetchToken :=
  fetchToken url_QueryEscape Sample.http_NewRequest_err
    json_Decode_TokenResponse.

Definition xml_Marshal_REGDATA (reg : REGDATA.t) : result (list Byte.byte) :=
  Ok (list_byte_of_string
        (Sample.tag "REGDATA"
           (Sample.tag "TIN" (REGDATA.TIN reg)
            +:+ Sample.tag "CERTKEY" (REGDATA.CERTKEY reg)))).

Definition xml_Marshal_REGDATAEFDMS (p : REGDATAEFDMS.t)
  : result (list Byte.byte) :=
  Ok (list_byte_of_string
        (Sample.tag "EFDMS"
           (Sample.tag "REGDATA"
              (Sample.tag "TIN" (REGDATA.TIN (REGDATAEFDMS.REGDATA p))
               +:+ Sample.tag "CERTKEY"
                     (REGDATA.CERTKEY (REGDATAEFDMS.REGDATA p)))
            +:+ Sample.tag "EFDMSSIGNATURE" (REGDATAEFDMS.EFDMSSIGNATURE p)))).

(** A decoder that reads the code, the message and the registration id. *)
Definition xml_Decode_REGRESPACK (body : list Byte.byte)
  : result REGDATARESP.t :=
  let text := string_of_list_byte body in
  match Sample.between "<ACKCODE>" "</ACKCODE>" text with
  | Some code =>
      Ok (REGDATARESP.mk code
            (default EmptyString (Sample.between "<ACKMSG>" "</ACKMSG>" text))
            (default EmptyString (Sample.between "<REGID>" "</REGID>" text))
            EmptyString EmptyString EmptyString EmptyString EmptyString
            EmptyString EmptyString EmptyString EmptyString EmptyString
            EmptyString EmptyString EmptyString 0 EmptyString EmptyString
            EmptyString EmptyString
            (TAXCODES.mk EmptyString EmptyString EmptyString EmptyString))
  | None => Err (errors_New "EOF")
  end.

(** An authority that registers every device. *)
Definition registrar (req : Request.t) : http_reply :=
  DoResponse 200
    (Ok (list_byte_of_string
           ("<EFDMS><EFDMSRESP><ACKCODE>0</ACKCODE>"
            +:+ "<ACKMSG>Registration Successful</ACKMSG>"
            +:+ "<REGID>TZ0100089</REGID></EFDMSRESP></EFDMS>"))).

Definition registration : RegistrationRequest.t :=
  RegistrationRequest.mk "application/xml" "10TZ100128" "109272930"
    "10TZ100128".

Definition register :=
  register Sample.PrivateKey Sample.PublicKey Sample.PublicKey_of
    Sample.sha1_Sum Sample.rsa_SignPKCS1v15 Sample.rsa_VerifyPKCS1v15
    Base64.EncodeToString xml_Marshal_REGDATA xml_Marshal_REGDATAEFDMS
    Sample.http_NewRequest_err Sample.xml_Decode_Error xml_Decode_REGRESPACK.

(** The body of the one request that [register] sends for [registration]
    with the good key. *)
Definition signed_body : list Byte.byte :=
  list_byte_of_string
    ("<EFDMS><REGDATA><TIN>109272930</TIN><CERTKEY>10TZ100128</CERTKEY>"
     +:+ "</REGDATA><EFDMSSIGNATURE>"
     +:+ match Run.Sign Sample.good_key
                 (list_byte_of_string
                    ("<REGDATA><TIN>109272930</TIN>"
                     +:+ "<CERTKEY>10TZ100128</CERTKEY></REGDATA>")) with
         | Ok sg => Base64.EncodeToString sg
         | Err _ => EmptyString
         end
     +:+ "</EFDMSSIGNATURE></EFDMS>").

(** A client that answers like [registrar] to that request and fails on
    every other. *)
Definition picky_registrar (req : Request.t) : http_reply :=
  if String.eqb (string_of_list_byte (Request.Body req))
       (string_of_list_byte signed_body)
  then registrar req
  else DoFailed (url_Error (errors_New "connection refused")).

(** An authority that rejects every document with the code 3. *)
Definition xml_Decode_RCTACKEFDMS (body : list Byte.byte) : result RCTACK.t :=
  Ok (RCTACK.mk 0 EmptyString EmptyString 3 "Invalid TIN").

Definition xml_Decode_ReportAckEFDMS (body : list Byte.byte) : result ZACK.t :=
  Ok (ZACK.mk 0 EmptyString EmptyString 3 "Invalid TIN").

Definition rejecting (req : Request.t) : http_reply :=
  DoResponse 200 (Ok (list_byte_of_string "<EFDMS/>")).

Definition submitReceipt (client_Do : Request.t -> http_reply) :=
  submitReceipt Sample.map_range Sample.PrivateKey Sample.PublicKey
    Sample.PublicKey_of Sample.sha1_Sum Sample.rsa_SignPKCS1v15
    Sample.rsa_VerifyPKCS1v15 Base64.EncodeToString Sample.xml_Marshal_RCT
    Sample.http_NewRequest_err client_Do Sample.xml_Decode_Error
    xml_Decode_RCTACKEFDMS.

Definition submitReport (client_Do : Request.t -> http_reply) :=
  submitReport Sample.PrivateKey Sample.PublicKey Sample.PublicKey_of
    Sample.sha1_Sum Sample.rsa_SignPKCS1v15 Sample.rsa_VerifyPKCS1v15
    Base64.EncodeToString Base64.DecodeString Sample.xml_Marshal_ZREPORT
    Sample.regexp_ReplaceAllString Sample.http_NewRequest_err client_Do
    Sample.xml_Decode_Error xml_Decode_ReportAckEFDMS.

(** A file system whose every file holds the signed sample receipt. *)
Definition os_ReadFile (path : string) : result (list Byte.byte) :=
  Run.ReceiptBytes Sample.good_key Sample.params Sample.customer Sample.items
    Sample.payments.

(** The text of the signed sample receipt. *)
Definition signed_receipt : string :=
  match os_ReadFile "receipt.xml" with
  | Ok payload => string_of_list_byte payload
  | Err _ => EmptyString
  end.

(** An authority that acknowledges a POST whose body is the signed sample
    receipt, and whose transport fails on every other request. *)
Definition picky_authority (req : Request.t) : http_reply :=
  if (String.eqb (Request.Method req) "POST"
      && String.eqb (Request.URL req) SubmitReceiptTestingURL
      && String.eqb (string_of_list_byte (Request.Body req)) signed_receipt)%bool
  then DoResponse 200 (Ok (list_byte_of_string "<EFDMS/>"))
  else DoFailed (errors_New "unexpected request").

Definition SubmitRawRequest :=
  SubmitRawRequest Base64.EncodeToString os_ReadFile
    Sample.http_NewRequest_err Sample.xml_Decode_Error xml_Decode_RCTACKEFDMS
    xml_Decode_ReportAckEFDMS.

End SampleExchange.

Lemma fetchToken_result_witness :
  let response :=
    TokenResponse.mk "0" "Success" "tok" "bearer" 3600 EmptyString in
  SampleExchange.fetchToken ctx_active SampleExchange.token_client
    FetchTokenTestingURL SampleExchange.token_request = (Some response, None)
  /\ (Some response = None <-> @None error <> None)
  /\ exists resp : HttpResponse.t,
       SampleExchange.token_client
         (fetchToken_Request SampleExchange.url_QueryEscape
            FetchTokenTestingURL SampleExchange.token_request) = Ok resp
       /\ HttpResponse.StatusCode resp = 200%Z
       /\ TokenResponse.Code response = HttpResponse.Header_Get resp "ACKCODE"
       /\ TokenResponse.Message response
          = HttpResponse.Header_Get resp "ACKMSG".
Proof.
  intros response.
  assert (H : SampleExchange.fetchToken ctx_active SampleExchange.token_client
                FetchTokenTestingURL SampleExchange.token_request
              = (Some response, None)) by (vm_compute; reflexivity).
  split; [exact H |].
  destruct (fetchToken_result _ _ _ _ _ _ _ _ _ H) as [Hx Hr].
  split; [exact Hx |].
  destruct (Hr response eq_refl)
    as (resp & out & decoded & Hdo & Hsc & _ & _ & Heq).
  exists resp. split; [exact Hdo |]. split; [exact Hsc |].
  rewrite Heq. split; reflexivity.
Defined.

Lemma register_sends_only_signed_requests_witness :
  (forall req : Request.t,
     signed_registration Sample.PrivateKey Sample.PublicKey
       Sample.PublicKey_of Sample.sha1_Sum Sample.rsa_SignPKCS1v15
       Sample.rsa_VerifyPKCS1v15 Base64.EncodeToString
       SampleExchange.xml_Marshal_REGDATA
       SampleExchange.xml_Marshal_REGDATAEFDMS RegisterTestingURL
       Sample.good_key SampleExchange.registration req ->
     SampleExchange.registrar req = SampleExchange.picky_registrar req)
  /\ SampleExchange.register ctx_active SampleExchange.registrar
       RegisterTestingURL Sample.good_key SampleExchange.registration
     = SampleExchange.register ctx_active SampleExchange.picky_registrar
         RegisterTestingURL Sample.good_key SampleExchange.registration.
Proof.
  assert (Hagree :
    forall req : Request.t,
      signed_registration Sample.PrivateKey Sample.PublicKey
        Sample.PublicKey_of Sample.sha1_Sum Sample.rsa_SignPKCS1v15
        Sample.rsa_VerifyPKCS1v15 Base64.EncodeToString
        SampleExchange.xml_Marshal_REGDATA
        SampleExchange.xml_Marshal_REGDATAEFDMS RegisterTestingURL
        Sample.good_key SampleExchange.registration req ->
      SampleExchange.registrar req = SampleExchange.picky_registrar req).
  { intros req (data & signature & Hdata & Hsig & _ & Hbody & _).
    injection Hdata as <-. vm_compute in Hsig. injection Hsig as <-.
    injection Hbody as Hbody.
    unfold SampleExchange.picky_registrar. rewrite <- Hbody.
    vm_compute. reflexivity. }
  split; [exact Hagree |].
  exact (register_sends_only_signed_requests _ _ _ _ _ _ _ _ _ _ _ _
           ctx_active _ _ _ _ _ Hagree).
Defined.

Lemma register_result_witness :
  exists response : RegistrationResponse.t,
    SampleExchange.register ctx_active SampleExchange.registrar
      RegisterTestingURL Sample.good_key SampleExchange.registration
    = (Some response, None)
    /\ (Some response = None <-> @None error <> None)
    /\ RegistrationResponse.ACKCODE response = "0"
    /\ RegistrationResponse.REGID response = "TZ0100089".
Proof.
  eexists.
  assert (H : SampleExchange.register ctx_active SampleExchange.registrar
                RegisterTestingURL Sample.good_key SampleExchange.registration
              = (Some _, None)) by (vm_compute; reflexivity).
  split; [exact H |].
  destruct (register_result _ _ _ _ _ _ _ _ _ _ _ _ _ _ _ _ _ _ _ H)
    as [Hx Hr].
  split; [exact Hx |].
  destruct (Hr _ eq_refl) as [Hc _]. split; [exact Hc | reflexivity].
Defined.

Lemma SubmitRawRequest_result_witness :
  let raw := RawRequest.mk env.PROD ReceiptVerificationAction EmptyString in
  let e := Some (errors_New "couldnt figure out the action") in
  SampleExchange.SubmitRawRequest ctx_active SampleExchange.rejecting
    Sample.headers raw = (None, e)
  /\ (@None Response.t = None <-> e <> None)
  /\ forall value : string,
       ("Routing-Key", value)
       ∉ raw_headers Base64.EncodeToString Sample.headers
           (RawRequest.Action raw).
Proof.
  intros raw e.
  assert (H : SampleExchange.SubmitRawRequest ctx_active
                SampleExchange.rejecting Sample.headers raw = (None, e))
    by (vm_compute; reflexivity).
  split; [exact H |].
  destruct (SubmitRawRequest_result _ _ _ _ _ _ _ _ _ _ _ _ H)
    as (Hx & _ & Hkey).
  split; [exact Hx |].
  intros value Hin. apply Hkey in Hin.
  destruct Hin as [[Hact _] | [Hact _]]; discriminate Hact.
Defined.



Lemma SubmitRawRequest_agrees_with_submitReceipt_witness :
  let raw := RawRequest.mk env.TEST SubmitReceiptAction "receipt.xml" in
  RawRequest.FilePath raw <> EmptyString
  /\ SampleExchange.os_ReadFile (RawRequest.FilePath raw)
     = Run.ReceiptBytes Sample.good_key Sample.params Sample.customer
         Sample.items Sample.payments
  /\ SampleExchange.SubmitRawRequest ctx_active SampleExchange.picky_authority
       Sample.headers raw
     = SampleExchange.submitReceipt SampleExchange.picky_authority ctx_active
         SubmitReceiptTestingURL Sample.headers Sample.good_key Sample.receipt
  /\ SampleExchange.SubmitRawRequest ctx_active SampleExchange.picky_authority
       Sample.headers raw
     = (Some (Response.mk 0 EmptyString EmptyString 3 "Invalid TIN"), None).
Proof.
  intros raw.
  assert (Hpath : RawRequest.FilePath raw <> EmptyString) by discriminate.
  split; [exact Hpath |]. split; [reflexivity |].
  destruct (Run.ReceiptBytes Sample.good_key Sample.params Sample.customer
              Sample.items Sample.payments) as [payload | err] eqn:Hbytes;
    [| vm_compute in Hbytes; discriminate Hbytes].
  pose proof (SubmitRawRequest_agrees_with_submitReceipt Sample.map_range
                Sample.PrivateKey Sample.PublicKey Sample.PublicKey_of
                Sample.sha1_Sum Sample.rsa_SignPKCS1v15
                Sample.rsa_VerifyPKCS1v15 Base64.EncodeToString
                Sample.xml_Marshal_RCT SampleExchange.os_ReadFile
                Sample.http_NewRequest_err Sample.xml_Decode_Error
                SampleExchange.xml_Decode_RCTACKEFDMS
                SampleExchange.xml_Decode_ReportAckEFDMS ctx_active
                SampleExchange.picky_authority Sample.headers Sample.good_key
                Sample.receipt raw payload eq_refl Hpath Hbytes Hbytes) as H.
  cbv zeta in H. destruct H as (_ & _ & _ & _ & Heq).
  assert (Hbody : payload
                  = list_byte_of_string SampleExchange.signed_receipt).
  { vm_compute in Hbytes. injection Hbytes as <-. vm_compute. reflexivity. }
  subst payload.
  destruct Heq as [_ Heq]; [vm_compute; reflexivity |].
  split.
  - apply (Heq 200%Z (Ok (list_byte_of_string "<EFDMS/>"))).
    vm_compute. reflexivity.
  - vm_compute. reflexivity.
Defined.
